(** * Pocket Insight: aggregation, store adapter and one-shot migration

    A shallow embedding of [src/lib/types.ts], [src/lib/calculations.ts],
    [src/lib/storage.ts], [src/lib/storageUtils.ts] and of the migration
    dialog of [src/pages/Dashboard.tsx], together with the properties the
    specification states about them.

    Conventions of the embedding.
    - A JavaScript [number] holding a currency amount is an exact rational
      ([Q]); rounding of IEEE doubles, [NaN] and the infinities are outside
      this model.  Equality of amounts is [Qeq] ([==]).  What is stated on
      rationals is what does not depend on rounding: which sum, quotient or
      comparison the code computes, not the value of regrouped or reordered
      sums.  Where rounding decides, the module [Binary64] has the same
      functions on the binary64 numbers of the program.
    - A JavaScript object used as a record with a fixed key order is an
      association list, so that [Object.keys] keeps the insertion order.
    - [new Date()] is an explicit argument [now].
    - [localStorage] is a finite map from strings to strings.
    - An [async] function is a state-passing function over the world, the
      [localStorage] of the device and the state of the remote store, that
      returns an [Outcome]: resolved or rejected.
    - [date-fns], [JSON.parse], [parseFloat], [String.prototype.trim] and
      the client of the remote store belong to the platform; each is
      modelled, or taken as a parameter, where it is used. *)

From Stdlib Require Import QArith Lqa ZArith Lia List Ascii String Sorted.
From Stdlib Require Import PrimFloat.
From stdpp Require Import base option list strings pretty gmap.
Import ListNotations.

Local Open Scope Z_scope.
Local Open Scope Q_scope.

(** Decimal literals of binary64 numbers denote the nearest binary64
    number, as they do in JavaScript. *)
Local Set Warnings "-inexact-float".

(** ** Record model ([src/lib/types.ts]) *)

(** The union type [Category] of [src/lib/types.ts], member for member and
    in its order, which is also the order of [categories.ts] and of the
    object literal of [getCategoryTotals]. *)
Inductive Category : Set :=
  | food | travel | shopping | rent
  | entertainment | utilities | health | other.

(** The union type [PaymentMethod] of [src/lib/types.ts]; the members are
    also the list [paymentMethods] of the expense form. *)
Inductive PaymentMethod : Set := cash | card | upi | bank.

#[global] Instance Category_eq_dec : EqDecision Category.
Proof. solve_decision. Defined.

#[global] Instance PaymentMethod_eq_dec : EqDecision PaymentMethod.
Proof. solve_decision. Defined.

(** The interface [Expense] of [src/lib/types.ts], field for field; the
    owner is a column of the store only.  [date] is a [yyyy-MM-dd] string,
    [tag] is optional, and [amount] is a [number]: the type does not say
    that it is positive. *)
Record Expense : Type := mkExpense {
  id : string;
  date : string;
  category : Category;
  description : string;
  amount : Q;
  paymentMethod : PaymentMethod;
  tag : option string;
  createdAt : string
}.

(** The interface [MonthlyBudget] of [src/lib/types.ts]; [month] has the
    format [yyyy-MM]. *)
Record MonthlyBudget : Type := mkBudget {
  budget_month : string;
  budget_amount : Q
}.

(** ** Numbers *)

(** [a > b] on numbers. *)
Definition Qgtb (a b : Q) : bool := negb (Qle_bool a b).

(** ** Aggregation engine ([src/lib/calculations.ts]) *)

(** The additions are those of the [reduce], from 0 and in the order of
    the list; their results are exact here and rounded in the program, so
    that sums taken in another order or grouping are equal here and can
    differ there ([Binary64.getTotalAmount]). *)
Definition getTotalAmount (expenses : list Expense) : Q :=
  fold_left (fun sum expense => sum + amount expense) expenses 0.

Definition getPercentageChange (current previous : Q) : Q :=
  if Qeq_bool previous 0 then (if Qgtb current 0 then 100 else 0)
  else ((current - previous) / previous) * 100.

(** A [Record<Category, number>]: the properties in insertion order. *)
Definition Totals : Type := list (Category * Q).

(** [Object.keys(o)]. *)
Definition keys (o : Totals) : list Category := map fst o.

(** [Object.values(o)]. *)
Definition values (o : Totals) : list Q := map snd o.

(** [o[k]]; [None] is [undefined]. *)
Fixpoint get (o : Totals) (k : Category) : option Q :=
  match o with
  | [] => None
  | (k', v) :: o' => if decide (k' = k) then Some v else get o' k
  end.

(** [o[k] += a] on a property that exists: the value changes in place and
    the key keeps its position.  The object of [getCategoryTotals] has every
    member of [Category] from the start ([getCategoryTotals_keys]), so the
    read of a missing property never happens. *)
Fixpoint add_to (o : Totals) (k : Category) (a : Q) : Totals :=
  match o with
  | [] => []
  | (k', v) :: o' =>
      if decide (k' = k) then (k', v + a) :: o' else (k', v) :: add_to o' k a
  end.

Definition totals_init : Totals :=
  [ (food, 0); (travel, 0); (shopping, 0); (rent, 0);
    (entertainment, 0); (utilities, 0); (health, 0); (other, 0) ].

Definition getCategoryTotals (expenses : list Expense) : Totals :=
  fold_left (fun totals expense => add_to totals (category expense) (amount expense))
            expenses totals_init.

(** One turn of the [forEach] of [getTopCategory]; the state is
    [(topCategory, maxAmount)]. *)
Definition top_step (totals : Totals) (st : option Category * Q) (c : Category)
  : option Category * Q :=
  match get totals c with
  | Some v => if Qgtb v (snd st) then (Some c, v) else st
  | None => st
  end.

Definition getTopCategory (expenses : list Expense) : option (Category * Q) :=
  let totals := getCategoryTotals expenses in
  let '(topCategory, maxAmount) :=
    fold_left (top_step totals) (keys totals) (None, 0) in
  match topCategory with
  | Some c => Some (c, maxAmount)
  | None => None
  end.

(** *** The same functions on binary64 numbers

    A [number] of the program is an IEEE 754 binary64 number and [+] rounds
    to nearest.  The functions that only add amounts are repeated here on
    the primitive binary64 numbers, to settle what depends on rounding. *)

Module Binary64.

(** [Expense] of [src/lib/types.ts], [amount] being a binary64 number. *)
Record Expense : Type := mkExpense {
  id : string;
  date : string;
  category : Category;
  description : string;
  amount : float;
  paymentMethod : PaymentMethod;
  tag : option string;
  createdAt : string
}.

Definition getTotalAmount (expenses : list Expense) : float :=
  fold_left (fun sum expense => (sum + amount expense)%float) expenses 0%float.

(** A [Record<Category, number>]: the properties in insertion order. *)
Definition Totals : Type := list (Category * float).

(** [Object.keys(o)]. *)
Definition keys (o : Totals) : list Category := map fst o.

(** [Object.values(o)]. *)
Definition values (o : Totals) : list float := map snd o.

(** [o[k]]; [None] is [undefined]. *)
Fixpoint get (o : Totals) (k : Category) : option float :=
  match o with
  | [] => None
  | (k', v) :: o' => if decide (k' = k) then Some v else get o' k
  end.

(** [o[k] += a] on a property that exists. *)
Fixpoint add_to (o : Totals) (k : Category) (a : float) : Totals :=
  match o with
  | [] => []
  | (k', v) :: o' =>
      if decide (k' = k) then (k', (v + a)%float) :: o'
      else (k', v) :: add_to o' k a
  end.

Definition totals_init : Totals :=
  [ (food, 0%float); (travel, 0%float); (shopping, 0%float); (rent, 0%float);
    (entertainment, 0%float); (utilities, 0%float); (health, 0%float);
    (other, 0%float) ].

Definition getCategoryTotals (expenses : list Expense) : Totals :=
  fold_left (fun totals expense => add_to totals (category expense) (amount expense))
            expenses totals_init.

End Binary64.

(** *** Dates

    [date-fns] and the built-in [Date] are used by the aggregation functions
    but are not part of the repository.  A [Date] is kept as its local
    calendar fields; two [Date]s compare by their time value, which for
    calendar dates in a zone with a fixed offset is the lexicographic order
    on (year, month, day, time of day). *)
Record Date : Type := mkDate {
  getFullYear : Z;
  getMonth : Z;      (* 0 = January ... 11 = December *)
  getDate : Z;       (* day of the month, from 1 *)
  timeOfDay : Z      (* milliseconds since local midnight *)
}.

Definition isLeapYear (y : Z) : bool :=
  ((y mod 4 =? 0) && negb (y mod 100 =? 0) || (y mod 400 =? 0))%Z.

(** Days of month [m] (0-based) of year [y]. *)
Definition getDaysInMonth (y m : Z) : Z :=
  (if m =? 1 then (if isLeapYear y then 29 else 28)
   else if (m =? 3) || (m =? 5) || (m =? 8) || (m =? 10) then 30
   else 31)%Z.

Definition Date_compare (a b : Date) : comparison :=
  match (getFullYear a ?= getFullYear b)%Z with
  | Eq =>
      match (getMonth a ?= getMonth b)%Z with
      | Eq =>
          match (getDate a ?= getDate b)%Z with
          | Eq => (timeOfDay a ?= timeOfDay b)%Z
          | c => c
          end
      | c => c
      end
  | c => c
  end.

(** [a <= b] and [a >= b] on [Date] objects. *)
Definition Date_leb (a b : Date) : bool :=
  match Date_compare a b with Gt => false | _ => true end.

Definition Date_geb (a b : Date) : bool := Date_leb b a.

Definition startOfMonth (d : Date) : Date :=
  {| getFullYear := getFullYear d; getMonth := getMonth d;
     getDate := 1; timeOfDay := 0 |}.

Definition endOfMonth (d : Date) : Date :=
  {| getFullYear := getFullYear d; getMonth := getMonth d;
     getDate := getDaysInMonth (getFullYear d) (getMonth d);
     timeOfDay := 86399999 |}.

(** [subMonths(d, n)]: calendar arithmetic on the month, the year rolls
    over, the day is clamped to the length of the target month and the time
    of day is kept. *)
Definition subMonths (d : Date) (n : Z) : Date :=
  let m := (getMonth d - n)%Z in
  let y' := (getFullYear d + m / 12)%Z in
  let m' := (m mod 12)%Z in
  {| getFullYear := y'; getMonth := m';
     getDate := Z.min (getDate d) (getDaysInMonth y' m');
     timeOfDay := timeOfDay d |}.

Definition digit (a : ascii) : option Z :=
  let n := Z.of_nat (nat_of_ascii a) in
  if ((48 <=? n) && (n <=? 57))%Z then Some (n - 48)%Z else None.

(** [parseISO] on the [yyyy-MM-dd] strings the application stores in
    [Expense.date]; the result is local midnight of that day.  [None] is
    the Invalid Date, for which every comparison is false. *)
Definition parseISO (s : string) : option Date :=
  match s with
  | String c1 (String c2 (String c3 (String c4 (String c5
      (String c6 (String c7 (String c8
        (String c9 (String c10 EmptyString))))))))) =>
      if Ascii.eqb c5 "-" && Ascii.eqb c8 "-" then
        y1 ← digit c1; y2 ← digit c2; y3 ← digit c3; y4 ← digit c4;
        m1 ← digit c6; m2 ← digit c7; d1 ← digit c9; d2 ← digit c10;
        let y := (((y1 * 10 + y2) * 10 + y3) * 10 + y4)%Z in
        let m := (m1 * 10 + m2)%Z in
        let d := (d1 * 10 + d2)%Z in
        if ((1 <=? m) && (m <=? 12) && (1 <=? d)
            && (d <=? getDaysInMonth y (m - 1)))%Z
        then Some {| getFullYear := y; getMonth := (m - 1)%Z;
                     getDate := d; timeOfDay := 0 |}
        else None
      else None
  | _ => None
  end.

Definition monthNames : list string :=
  [ "Jan"; "Feb"; "Mar"; "Apr"; "May"; "Jun";
    "Jul"; "Aug"; "Sep"; "Oct"; "Nov"; "Dec" ]%string.

(** [String.prototype.padStart(w, "0")]. *)
Definition padStart (w : nat) (s : string) : string :=
  fold_right String.append s (replicate (w - String.length s) "0"%string).

(** [format(d, "MMM yyyy")], for the years of the common era. *)
Definition format_MMM_yyyy (d : Date) : string :=
  (default "" (monthNames !! Z.to_nat (getMonth d))
   +:+ " " +:+ padStart 4 (pretty (getFullYear d)))%string.

(** The predicate of the [filter] calls: [expenseDate >= start &&
    expenseDate <= end]. *)
Definition within (start end_ : Date) (expense : Expense) : bool :=
  match parseISO (date expense) with
  | Some expenseDate => Date_geb expenseDate start && Date_leb expenseDate end_
  | None => false
  end.

Definition getCurrentMonthExpenses (now : Date) (expenses : list Expense)
  : list Expense :=
  let start := startOfMonth now in
  let end_ := endOfMonth now in
  List.filter (within start end_) expenses.

Definition getLastMonthExpenses (now : Date) (expenses : list Expense)
  : list Expense :=
  let lastMonth := subMonths now 1 in
  let start := startOfMonth lastMonth in
  let end_ := endOfMonth lastMonth in
  List.filter (within start end_) expenses.

(** An element of the result of [getMonthlyTotals]. *)
Record MonthTotal : Type := mkMonthTotal {
  month : string;
  total : Q
}.

(** The [for] loop of [getMonthlyTotals]: [k] is [i + 1], so the loop
    variable runs from [monthsBack - 1] down to [0]. *)
Fixpoint monthly_loop (now : Date) (expenses : list Expense)
    (k : nat) (result : list MonthTotal) : list MonthTotal :=
  match k with
  | O => result
  | S i =>
      let date := subMonths now (Z.of_nat i) in
      let monthStr := format_MMM_yyyy date in
      let start := startOfMonth date in
      let end_ := endOfMonth date in
      let monthExpenses := List.filter (within start end_) expenses in
      monthly_loop now expenses i
        (result ++ [ {| month := monthStr; total := getTotalAmount monthExpenses |} ])
  end.

Definition getMonthlyTotals (now : Date) (expenses : list Expense)
    (monthsBack : Z) : list MonthTotal :=
  monthly_loop now expenses (Z.to_nat monthsBack) [].

(** The quotient is exact here and rounded in the program. *)
Definition getAverageMonthlySpend (now : Date) (expenses : list Expense) : Q :=
  let monthlyTotals := getMonthlyTotals now expenses 12 in
  let nonZeroMonths := List.filter (fun m => Qgtb (total m) 0) monthlyTotals in
  if (length nonZeroMonths =? 0)%nat then 0
  else
    let total_ := fold_left (fun sum m => sum + total m) nonZeroMonths 0 in
    total_ / inject_Z (Z.of_nat (length nonZeroMonths)).

(** ** Effects

    [Outcome] is the result of running a piece of JavaScript: a value, or an
    exception.  For an [async] function [Returned] is a promise that
    resolves and [Thrown] one that rejects. *)
Inductive JsError : Type :=
  | SyntaxError (message : string)            (* JSON.parse *)
  | PostgrestError (code message : string)    (* the [error] of a store reply *)
  | Error (message : string).                 (* new Error(message) *)

Inductive Outcome (A : Type) : Type :=
  | Returned (a : A)
  | Thrown (e : JsError).
Arguments Returned {A} a.
Arguments Thrown {A} e.

(** [JSON.parse] at the two types the application reads back.  [Returned l]
    is a text that holds a JSON array, read as [l]; [Thrown e] is a text on
    which [JSON.parse] throws [e].  A text that is valid JSON without being
    an array, such as [null], is outside the model: the statements about the
    cache are conditions on one of these two outcomes. *)
Class Json : Type := {
  JSON_parse_expenses : string -> Outcome (list Expense);
  JSON_parse_budgets : string -> Outcome (list MonthlyBudget)
}.

(** *** Rows of the remote store ([supabase/migrations]) *)

Record ExpenseRow : Type := mkExpenseRow {
  row_id : string;
  row_user_id : string;
  row_date : string;
  row_category : string;
  row_description : string;
  row_amount : Q;
  row_payment_method : string;
  row_tag : option string;          (* nullable *)
  row_created_at : string
}.

Record BudgetRow : Type := mkBudgetRow {
  brow_id : string;
  brow_user_id : string;
  brow_month : string;
  brow_amount : Q;
  brow_created_at : string
}.

(** The object handed to [insert] on [expenses]: [id] and [created_at] have
    defaults in the table and may be left out. *)
Record ExpenseInsert : Type := mkExpenseInsert {
  ins_id : option string;
  ins_user_id : string;
  ins_date : string;
  ins_category : string;
  ins_description : string;
  ins_amount : Q;
  ins_payment_method : string;
  ins_tag : option string;
  ins_created_at : option string
}.

Record BudgetInsert : Type := mkBudgetInsert {
  bins_user_id : string;
  bins_month : string;
  bins_amount : Q
}.

(** The [updates] object of [updateExpense]: a column is [None] when the
    object has no such key. *)
Record ExpenseUpdate : Type := mkExpenseUpdate {
  upd_date : option string;
  upd_category : option string;
  upd_description : option string;
  upd_amount : option Q;
  upd_payment_method : option string;
  upd_tag : option string
}.

(** The calls the adapter makes on the client of the remote store; each
    returns the [error] field of the reply. *)
Class Supabase (R : Type) : Type := {
  expenses_insert : list ExpenseInsert -> R -> option JsError * R;
  expenses_update_eq_id : ExpenseUpdate -> string -> R -> option JsError * R;
  monthly_budgets_insert : list BudgetInsert -> R -> option JsError * R
}.

(** The runtime value of a [Category] and of a [PaymentMethod]. *)
Definition category_name (c : Category) : string :=
  match c with
  | food => "food" | travel => "travel" | shopping => "shopping"
  | rent => "rent" | entertainment => "entertainment"
  | utilities => "utilities" | health => "health" | other => "other"
  end.

Definition paymentMethod_name (p : PaymentMethod) : string :=
  match p with
  | cash => "cash" | card => "card" | upi => "upi" | bank => "bank"
  end.

(** Truthiness of a string: every string but the empty one. *)
Definition truthy (s : string) : bool := negb (String.eqb s "").

(** [Omit<Expense, "id" | "createdAt">]. *)
Record NewExpense : Type := mkNewExpense {
  new_date : string;
  new_category : Category;
  new_description : string;
  new_amount : Q;
  new_paymentMethod : PaymentMethod;
  new_tag : option string
}.

(** [Partial<Expense>]: [None] is a field that is [undefined]. *)
Record PartialExpense : Type := mkPartialExpense {
  p_id : option string;
  p_date : option string;
  p_category : option Category;
  p_description : option string;
  p_amount : option Q;
  p_paymentMethod : option PaymentMethod;
  p_tag : option string;
  p_createdAt : option string
}.

Definition EXPENSES_KEY : string := "expense-tracker-expenses".
Definition BUDGETS_KEY : string := "expense-tracker-budgets".

Section Program.
Context {R : Type} `{!Supabase R} `{!Json}.

(** What the program acts on: the [localStorage] of the device and the
    remote store behind the client. *)
Record World : Type := mkWorld {
  localStorage : gmap string string;
  supabase : R
}.

Definition M (A : Type) : Type := World -> Outcome A * World.

Definition ret {A} (a : A) : M A := fun w => (Returned a, w).

Definition throw {A} (e : JsError) : M A := fun w => (Thrown e, w).

Definition bind {A B} (m : M A) (k : A -> M B) : M B :=
  fun w =>
    match m w with
    | (Returned a, w') => k a w'
    | (Thrown e, w') => (Thrown e, w')
    end.

(** [try { body } catch (error) { handler }]. *)
Definition try_catch {A} (body : M A) (handler : JsError -> M A) : M A :=
  fun w =>
    match body w with
    | (Returned a, w') => (Returned a, w')
    | (Thrown e, w') => handler e w'
    end.

(** An expression that only reads the world. *)
Definition eval {A} (f : gmap string string -> Outcome A) : M A :=
  fun w => (f (localStorage w), w).

Definition localStorage_removeItem (k : string) : M unit :=
  fun w => (Returned tt,
            {| localStorage := delete k (localStorage w); supabase := supabase w |}).

Definition localStorage_setItem (k v : string) : M unit :=
  fun w => (Returned tt,
            {| localStorage := <[k := v]> (localStorage w); supabase := supabase w |}).

(** A call on the client: the reply's [error] is the value. *)
Definition request (call : R -> option JsError * R) : M (option JsError) :=
  fun w =>
    let '(error, s') := call (supabase w) in
    (Returned error, {| localStorage := localStorage w; supabase := s' |}).

(** [if (error) throw error]. *)
Definition throw_if (error : option JsError) : M unit :=
  match error with
  | Some e => throw e
  | None => ret tt
  end.

(** [if (c) { body }]. *)
Definition when_ (c : bool) (body : M unit) : M unit :=
  if c then body else ret tt.

End Program.

Arguments World R : clear implicits.
Arguments M R A : clear implicits.

Notation "x <- m ;; k" := (bind m (fun x => k))
  (at level 100, m at next level, right associativity).
Notation "m ;;; k" := (bind m (fun _ => k))
  (at level 100, right associativity).

(** What [migrateLocalStorageToSupabase] resolves with. *)
Inductive MigrationResult : Type :=
  | MigrationSuccess (expensesCount budgetsCount : nat)
      (* { success: true, expensesCount, budgetsCount } *)
  | MigrationFailure (error : JsError).
      (* { success: false, error } *)

Section Storage.
Context {R : Type} `{!Supabase R} `{!Json}.

(** *** [storage]: the local cache ([src/lib/storage.ts]) *)

Definition storage_getExpenses (ls : gmap string string)
  : Outcome (list Expense) :=
  match ls !! EXPENSES_KEY with
  | Some data => if truthy data then JSON_parse_expenses data else Returned []
  | None => Returned []
  end.

Definition storage_getBudgets (ls : gmap string string)
  : Outcome (list MonthlyBudget) :=
  match ls !! BUDGETS_KEY with
  | Some data => if truthy data then JSON_parse_budgets data else Returned []
  | None => Returned []
  end.

(** *** [supabaseStorage]: the adapter ([src/lib/storage.ts]) *)

Definition addExpense_row (userId : string) (expense : NewExpense)
  : ExpenseInsert :=
  {| ins_id := None;
     ins_user_id := userId;
     ins_date := new_date expense;
     ins_category := category_name (new_category expense);
     ins_description := new_description expense;
     ins_amount := new_amount expense;
     ins_payment_method := paymentMethod_name (new_paymentMethod expense);
     ins_tag := new_tag expense;
     ins_created_at := None |}.

Definition supabaseStorage_addExpense (userId : string) (expense : NewExpense)
  : M R unit :=
  error <- request (expenses_insert [addExpense_row userId expense]) ;;
  throw_if error.

(** [if (v) updates.k = v], for a string [v]. *)
Definition if_truthy (v : option string) : option string :=
  match v with
  | Some s => if truthy s then Some s else None
  | None => None
  end.

Definition updateExpense_updates (updatedExpense : PartialExpense)
  : ExpenseUpdate :=
  {| upd_date := if_truthy (p_date updatedExpense);
     upd_category := if_truthy (category_name <$> p_category updatedExpense);
     upd_description := if_truthy (p_description updatedExpense);
     upd_amount := p_amount updatedExpense;
     upd_payment_method :=
       if_truthy (paymentMethod_name <$> p_paymentMethod updatedExpense);
     upd_tag := p_tag updatedExpense |}.

Definition supabaseStorage_updateExpense (id_ : string)
    (updatedExpense : PartialExpense) : M R unit :=
  let updates := updateExpense_updates updatedExpense in
  error <- request (expenses_update_eq_id updates id_) ;;
  throw_if error.

(** *** The migration routine ([src/lib/storageUtils.ts]) *)

Definition expensesToInsert (userId : string) (localExpenses : list Expense)
  : list ExpenseInsert :=
  map (fun expense =>
         {| ins_id := Some (id expense);
            ins_user_id := userId;
            ins_date := date expense;
            ins_category := category_name (category expense);
            ins_description := description expense;
            ins_amount := amount expense;
            ins_payment_method := paymentMethod_name (paymentMethod expense);
            ins_tag := tag expense;
            ins_created_at := Some (createdAt expense) |})
      localExpenses.

Definition budgetsToInsert (userId : string) (localBudgets : list MonthlyBudget)
  : list BudgetInsert :=
  map (fun budget =>
         {| bins_user_id := userId;
            bins_month := budget_month budget;
            bins_amount := budget_amount budget |})
      localBudgets.

Definition migrateLocalStorageToSupabase (userId : string)
  : M R MigrationResult :=
  try_catch
    (localExpenses <- eval storage_getExpenses ;;
     localBudgets <- eval storage_getBudgets ;;
     when_ (0 <? length localExpenses)%nat
       (expensesError <-
          request (expenses_insert (expensesToInsert userId localExpenses)) ;;
        throw_if expensesError) ;;;
     when_ (0 <? length localBudgets)%nat
       (budgetsError <-
          request (monthly_budgets_insert (budgetsToInsert userId localBudgets)) ;;
        throw_if budgetsError) ;;;
     localStorage_removeItem "expense-tracker-expenses" ;;;
     localStorage_removeItem "expense-tracker-budgets" ;;;
     localStorage_setItem "migrated" "true" ;;;
     ret (MigrationSuccess (length localExpenses) (length localBudgets)))
    (fun error =>
       (* console.error("Migration error:", error) *)
       ret (MigrationFailure error)).

(** [!migrated]: the item is missing or is the empty string. *)
Definition not_ (v : option string) : bool :=
  match v with
  | Some s => negb (truthy s)
  | None => true
  end.

Definition hasLocalStorageData (ls : gmap string string) : Outcome bool :=
  match storage_getExpenses ls with
  | Thrown e => Thrown e
  | Returned expenses =>
      match storage_getBudgets ls with
      | Thrown e => Thrown e
      | Returned budgets =>
          let migrated := ls !! "migrated" in
          Returned (not_ migrated
                    && ((0 <? length expenses)%nat || (0 <? length budgets)%nat))
      end
  end.

End Storage.

(** ** The migration dialog ([src/pages/Dashboard.tsx]) *)

Section Dashboard.
Context {R : Type} `{!Supabase R} `{!Json}.

(** The state the dialog depends on: the flag of [useState] and the
    world.  [user] is the [id] of the signed-in user, if any. *)
Record Screen : Type := mkScreen {
  showMigrationDialog : bool;
  world : World R
}.

(** The effect on [[user]]:
    [if (user && hasLocalStorageData()) setShowMigrationDialog(true)]. *)
Definition Dashboard_useEffect (user : option string) (d : Screen)
  : Outcome Screen :=
  match user with
  | None => Returned d
  | Some _ =>
      match hasLocalStorageData (localStorage (world d)) with
      | Thrown e => Thrown e
      | Returned true =>
          Returned {| showMigrationDialog := true; world := world d |}
      | Returned false => Returned d
      end
  end.

(** [onClick] of the "Start Fresh" button:
    [() => setShowMigrationDialog(false)]. *)
Definition StartFresh_onClick (d : Screen) : Screen :=
  {| showMigrationDialog := false; world := world d |}.

(** [mutationFn] of [migrateMutation]; [!user?.id] holds without a user
    and for an [id] that is the empty string. *)
Definition migrateMutation_mutationFn (user : option string)
  : M R MigrationResult :=
  match user with
  | None => throw (Error "No user")
  | Some userId =>
      if truthy userId then migrateLocalStorageToSupabase userId
      else throw (Error "No user")
  end.

End Dashboard.

Arguments Screen R : clear implicits.

(** ** The expense form ([src/pages/AddExpense.tsx]) *)

(** [parseFloat]; [None] is [NaN]. *)
Class Builtins : Type := {
  parseFloat : string -> option Q
}.

(** White space of the ASCII range, as [String.prototype.trim] removes it. *)
Definition is_space (a : ascii) : bool :=
  let n := nat_of_ascii a in
  ((n =? 32) || ((9 <=? n) && (n <=? 13)))%nat.

Fixpoint trimStart (s : string) : string :=
  match s with
  | EmptyString => EmptyString
  | String a s' => if is_space a then trimStart s' else s
  end.

Definition trim (s : string) : string :=
  String.rev (trimStart (String.rev (trimStart s))).

(** The [useState] values of the form. *)
Record Form : Type := mkForm {
  form_date : string;
  form_category : Category;
  form_description : string;
  form_amount : string;
  form_paymentMethod : PaymentMethod;
  form_tag : string
}.

(** What [handleSubmit] ends with. *)
Inductive Submit : Type :=
  | toast_error (message : string)
  | addMutation_mutate (expense : NewExpense)
  | updateMutation_mutate (id_ : string) (data : PartialExpense).

Definition handleSubmit {builtins : Builtins} (editingExpense : option Expense)
    (f : Form)
  : Submit :=
  match parseFloat (form_amount f) with
  | None => toast_error "Please enter a valid amount"
  | Some numAmount =>
      if Qle_bool numAmount 0 then toast_error "Please enter a valid amount"
      else if negb (truthy (trim (form_description f)))
      then toast_error "Please enter a description"
      else
        match editingExpense with
        | Some editing =>
            updateMutation_mutate (id editing)
              {| p_id := None;
                 p_date := Some (form_date f);
                 p_category := Some (form_category f);
                 p_description := Some (trim (form_description f));
                 p_amount := Some numAmount;
                 p_paymentMethod := Some (form_paymentMethod f);
                 p_tag := (if truthy (trim (form_tag f))
                           then Some (trim (form_tag f)) else None);
                 p_createdAt := None |}
        | None =>
            addMutation_mutate
              {| new_date := form_date f;
                 new_category := form_category f;
                 new_description := trim (form_description f);
                 new_amount := numAmount;
                 new_paymentMethod := form_paymentMethod f;
                 new_tag := (if truthy (trim (form_tag f))
                             then Some (trim (form_tag f)) else None) |}
        end
  end.

(** ** A reference store

    The tables of [supabase/migrations]: [expenses] with primary key [id],
    [monthly_budgets] with primary key [id] and [UNIQUE (user_id, month)],
    both under row-level policies that compare [user_id] with [auth.uid()].
    [uuid_supply] stands for [gen_random_uuid()] and [clock] for [now()]. *)
Record Db : Type := mkDb {
  auth_uid : option string;
  expenses : list ExpenseRow;
  monthly_budgets : list BudgetRow;
  uuid_supply : nat;
  clock : string
}.

Definition gen_uuid (n : nat) : string := ("uuid-" +:+ pretty n)%string.

(** The rows an [INSERT] would add, defaults filled in; [n] is the next
    value of the supply. *)
Fixpoint expense_rows (clk : string) (n : nat) (l : list ExpenseInsert)
  : list ExpenseRow * nat :=
  match l with
  | [] => ([], n)
  | i :: l' =>
      let '(id_, n1) :=
        match ins_id i with
        | Some x => (x, n)
        | None => (gen_uuid n, Datatypes.S n)
        end in
      let '(rows, n2) := expense_rows clk n1 l' in
      ({| row_id := id_;
          row_user_id := ins_user_id i;
          row_date := ins_date i;
          row_category := ins_category i;
          row_description := ins_description i;
          row_amount := ins_amount i;
          row_payment_method := ins_payment_method i;
          row_tag := ins_tag i;
          row_created_at := default clk (ins_created_at i) |} :: rows, n2)
  end.

Fixpoint budget_rows (clk : string) (n : nat) (l : list BudgetInsert)
  : list BudgetRow * nat :=
  match l with
  | [] => ([], n)
  | i :: l' =>
      let '(rows, n2) := budget_rows clk (Datatypes.S n) l' in
      ({| brow_id := gen_uuid n;
          brow_user_id := bins_user_id i;
          brow_month := bins_month i;
          brow_amount := bins_amount i;
          brow_created_at := clk |} :: rows, n2)
  end.

(** No two elements of [l] have the same key. *)
Fixpoint distinct {A K : Type} `{!EqDecision K} (key : A -> K) (l : list A)
  : bool :=
  match l with
  | [] => true
  | x :: l' =>
      negb (existsb (fun y => bool_decide (key y = key x)) l') && distinct key l'
  end.

Definition rls_violation (table : string) : JsError :=
  PostgrestError "42501"
    ("new row violates row-level security policy for table " +:+ table).

Definition unique_violation (constraint : string) : JsError :=
  PostgrestError "23505"
    ("duplicate key value violates unique constraint " +:+ constraint).

(** [INSERT INTO expenses]: all rows or none. *)
Definition Db_expenses_insert (l : list ExpenseInsert) (db : Db)
  : option JsError * Db :=
  let '(rows, n) := expense_rows (clock db) (uuid_supply db) l in
  if negb (forallb (fun r => bool_decide (auth_uid db = Some (row_user_id r))) rows)
  then (Some (rls_violation "expenses"), db)
  else if negb (distinct row_id (expenses db ++ rows))
  then (Some (unique_violation "expenses_pkey"), db)
  else (None,
        {| auth_uid := auth_uid db;
           expenses := expenses db ++ rows;
           monthly_budgets := monthly_budgets db;
           uuid_supply := n;
           clock := clock db |}).

(** [INSERT INTO monthly_budgets]: all rows or none. *)
Definition Db_monthly_budgets_insert (l : list BudgetInsert) (db : Db)
  : option JsError * Db :=
  let '(rows, n) := budget_rows (clock db) (uuid_supply db) l in
  if negb (forallb (fun r => bool_decide (auth_uid db = Some (brow_user_id r))) rows)
  then (Some (rls_violation "monthly_budgets"), db)
  else if negb (distinct brow_id (monthly_budgets db ++ rows))
  then (Some (unique_violation "monthly_budgets_pkey"), db)
  else if negb (distinct (fun r => (brow_user_id r, brow_month r))
                         (monthly_budgets db ++ rows))
  then (Some (unique_violation "monthly_budgets_user_id_month_key"), db)
  else (None,
        {| auth_uid := auth_uid db;
           expenses := expenses db;
           monthly_budgets := monthly_budgets db ++ rows;
           uuid_supply := n;
           clock := clock db |}).

(** [SET] of the columns present in [u]. *)
Definition apply_update (u : ExpenseUpdate) (r : ExpenseRow) : ExpenseRow :=
  {| row_id := row_id r;
     row_user_id := row_user_id r;
     row_date := default (row_date r) (upd_date u);
     row_category := default (row_category r) (upd_category u);
     row_description := default (row_description r) (upd_description u);
     row_amount := default (row_amount r) (upd_amount u);
     row_payment_method := default (row_payment_method r) (upd_payment_method u);
     row_tag := match upd_tag u with Some t => Some t | None => row_tag r end;
     row_created_at := row_created_at r |}.

(** [UPDATE expenses SET ... WHERE id = id_], on the rows the policy lets
    the caller see. *)
Definition Db_expenses_update_eq_id (u : ExpenseUpdate) (id_ : string) (db : Db)
  : option JsError * Db :=
  (None,
   {| auth_uid := auth_uid db;
      expenses :=
        map (fun r =>
               if bool_decide (row_id r = id_)
                  && bool_decide (auth_uid db = Some (row_user_id r))
               then apply_update u r else r)
            (expenses db);
      monthly_budgets := monthly_budgets db;
      uuid_supply := uuid_supply db;
      clock := clock db |}).

#[global] Instance Db_Supabase : Supabase Db := {|
  expenses_insert := Db_expenses_insert;
  expenses_update_eq_id := Db_expenses_update_eq_id;
  monthly_budgets_insert := Db_monthly_budgets_insert
|}.

(** * Vocabulary of the properties *)

(** ** Amounts and categories *)

(** The sum of a list of amounts. *)
Definition Qsum (l : list Q) : Q := fold_right Qplus 0 l.

Definition all_categories : list Category :=
  [ food; travel; shopping; rent; entertainment; utilities; health; other ].

(** The expenses of category [c]. *)
Definition of_category (c : Category) (expenses : list Expense) : list Expense :=
  List.filter (fun e => bool_decide (category e = c)) expenses.

(** The total of category [c], read off the result of [getCategoryTotals]. *)
Definition categoryTotal (expenses : list Expense) (c : Category) : Q :=
  default 0 (get (getCategoryTotals expenses) c).

(** The expenses of category [c], on binary64 amounts. *)
Definition of_category64 (c : Category) (expenses : list Binary64.Expense)
  : list Binary64.Expense :=
  List.filter (fun e => bool_decide (Binary64.category e = c)) expenses.

(** The values of an object added up in the order of its keys, as
    [Object.values(o).reduce((a, b) => a + b, 0)] adds them. *)
Definition sum_values64 (o : Binary64.Totals) : float :=
  fold_left PrimFloat.add (Binary64.values o) 0%float.

(** The claim as the specification words it, on the numbers of the
    program: the keys are the eight categories and the values add up to
    [getTotalAmount]. *)
Definition categoryTotals_claim (expenses : list Binary64.Expense) : Prop :=
  Binary64.keys (Binary64.getCategoryTotals expenses) = all_categories
  /\ PrimFloat.eqb (sum_values64 (Binary64.getCategoryTotals expenses))
                   (Binary64.getTotalAmount expenses) = true.

(** The claim as the specification words it, the rule for ties left
    aside: [null] when every category total is zero, and otherwise a
    category that carries the largest total, with that total.  The
    specification states it for expenses of the record model, whose amounts
    are positive. *)
Definition topCategory_claim (expenses : list Expense) : Prop :=
  ((forall c, categoryTotal expenses c == 0) -> getTopCategory expenses = None)
  /\ (~ (forall c, categoryTotal expenses c == 0) ->
      exists c,
        getTopCategory expenses = Some (c, categoryTotal expenses c)
        /\ forall c', categoryTotal expenses c' <= categoryTotal expenses c).

(** ** Months *)

(** Months counted from year 0: the number of the month of [d]. *)
Definition monthIndex (d : Date) : Z := (getFullYear d * 12 + getMonth d)%Z.

(** The expense is dated in month number [k]. *)
Definition inMonth (k : Z) (e : Expense) : bool :=
  match parseISO (date e) with
  | Some d => (monthIndex d =? k)%Z
  | None => false
  end.

(** The label of month number [k]. *)
Definition monthLabel (k : Z) : string :=
  format_MMM_yyyy {| getFullYear := (k / 12)%Z; getMonth := (k mod 12)%Z;
                     getDate := 1; timeOfDay := 0 |}.

(** The entry that the turn with loop variable [i] pushes. *)
Definition entryFor (now : Date) (expenses : list Expense) (i : Z) : MonthTotal :=
  {| month := monthLabel (monthIndex now - i);
     total := getTotalAmount (List.filter (inMonth (monthIndex now - i)) expenses) |}.

(** The amounts of [l] that are strictly positive. *)
Definition positives (l : list Q) : list Q := List.filter (fun t => Qgtb t 0) l.

(** The arithmetic mean of a list of amounts. *)
Definition mean (l : list Q) : Q := Qsum l / inject_Z (Z.of_nat (length l)).

(** ** Sample expenses *)

Definition scenario : list Expense :=
  [ mkExpense "e1" "2024-03-02" food "lunch" 100 cash None "2024-03-02T10:00:00Z";
    mkExpense "e2" "2024-03-09" food "dinner" 200 card None "2024-03-09T20:00:00Z";
    mkExpense "e3" "2024-03-15" travel "train" 300 upi None "2024-03-15T08:00:00Z" ].

(** 0.1 on food, 0.2 and 0.3 on travel. *)
Definition tenths : list Binary64.Expense :=
  [ Binary64.mkExpense "t1" "2024-03-02" food "tea" 0.1%float cash None
                       "2024-03-02T10:00:00Z";
    Binary64.mkExpense "t2" "2024-03-09" travel "bus" 0.2%float card None
                       "2024-03-09T20:00:00Z";
    Binary64.mkExpense "t3" "2024-03-15" travel "tram" 0.3%float upi None
                       "2024-03-15T08:00:00Z" ].

(** A refund entered as a negative amount, which the record model
    excludes. *)
Definition refund : list Expense :=
  [ mkExpense "r1" "2024-03-05" food "refund" (- (5)) card None
              "2024-03-05T10:00:00Z" ].

(** Two expenses, 600 in January and 400 in March 2024, seen from March
    2024: two months of the window have a total that is not zero. *)
Definition two_months : list Expense :=
  [ mkExpense "a" "2024-03-15" food "groceries" 400 cash None "2024-03-15T09:00:00Z";
    mkExpense "b" "2024-01-31" rent "room" 600 bank None "2024-01-31T09:00:00Z" ].

Definition now_2024_03 : Date :=
  {| getFullYear := 2024; getMonth := 2; getDate := 31; timeOfDay := 43200000 |}.

(** ** The migration and the dialog *)

Section Vocabulary.
Context {R : Type} `{!Supabase R} `{!Json}.

(** What the first half of the routine leaves behind: the store after the
    insert of the expenses, and its [error]. *)
Definition expenses_phase (userId : string) (localExpenses : list Expense)
    (s : R) : option JsError * R :=
  if (0 <? length localExpenses)%nat
  then expenses_insert (expensesToInsert userId localExpenses) s
  else (None, s).

(** The [localStorage] after a migration that went through. *)
Definition migrated_storage (ls : gmap string string) : gmap string string :=
  <["migrated" := "true"]> (delete BUDGETS_KEY (delete EXPENSES_KEY ls)).

(** The claim as the specification words it: after "Start Fresh" nothing
    has been transferred or cleared, the completion flag is in
    [localStorage], and the effect of the dashboard leaves the dialog
    closed from then on. *)
Definition decline_is_terminal (d : Screen R) : Prop :=
  let d' := StartFresh_onClick d in
  world d' = world d
  /\ not_ (localStorage (world d') !! "migrated") = false
  /\ forall user, Dashboard_useEffect user d' = Returned d'.

End Vocabulary.

(** ** The adapter *)

(** The constraints of the record model on the fields of a new expense; the
    category and the payment method are members of their enumerations by
    their types. *)
Definition valid_fields (expense : NewExpense) : bool :=
  Qgtb (new_amount expense) 0 && truthy (trim (new_description expense)).

(** The claim as the specification words it: fields that break the
    constraints are rejected and the store is left as it was. *)
Definition addExpense_validates {R : Type} `{!Supabase R}
    (userId : string) (expense : NewExpense) (w : World R) : Prop :=
  valid_fields expense = false ->
  exists error, supabaseStorage_addExpense userId expense w = (Thrown error, w).

(** The row [INSERT] stores for the fields of [addExpense]. *)
Definition stored_row (db : Db) (userId : string) (expense : NewExpense)
  : ExpenseRow :=
  {| row_id := gen_uuid (uuid_supply db);
     row_user_id := userId;
     row_date := new_date expense;
     row_category := category_name (new_category expense);
     row_description := new_description expense;
     row_amount := new_amount expense;
     row_payment_method := paymentMethod_name (new_paymentMethod expense);
     row_tag := new_tag expense;
     row_created_at := clock db |}.

(** [UPDATE ... WHERE id = id_] with [f] as the change of a row. *)
Definition update_rows (f : ExpenseRow -> ExpenseRow) (id_ : string) (db : Db)
  : list ExpenseRow :=
  map (fun r =>
         if bool_decide (row_id r = id_)
            && bool_decide (auth_uid db = Some (row_user_id r))
         then f r else r)
      (expenses db).

(** The claim as the specification words it: every field that is supplied
    takes the supplied value, every other field stays.  The specification
    states it for the fields an update may carry: any field except [id] and
    [createdAt], with a date and a description that are not empty. *)
Definition supplied_row (p : PartialExpense) (r : ExpenseRow) : ExpenseRow :=
  {| row_id := default (row_id r) (p_id p);
     row_user_id := row_user_id r;
     row_date := default (row_date r) (p_date p);
     row_category := default (row_category r) (category_name <$> p_category p);
     row_description := default (row_description r) (p_description p);
     row_amount := default (row_amount r) (p_amount p);
     row_payment_method :=
       default (row_payment_method r) (paymentMethod_name <$> p_paymentMethod p);
     row_tag := match p_tag p with Some t => Some t | None => row_tag r end;
     row_created_at := default (row_created_at r) (p_createdAt p) |}.

Definition updateExpense_exact (id_ : string) (p : PartialExpense)
    (ls : gmap string string) (db : Db) : Prop :=
  exists db',
    supabaseStorage_updateExpense id_ p {| localStorage := ls; supabase := db |}
    = (Returned tt, {| localStorage := ls; supabase := db' |})
    /\ expenses db' = update_rows (supplied_row p) id_ db.

(** [v] when it is supplied and not the empty string, [old] otherwise. *)
Definition nonempty (v : option string) (old : string) : string :=
  match v with
  | Some s => if String.eqb s "" then old else s
  | None => old
  end.

(** What is written for any record at all: a date or a description
    supplied as the empty string counts as not supplied, and [id] and
    [createdAt] are never written. *)
Definition written_row (p : PartialExpense) (r : ExpenseRow) : ExpenseRow :=
  {| row_id := row_id r;
     row_user_id := row_user_id r;
     row_date := nonempty (p_date p) (row_date r);
     row_category := default (row_category r) (category_name <$> p_category p);
     row_description := nonempty (p_description p) (row_description r);
     row_amount := default (row_amount r) (p_amount p);
     row_payment_method :=
       default (row_payment_method r) (paymentMethod_name <$> p_paymentMethod p);
     row_tag := match p_tag p with Some t => Some t | None => row_tag r end;
     row_created_at := row_created_at r |}.

(** ** A device with a cache, and accounts of the store *)

Definition cached_expenses : list Expense :=
  [ mkExpense "e1" "2024-03-02" food "lunch" 120 cash None "2024-03-02T10:00:00Z";
    mkExpense "e2" "2024-03-09" travel "train" 80 card (Some "work")
              "2024-03-09T20:00:00Z" ].

Definition cached_budgets : list MonthlyBudget := [ mkBudget "2024-03" 5000 ].

(** A [JSON.parse] that knows the two texts of the cache. *)
#[global] Instance cache_Json : Json := {|
  JSON_parse_expenses text :=
    if String.eqb text "[e1,e2]" then Returned cached_expenses
    else if String.eqb text "[]" then Returned []
    else Thrown (SyntaxError "Unexpected token");
  JSON_parse_budgets text :=
    if String.eqb text "[b1]" then Returned cached_budgets
    else if String.eqb text "[]" then Returned []
    else Thrown (SyntaxError "Unexpected token")
|}.

Definition device_cache : gmap string string :=
  <[EXPENSES_KEY := "[e1,e2]"]> (<[BUDGETS_KEY := "[b1]"]> ∅).

(** The account of user [u1], which already has a budget for March 2024. *)
Definition db_u1 : Db :=
  {| auth_uid := Some "u1";
     expenses := [];
     monthly_budgets :=
       [ mkBudgetRow "b-0" "u1" "2024-03" 4000 "2024-03-01T00:00:00Z" ];
     uuid_supply := 0;
     clock := "2024-03-31T12:00:00Z" |}.

(** The same account once the two cached expenses are in. *)
Definition db_u1_with_expenses : Db :=
  {| auth_uid := Some "u1";
     expenses :=
       [ mkExpenseRow "e1" "u1" "2024-03-02" "food" "lunch" 120 "cash" None
                      "2024-03-02T10:00:00Z";
         mkExpenseRow "e2" "u1" "2024-03-09" "travel" "train" 80 "card"
                      (Some "work") "2024-03-09T20:00:00Z" ];
     monthly_budgets :=
       [ mkBudgetRow "b-0" "u1" "2024-03" 4000 "2024-03-01T00:00:00Z" ];
     uuid_supply := 0;
     clock := "2024-03-31T12:00:00Z" |}.

(** A session of somebody else: the policy refuses rows of [u1]. *)
Definition db_u2 : Db :=
  {| auth_uid := Some "u2";
     expenses := [];
     monthly_budgets := [];
     uuid_supply := 0;
     clock := "2024-03-31T12:00:00Z" |}.

(** An account with nothing in it. *)
Definition db_fresh : Db :=
  {| auth_uid := Some "u1";
     expenses := [];
     monthly_budgets := [];
     uuid_supply := 0;
     clock := "2024-03-31T12:00:00Z" |}.

(** The dashboard of [u1] on the device with the cache, dialog open. *)
Definition dashboard_u1 : Screen Db :=
  {| showMigrationDialog := true;
     world := {| localStorage := device_cache; supabase := db_u1 |} |}.

(** The same device in front of the empty account. *)
Definition dashboard_fresh : Screen Db :=
  {| showMigrationDialog := true;
     world := {| localStorage := device_cache; supabase := db_fresh |} |}.

Definition bad_fields : NewExpense :=
  {| new_date := "2024-03-20";
     new_category := food;
     new_description := "   ";
     new_amount := - (5);
     new_paymentMethod := cash;
     new_tag := None |}.

(** A [parseFloat] that knows a few texts. *)
Definition table_parseFloat : Builtins := {|
  parseFloat text :=
    if String.eqb text "12.50" then Some (25 # 2)
    else if String.eqb text "-5" then Some (- (5))
    else if String.eqb text "0" then Some 0
    else None
|}.

Definition lunch_form : Form :=
  {| form_date := "2024-03-20";
     form_category := food;
     form_description := "  lunch ";
     form_amount := "12.50";
     form_paymentMethod := upi;
     form_tag := "" |}.

(** [{ description: "" }]. *)
Definition empty_description : PartialExpense :=
  {| p_id := None; p_date := None; p_category := None;
     p_description := Some ""%string;
     p_amount := None; p_paymentMethod := None; p_tag := None;
     p_createdAt := None |}.

(** [{ createdAt: "2025-01-01T00:00:00Z" }]. *)
Definition new_createdAt : PartialExpense :=
  {| p_id := None; p_date := None; p_category := None; p_description := None;
     p_amount := None; p_paymentMethod := None; p_tag := None;
     p_createdAt := Some "2025-01-01T00:00:00Z"%string |}.

(** [{ amount: 0, tag: "", category: "rent" }]. *)
Definition some_fields : PartialExpense :=
  {| p_id := None; p_date := None; p_category := Some rent;
     p_description := None; p_amount := Some 0; p_paymentMethod := None;
     p_tag := Some ""%string; p_createdAt := None |}.

(** * Further vocabulary *)

(** ** Periods *)

(** The year and the month before the month of [now]. *)
Definition previousMonth (now : Date) : Z * Z :=
  if (getMonth now =? 0)%Z then ((getFullYear now - 1)%Z, 11%Z)
  else (getFullYear now, (getMonth now - 1)%Z).

(** January 15th, 2024. *)
Definition now_2024_01 : Date :=
  {| getFullYear := 2024; getMonth := 0; getDate := 15; timeOfDay := 0 |}.

Definition turn_of_year : list Expense :=
  [ mkExpense "x" "2023-12-31" other "fee" 9 bank None "2023-12-31T23:00:00Z";
    mkExpense "y" "2024-01-01" food "brunch" 30 cash None "2024-01-01T11:00:00Z";
    mkExpense "z" "2023-11-30" rent "room" 600 bank None "2023-11-30T09:00:00Z" ].

(** ** Category table ([src/lib/categories.ts]) *)

(** An entry of [categories]; [icon] is the name of the component. *)
Record CategoryInfo : Type := mkCategoryInfo {
  value : string;
  label : string;
  icon : string;
  emoji : string
}.

Definition categories : list CategoryInfo :=
  [ {| value := "food"; label := "Food"; icon := "Utensils"; emoji := "🍔" |};
    {| value := "travel"; label := "Travel"; icon := "Car"; emoji := "🚗" |};
    {| value := "shopping"; label := "Shopping"; icon := "ShoppingBag"; emoji := "🛍️" |};
    {| value := "rent"; label := "Rent"; icon := "Home"; emoji := "🏠" |};
    {| value := "entertainment"; label := "Entertainment"; icon := "Tv"; emoji := "🎬" |};
    {| value := "utilities"; label := "Utilities"; icon := "Lightbulb"; emoji := "💡" |};
    {| value := "health"; label := "Health"; icon := "Heart"; emoji := "❤️" |};
    {| value := "other"; label := "Other"; icon := "MoreHorizontal"; emoji := "📌" |} ]%string.

(** [categories.find(c => c.value === category) ||
    categories[categories.length - 1]]; [None] is [undefined]. *)
Definition getCategoryInfo (category : string) : option CategoryInfo :=
  match List.find (fun c => String.eqb (value c) category) categories with
  | Some c => Some c
  | None => categories !! (length categories - 1)%nat
  end.

(** ** The view of the dashboard ([src/pages/Dashboard.tsx]) *)

(** An element of [pieData]. *)
Record PieSlice : Type := mkPieSlice {
  pie_name : string;
  pie_value : Q;
  pie_color : string
}.

(** [Object.entries(categoryTotals).filter(([_, value]) => value > 0)
    .map(...)]. *)
Definition Dashboard_pieData (categoryTotals : Totals) : list PieSlice :=
  map (fun '(category, value_) =>
         let catInfo := getCategoryInfo (category_name category) in
         {| pie_name := category_name category;
            pie_value := value_;
            pie_color := match catInfo with
                         | Some info => emoji info
                         | None => "#8884d8"%string
                         end |})
      (List.filter (fun '(_, value_) => Qgtb value_ 0) categoryTotals).

(** [budget?.amount ?? 0]. *)
Definition Dashboard_budgetAmount (budget : option MonthlyBudget) : Q :=
  match budget with
  | Some b => budget_amount b
  | None => 0
  end.

(** [budgetAmount ? (currentTotal / budgetAmount) * 100 : 0].  The
    quotient and the product are exact here and rounded in the program: a
    total at exactly 80% of the budget can come out just above or just
    below 80 there. *)
Definition Dashboard_budgetPercentage (budget : option MonthlyBudget)
    (currentTotal : Q) : Q :=
  let budgetAmount := Dashboard_budgetAmount budget in
  if Qeq_bool budgetAmount 0 then 0 else (currentTotal / budgetAmount) * 100.

(** The colour class of the progress bar. *)
Definition Dashboard_barClass (budgetPercentage : Q) : string :=
  if Qgtb budgetPercentage 100 then "bg-destructive"
  else if Qgtb budgetPercentage 80 then "bg-warning"
  else "bg-success".

(** [Math.min(budgetPercentage, 100)], the width of the bar in percent. *)
Definition Dashboard_barWidth (budgetPercentage : Q) : Q :=
  if Qle_bool budgetPercentage 100 then budgetPercentage else 100.

(** The data of the query [["expenses", user.id]] in the cache of the
    query client; [None] is [undefined]. *)
Definition QueryData : Type := option (list Expense).

(** [onMutate] of [deleteMutation]: the new data of the cache and the
    context [{ previous }]. *)
Definition deleteMutation_onMutate (id_ : string) (cache : QueryData)
  : QueryData * QueryData :=
  let previous := cache in
  match previous with
  | Some l =>
      (Some (List.filter (fun e => negb (String.eqb (id e) id_)) l), previous)
  | None => (cache, previous)
  end.

(** [onError] of [deleteMutation], given the context of [onMutate]. *)
Definition deleteMutation_onError (context : QueryData) (cache : QueryData)
  : QueryData :=
  match context with
  | Some previous => Some previous
  | None => cache
  end.

(** A budget of 1000 for March 2024. *)
Definition budget_1000 : MonthlyBudget := mkBudget "2024-03" 1000.

(** ** The other calls of the adapter ([src/lib/storage.ts]) *)

(** The reply of a [select]: [{ data, error }]. *)
Record SelectReply (A : Type) : Type := mkSelectReply {
  reply_data : option A;       (* [None] is [null] *)
  reply_error : option JsError
}.
Arguments mkSelectReply {A} _ _.
Arguments reply_data {A} _.
Arguments reply_error {A} _.

(** The calls on the client that [getExpenses], [deleteExpense],
    [getBudgets], [saveBudget] and [getBudgetForMonth] make. *)
Class SupabaseQueries (R : Type) : Type := {
  (* from("expenses").select("*").eq("user_id", u).order("date", desc) *)
  expenses_select_eq_user_id_order_date :
    string -> R -> SelectReply (list ExpenseRow);
  (* from("expenses").delete().eq("id", id) *)
  expenses_delete_eq_id : string -> R -> option JsError * R;
  (* from("monthly_budgets").select("*").eq("user_id", u) *)
  monthly_budgets_select_eq_user_id :
    string -> R -> SelectReply (list BudgetRow);
  (* from("monthly_budgets").upsert(row, { onConflict: "user_id,month" }) *)
  monthly_budgets_upsert : BudgetInsert -> R -> option JsError * R;
  (* from("monthly_budgets").select("*").eq("user_id", u).eq("month", m)
       .maybeSingle() *)
  monthly_budgets_select_maybeSingle :
    string -> string -> R -> SelectReply BudgetRow
}.

(** The object [getExpenses] builds for a row.  [category] and
    [paymentMethod] are the texts of the columns: the cast [as any] checks
    nothing, so they are kept as strings here. *)
Record FetchedExpense : Type := mkFetchedExpense {
  fetched_id : string;
  fetched_date : string;
  fetched_category : string;
  fetched_description : string;
  fetched_amount : Q;
  fetched_paymentMethod : string;
  fetched_tag : option string;
  fetched_createdAt : string
}.

Definition getExpenses_item (item : ExpenseRow) : FetchedExpense :=
  {| fetched_id := row_id item;
     fetched_date := row_date item;
     fetched_category := row_category item;
     fetched_description := row_description item;
     fetched_amount := row_amount item;
     fetched_paymentMethod := row_payment_method item;
     fetched_tag := row_tag item;
     fetched_createdAt := row_created_at item |}.

Definition getBudgets_item (item : BudgetRow) : MonthlyBudget :=
  {| budget_month := brow_month item; budget_amount := brow_amount item |}.

Section Queries.
Context {R : Type} `{!SupabaseQueries R}.

(** A call that reads: the reply is the value, the world stays. *)
Definition query {A} (call : R -> SelectReply A) : M R (SelectReply A) :=
  fun w => (Returned (call (supabase w)), w).

Definition supabaseStorage_getExpenses (userId : string)
  : M R (list FetchedExpense) :=
  reply <- query (expenses_select_eq_user_id_order_date userId) ;;
  throw_if (reply_error reply) ;;;
  ret (map getExpenses_item (default [] (reply_data reply))).

Definition supabaseStorage_deleteExpense (id_ : string) : M R unit :=
  error <- request (expenses_delete_eq_id id_) ;;
  throw_if error.

Definition supabaseStorage_getBudgets (userId : string)
  : M R (list MonthlyBudget) :=
  reply <- query (monthly_budgets_select_eq_user_id userId) ;;
  throw_if (reply_error reply) ;;;
  ret (map getBudgets_item (default [] (reply_data reply))).

Definition supabaseStorage_saveBudget (userId : string) (budget : MonthlyBudget)
  : M R unit :=
  error <- request (monthly_budgets_upsert
                      {| bins_user_id := userId;
                         bins_month := budget_month budget;
                         bins_amount := budget_amount budget |}) ;;
  throw_if error.

(** The result is [None] for [null]. *)
Definition supabaseStorage_getBudgetForMonth (userId month_ : string)
  : M R (option MonthlyBudget) :=
  reply <- query (monthly_budgets_select_maybeSingle userId month_) ;;
  throw_if (reply_error reply) ;;;
  match reply_data reply with
  | None => ret None
  | Some data =>
      ret (Some {| budget_month := brow_month data;
                   budget_amount := brow_amount data |})
  end.

End Queries.

(** *** The same calls on the reference store *)

(** The row passes the policies of its table for the session of [db]:
    [auth.uid() = user_id]. *)
Definition visible (db : Db) (owner : string) : bool :=
  bool_decide (auth_uid db = Some owner).

(** [ORDER BY date DESC]: [r] goes in front of the first row that is not
    dated after it.  Dates are compared as texts, which for [yyyy-MM-dd] is
    the order of the calendar. *)
Fixpoint insert_by_date_desc (r : ExpenseRow) (l : list ExpenseRow)
  : list ExpenseRow :=
  match l with
  | [] => [r]
  | x :: l' =>
      if String.ltb (row_date r) (row_date x)
      then x :: insert_by_date_desc r l'
      else r :: x :: l'
  end.

Definition order_by_date_desc (l : list ExpenseRow) : list ExpenseRow :=
  fold_right insert_by_date_desc [] l.

Definition Db_expenses_select (userId : string) (db : Db)
  : SelectReply (list ExpenseRow) :=
  {| reply_data :=
       Some (order_by_date_desc
               (List.filter (fun r => visible db (row_user_id r)
                                      && String.eqb (row_user_id r) userId)
                            (expenses db)));
     reply_error := None |}.

(** [DELETE FROM expenses WHERE id = id_], on the rows the policy lets the
    caller see; deleting nothing is no error. *)
Definition Db_expenses_delete (id_ : string) (db : Db) : option JsError * Db :=
  (None,
   {| auth_uid := auth_uid db;
      expenses :=
        List.filter (fun r => negb (String.eqb (row_id r) id_
                                    && visible db (row_user_id r)))
                    (expenses db);
      monthly_budgets := monthly_budgets db;
      uuid_supply := uuid_supply db;
      clock := clock db |}).

Definition Db_monthly_budgets_select (userId : string) (db : Db)
  : SelectReply (list BudgetRow) :=
  {| reply_data :=
       Some (List.filter (fun r => visible db (brow_user_id r)
                                   && String.eqb (brow_user_id r) userId)
                         (monthly_budgets db));
     reply_error := None |}.

(** The budget rows of [userId] for [month_]. *)
Definition same_budget (userId month_ : string) (r : BudgetRow) : bool :=
  String.eqb (brow_user_id r) userId && String.eqb (brow_month r) month_.

(** [INSERT ... ON CONFLICT (user_id, month) DO UPDATE]: a row of the same
    user and month takes the new amount, otherwise a row is added. *)
Definition Db_monthly_budgets_upsert (i : BudgetInsert) (db : Db)
  : option JsError * Db :=
  if negb (visible db (bins_user_id i))
  then (Some (rls_violation "monthly_budgets"), db)
  else if existsb (same_budget (bins_user_id i) (bins_month i))
                  (monthly_budgets db)
  then (None,
        {| auth_uid := auth_uid db;
           expenses := expenses db;
           monthly_budgets :=
             map (fun r =>
                    if same_budget (bins_user_id i) (bins_month i) r
                    then {| brow_id := brow_id r;
                            brow_user_id := brow_user_id r;
                            brow_month := brow_month r;
                            brow_amount := bins_amount i;
                            brow_created_at := brow_created_at r |}
                    else r)
                 (monthly_budgets db);
           uuid_supply := uuid_supply db;
           clock := clock db |})
  else Db_monthly_budgets_insert [i] db.

(** [maybeSingle()]: no row is [null], one row is the row, more rows are an
    error. *)
Definition Db_monthly_budgets_select_maybeSingle (userId month_ : string)
    (db : Db) : SelectReply BudgetRow :=
  match List.filter (fun r => visible db (brow_user_id r)
                              && same_budget userId month_ r)
                    (monthly_budgets db) with
  | [] => {| reply_data := None; reply_error := None |}
  | [r] => {| reply_data := Some r; reply_error := None |}
  | _ => {| reply_data := None;
            reply_error :=
              Some (PostgrestError "PGRST116"
                      "JSON object requested, multiple (or no) rows returned") |}
  end.

#[global] Instance Db_SupabaseQueries : SupabaseQueries Db := {|
  expenses_select_eq_user_id_order_date := Db_expenses_select;
  expenses_delete_eq_id := Db_expenses_delete;
  monthly_budgets_select_eq_user_id := Db_monthly_budgets_select;
  monthly_budgets_upsert := Db_monthly_budgets_upsert;
  monthly_budgets_select_maybeSingle := Db_monthly_budgets_select_maybeSingle
|}.

(** The row the migration stores for a cached expense. *)
Definition migrated_row (userId : string) (expense : Expense) : ExpenseRow :=
  {| row_id := id expense;
     row_user_id := userId;
     row_date := date expense;
     row_category := category_name (category expense);
     row_description := description expense;
     row_amount := amount expense;
     row_payment_method := paymentMethod_name (paymentMethod expense);
     row_tag := tag expense;
     row_created_at := createdAt expense |}.

(** The object [getExpenses] gives back for an expense that was stored
    under [id_] at [createdAt_]. *)
Definition fetched_of (id_ createdAt_ : string) (expense : NewExpense)
  : FetchedExpense :=
  {| fetched_id := id_;
     fetched_date := new_date expense;
     fetched_category := category_name (new_category expense);
     fetched_description := new_description expense;
     fetched_amount := new_amount expense;
     fetched_paymentMethod := paymentMethod_name (new_paymentMethod expense);
     fetched_tag := new_tag expense;
     fetched_createdAt := createdAt_ |}.

(** Rows in the order [ORDER BY date DESC] asks for. *)
Definition date_desc (a b : ExpenseRow) : Prop :=
  String.ltb (row_date a) (row_date b) = false.

(** A device whose cache text for the budgets is cut short. *)
Definition broken_cache : gmap string string :=
  <[EXPENSES_KEY := "[e1,e2]"]> (<[BUDGETS_KEY := "[b1"]> ∅).

(** An account with three expenses of [u1], out of order, and one of [u2]. *)
Definition db_shared : Db :=
  {| auth_uid := Some "u1";
     expenses :=
       [ mkExpenseRow "a" "u1" "2024-02-10" "food" "pizza" 20 "cash" None
                      "2024-02-10T19:00:00Z";
         mkExpenseRow "b" "u2" "2024-03-01" "rent" "flat" 900 "bank" None
                      "2024-03-01T08:00:00Z";
         mkExpenseRow "c" "u1" "2024-03-05" "travel" "bus" 3 "upi" (Some "work")
                      "2024-03-05T07:00:00Z";
         mkExpenseRow "d" "u1" "2024-01-20" "health" "dentist" 75 "card" None
                      "2024-01-20T15:00:00Z" ];
     monthly_budgets :=
       [ mkBudgetRow "b-0" "u1" "2024-03" 4000 "2024-03-01T00:00:00Z";
         mkBudgetRow "b-1" "u2" "2024-03" 0 "2024-03-01T00:00:00Z" ];
     uuid_supply := 0;
     clock := "2024-03-31T12:00:00Z" |}.

Definition coffee : NewExpense :=
  {| new_date := "2024-03-20";
     new_category := food;
     new_description := "coffee";
     new_amount := 7 # 2;
     new_paymentMethod := upi;
     new_tag := Some "work"%string |}.

(** The object [saveBudget] hands to [upsert]. *)
Definition saveBudget_row (userId : string) (budget : MonthlyBudget)
  : BudgetInsert :=
  {| bins_user_id := userId;
     bins_month := budget_month budget;
     bins_amount := budget_amount budget |}.

(** The budget rows of the signed-in user [userId] for [month_]. *)
Definition own_budget (db : Db) (userId month_ : string) (r : BudgetRow)
  : bool :=
  visible db (brow_user_id r) && same_budget userId month_ r.

(** [ON CONFLICT ... DO UPDATE] on one row. *)
Definition set_amount (i : BudgetInsert) (r : BudgetRow) : BudgetRow :=
  if same_budget (bins_user_id i) (bins_month i) r
  then {| brow_id := brow_id r;
          brow_user_id := brow_user_id r;
          brow_month := brow_month r;
          brow_amount := bins_amount i;
          brow_created_at := brow_created_at r |}
  else r.

(** The stored row after an edit through the form with the fields [f] and
    the parsed amount [n]. *)
Definition edited_row (f : Form) (n : Q) (r : ExpenseRow) : ExpenseRow :=
  {| row_id := row_id r;
     row_user_id := row_user_id r;
     row_date := if truthy (form_date f) then form_date f else row_date r;
     row_category := category_name (form_category f);
     row_description := trim (form_description f);
     row_amount := n;
     row_payment_method := paymentMethod_name (form_paymentMethod f);
     row_tag := if truthy (trim (form_tag f)) then Some (trim (form_tag f))
                else row_tag r;
     row_created_at := row_created_at r |}.

(** The stored expense "c" of [db_shared], as the edit page receives it. *)
Definition editing_c : Expense :=
  {| id := "c"; date := "2024-03-05"; category := travel; description := "bus";
     amount := 3; paymentMethod := upi; tag := Some "work"%string;
     createdAt := "2024-03-05T07:00:00Z" |}.

(** ** Setting the monthly budget ([src/pages/Analytics.tsx]) *)

(** [format(d, "yyyy-MM")], for the years of the common era. *)
Definition format_yyyy_MM (d : Date) : string :=
  (padStart 4 (pretty (getFullYear d)) +:+ "-"
   +:+ padStart 2 (pretty (getMonth d + 1)%Z))%string.

(** What [handleSaveBudget] ends with. *)
Inductive SaveBudget : Type :=
  | Analytics_toast_error (message : string)
  | saveBudgetMutation_mutate (amount_ : Q).

Definition handleSaveBudget {builtins : Builtins} (budgetAmount : string)
  : SaveBudget :=
  match parseFloat budgetAmount with
  | None => Analytics_toast_error "Please enter a valid budget amount"
  | Some amount_ =>
      if Qle_bool amount_ 0
      then Analytics_toast_error "Please enter a valid budget amount"
      else saveBudgetMutation_mutate amount_
  end.

Section Budget.
Context {R : Type} `{!SupabaseQueries R}.

(** [mutationFn] of [saveBudgetMutation]; [now] is the [new Date()] of the
    render that computed [currentMonth]. *)
Definition saveBudgetMutation_mutationFn (userId : string) (now : Date)
    (amount_ : Q) : M R unit :=
  let currentMonth := format_yyyy_MM now in
  supabaseStorage_saveBudget userId
    {| budget_month := currentMonth; budget_amount := amount_ |}.

(** [queryFn] of the budget query of the dashboard
    ([src/pages/Dashboard.tsx]); [None] is [null]. *)
Definition Dashboard_budget_queryFn (user : option string) (now : Date)
  : M R (option MonthlyBudget) :=
  match user with
  | None => ret None
  | Some userId =>
      if truthy userId
      then supabaseStorage_getBudgetForMonth userId (format_yyyy_MM now)
      else ret None
  end.

End Budget.

(** The last and the first day of March 2024. *)
Definition end_of_march : Date :=
  {| getFullYear := 2024; getMonth := 2; getDate := 31; timeOfDay := 86000000 |}.

Definition start_of_march : Date :=
  {| getFullYear := 2024; getMonth := 2; getDate := 1; timeOfDay := 0 |}.

(** * Properties *)

(** ** Arithmetic on amounts *)

Lemma Qgtb_true a b : Qgtb a b = true <-> b < a.
Proof.
  unfold Qgtb. rewrite negb_true_iff.
  destruct (Qle_bool a b) eqn:E.
  - apply Qle_bool_iff in E. split; [discriminate | intros H; lra].
  - split; [intros _ | reflexivity].
    apply Qnot_le_lt. intros H. apply Qle_bool_iff in H. congruence.
Qed.

Lemma Qgtb_false a b : Qgtb a b = false <-> a <= b.
Proof.
  unfold Qgtb. rewrite negb_false_iff. apply Qle_bool_iff.
Qed.

Lemma fold_left_plus_acc {A} (f : A -> Q) (l : list A) (a : Q) :
  fold_left (fun sum x => sum + f x) l a
  == a + fold_left (fun sum x => sum + f x) l 0.
Proof.
  revert a. induction l as [|x l IH]; intros a; simpl.
  - lra.
  - rewrite (IH (a + f x)), (IH (0 + f x)). lra.
Qed.

Lemma getTotalAmount_cons e l :
  getTotalAmount (e :: l) == amount e + getTotalAmount l.
Proof.
  unfold getTotalAmount. simpl.
  rewrite (fold_left_plus_acc amount l (0 + amount e)). lra.
Qed.

Lemma fold_left_plus_Qsum {A} (f : A -> Q) (l : list A) :
  fold_left (fun sum x => sum + f x) l 0 == Qsum (map f l).
Proof.
  induction l as [|x l IH]; simpl.
  - reflexivity.
  - rewrite (fold_left_plus_acc f l (0 + f x)), IH. lra.
Qed.

(** ** Percent change *)

(** C3. [getPercentageChange] is [100] when [previous] is zero and
    [current] is positive, [0] when [previous] is zero and [current] is not
    positive, and [(current - previous) / previous * 100] otherwise; the
    four values the specification lists follow. *)
Theorem getPercentageChange_spec (current previous : Q) :
  (previous == 0 -> 0 < current -> getPercentageChange current previous == 100)
  /\ (previous == 0 -> current <= 0 -> getPercentageChange current previous == 0)
  /\ (~ previous == 0 ->
      getPercentageChange current previous
      == (current - previous) / previous * 100)
  /\ getPercentageChange 0 0 == 0
  /\ getPercentageChange 100 0 == 100
  /\ getPercentageChange 50 100 == - (50)
  /\ getPercentageChange 150 100 == 50.
Proof.
  unfold getPercentageChange. repeat split.
  - intros Hp Hc. apply Qeq_bool_iff in Hp. rewrite Hp.
    apply Qgtb_true in Hc. rewrite Hc. reflexivity.
  - intros Hp Hc. apply Qeq_bool_iff in Hp. rewrite Hp.
    apply Qgtb_false in Hc. rewrite Hc. reflexivity.
  - intros Hp. destruct (Qeq_bool previous 0) eqn:E.
    + apply Qeq_bool_iff in E. contradiction.
    + reflexivity.
Qed.

Lemma getPercentageChange_spec_witness :
  getPercentageChange 7 0 == 100
  /\ getPercentageChange (- (3)) 0 == 0
  /\ getPercentageChange 30 40 == (30 - 40) / 40 * 100.
Proof.
  destruct (getPercentageChange_spec 7 0) as (H1 & _).
  destruct (getPercentageChange_spec (- (3)) 0) as (_ & H2 & _).
  destruct (getPercentageChange_spec 30 40) as (_ & _ & H3 & _).
  split; [| split].
  - apply H1; [reflexivity | reflexivity].
  - apply H2; [reflexivity | discriminate].
  - apply H3. discriminate.
Defined.

(** ** Category totals *)

Lemma keys_add_to o k a : keys (add_to o k a) = keys o.
Proof.
  induction o as [|[k' v] o IH]; simpl; [reflexivity|].
  destruct (decide (k' = k)); simpl; [reflexivity | by rewrite IH].
Qed.

Lemma get_add_to o k a c :
  get (add_to o k a) c
  = if decide (c = k) then (fun v => v + a) <$> get o c else get o c.
Proof.
  induction o as [|[k' v] o IH]; simpl.
  - by destruct (decide (c = k)).
  - destruct (decide (k' = k)) as [->|Hk]; simpl.
    + destruct (decide (k = c)) as [->|Hc].
      * by rewrite decide_True.
      * by rewrite decide_False by congruence.
    + destruct (decide (k' = c)) as [->|Hc].
      * by rewrite decide_False by congruence.
      * apply IH.
Qed.

Lemma Qsum_values_add_to o k a :
  In k (keys o) -> Qsum (values (add_to o k a)) == Qsum (values o) + a.
Proof.
  induction o as [|[k' v] o IH]; simpl; [tauto|].
  intros Hin. destruct (decide (k' = k)) as [->|Hk]; simpl.
  - lra.
  - destruct Hin as [?|Hin]; [contradiction|].
    rewrite (IH Hin). lra.
Qed.

Lemma In_all_categories c : In c all_categories.
Proof. destruct c; simpl; tauto. Qed.

Lemma fold_add_to_keys expenses o :
  keys (fold_left (fun totals e => add_to totals (category e) (amount e))
                  expenses o) = keys o.
Proof.
  revert o. induction expenses as [|e l IH]; intros o; simpl; [reflexivity|].
  by rewrite IH, keys_add_to.
Qed.

Lemma getCategoryTotals_keys expenses :
  keys (getCategoryTotals expenses) = all_categories.
Proof. unfold getCategoryTotals. by rewrite fold_add_to_keys. Qed.

Lemma fold_add_to_Qsum expenses o :
  keys o = all_categories ->
  Qsum (values (fold_left (fun totals e => add_to totals (category e) (amount e))
                          expenses o))
  == Qsum (values o) + getTotalAmount expenses.
Proof.
  revert o. induction expenses as [|e l IH]; intros o Ho; simpl.
  - unfold getTotalAmount. simpl. lra.
  - rewrite IH by (by rewrite keys_add_to).
    rewrite Qsum_values_add_to by (rewrite Ho; apply In_all_categories).
    rewrite getTotalAmount_cons. lra.
Qed.

Lemma fold_add_to_get expenses o c v0 :
  get o c = Some v0 ->
  exists v,
    get (fold_left (fun totals e => add_to totals (category e) (amount e))
                   expenses o) c = Some v
    /\ v == v0 + getTotalAmount (of_category c expenses).
Proof.
  revert o v0. induction expenses as [|e l IH]; intros o v0 Hget; simpl.
  - exists v0. split; [done|]. unfold getTotalAmount. simpl. lra.
  - unfold of_category. simpl. fold (of_category c l).
    destruct (decide (category e = c)) as [Hc|Hc].
    + rewrite bool_decide_eq_true_2 by done.
      destruct (IH (add_to o (category e) (amount e)) (v0 + amount e))
        as (v & Hv & Heq).
      { rewrite get_add_to, decide_True by done. by rewrite Hget. }
      exists v. split; [done|]. rewrite Heq, getTotalAmount_cons. lra.
    + rewrite bool_decide_eq_false_2 by done.
      apply IH. rewrite get_add_to, decide_False by congruence. done.
Qed.

Lemma getCategoryTotals_get expenses c :
  exists v,
    get (getCategoryTotals expenses) c = Some v
    /\ v == getTotalAmount (of_category c expenses).
Proof.
  destruct (fold_add_to_get expenses totals_init c 0) as (v & Hv & Heq).
  { by destruct c. }
  exists v. split; [exact Hv|]. rewrite Heq. lra.
Qed.

(** *** On binary64 numbers *)

Lemma keys_add_to64 o k a :
  Binary64.keys (Binary64.add_to o k a) = Binary64.keys o.
Proof.
  induction o as [|[k' v] o IH]; simpl; [reflexivity|].
  destruct (decide (k' = k)); simpl; [reflexivity | by rewrite IH].
Qed.

Lemma get_add_to64 o k a c :
  Binary64.get (Binary64.add_to o k a) c
  = if decide (c = k) then (fun v => (v + a)%float) <$> Binary64.get o c
    else Binary64.get o c.
Proof.
  induction o as [|[k' v] o IH]; simpl.
  - by destruct (decide (c = k)).
  - destruct (decide (k' = k)) as [->|Hk]; simpl.
    + destruct (decide (k = c)) as [->|Hc].
      * by rewrite decide_True.
      * by rewrite decide_False by congruence.
    + destruct (decide (k' = c)) as [->|Hc].
      * by rewrite decide_False by congruence.
      * apply IH.
Qed.

Lemma getCategoryTotals_keys64 expenses :
  Binary64.keys (Binary64.getCategoryTotals expenses) = all_categories.
Proof.
  unfold Binary64.getCategoryTotals.
  change all_categories with (Binary64.keys Binary64.totals_init).
  generalize Binary64.totals_init as o.
  induction expenses as [|e l IH]; intros o; simpl; [reflexivity|].
  by rewrite IH, keys_add_to64.
Qed.

(** The value under [c] is the one the loop started with, followed by the
    amounts of category [c] in the order of the list: the very additions
    that [getTotalAmount] makes on the expenses of that category. *)
Lemma fold_add_to_get64 expenses o c v0 :
  Binary64.get o c = Some v0 ->
  Binary64.get
    (fold_left (fun totals e =>
                  Binary64.add_to totals (Binary64.category e) (Binary64.amount e))
               expenses o) c
  = Some (fold_left (fun sum e => (sum + Binary64.amount e)%float)
                    (of_category64 c expenses) v0).
Proof.
  revert o v0. induction expenses as [|e l IH]; intros o v0 Hget; simpl.
  - exact Hget.
  - unfold of_category64. simpl. fold (of_category64 c l).
    destruct (decide (Binary64.category e = c)) as [Hc|Hc].
    + rewrite bool_decide_eq_true_2 by done. simpl. apply IH.
      rewrite get_add_to64, decide_True by done. by rewrite Hget.
    + rewrite bool_decide_eq_false_2 by done. apply IH.
      rewrite get_add_to64, decide_False by congruence. done.
Qed.

(** C2, counterexample.  With 0.1 on food and 0.2 and 0.3 on travel the
    total is ((0 + 0.1) + 0.2) + 0.3 = 0.6000000000000001, while the values
    0.1 and (0 + 0.2) + 0.3 = 0.5 of the two categories add up to 0.6,
    from either end of the object. *)
Lemma categoryTotals_claim_counterexample :
  ~ categoryTotals_claim tenths
  /\ Binary64.getTotalAmount tenths = 0.6000000000000001%float
  /\ Binary64.getCategoryTotals tenths
     = [ (food, 0.1%float); (travel, 0.5%float); (shopping, 0%float);
         (rent, 0%float); (entertainment, 0%float); (utilities, 0%float);
         (health, 0%float); (other, 0%float) ]
  /\ sum_values64 (Binary64.getCategoryTotals tenths) = 0.6%float
  /\ fold_right PrimFloat.add 0%float
       (Binary64.values (Binary64.getCategoryTotals tenths)) = 0.6%float.
Proof.
  split; [|split; [|split; [|split]]]; try (vm_compute; reflexivity).
  intros [_ H]. vm_compute in H. discriminate.
Defined.

(** C2, as amended.  On the binary64 numbers of the program, the result of
    [getCategoryTotals] has exactly the eight members of [Category] as its
    keys, in the order of the enumeration, and the value of each is what
    [getTotalAmount] returns for the expenses of that category: their
    amounts added to 0 in the order of the list, which is 0 when there is
    none.  In exact arithmetic the values sum to [getTotalAmount] of the
    whole list; on binary64 numbers only up to rounding. *)
Theorem getCategoryTotals_spec :
  (forall expenses : list Binary64.Expense,
      Binary64.keys (Binary64.getCategoryTotals expenses) = all_categories
      /\ (forall c,
            Binary64.get (Binary64.getCategoryTotals expenses) c
            = Some (Binary64.getTotalAmount (of_category64 c expenses)))
      /\ (forall c, of_category64 c expenses = [] ->
            Binary64.get (Binary64.getCategoryTotals expenses) c
            = Some 0%float))
  /\ NoDup all_categories
  /\ (forall c, In c all_categories)
  /\ (forall expenses : list Expense,
        keys (getCategoryTotals expenses) = all_categories
        /\ (forall c, exists v,
              get (getCategoryTotals expenses) c = Some v
              /\ v == getTotalAmount (of_category c expenses)
              /\ (of_category c expenses = [] -> v == 0))
        /\ Qsum (values (getCategoryTotals expenses))
           == getTotalAmount expenses).
Proof.
  assert (H64 : forall (expenses : list Binary64.Expense) c,
             Binary64.get (Binary64.getCategoryTotals expenses) c
             = Some (Binary64.getTotalAmount (of_category64 c expenses))).
  { intros expenses c. unfold Binary64.getCategoryTotals, Binary64.getTotalAmount.
    apply fold_add_to_get64. by destruct c. }
  split; [|split; [|split]].
  - intros expenses. split; [apply getCategoryTotals_keys64|].
    split; [apply H64|]. intros c Hnil. by rewrite H64, Hnil.
  - apply (bool_decide_unpack _). vm_compute. exact I.
  - apply In_all_categories.
  - intros expenses. split; [apply getCategoryTotals_keys|]. split.
    + intros c. destruct (getCategoryTotals_get expenses c) as (v & Hv & Heq).
      exists v. split; [exact Hv|]. split; [exact Heq|].
      intros Hnil. rewrite Heq, Hnil. reflexivity.
    + unfold getCategoryTotals. rewrite fold_add_to_Qsum by reflexivity.
      simpl. lra.
Qed.

(** ** Top category *)

Lemma get_getCategoryTotals expenses c :
  get (getCategoryTotals expenses) c = Some (categoryTotal expenses c).
Proof.
  unfold categoryTotal.
  destruct (getCategoryTotals_get expenses c) as (v & -> & _). reflexivity.
Qed.

Lemma categoryTotal_sum expenses c :
  categoryTotal expenses c == getTotalAmount (of_category c expenses).
Proof.
  destruct (getCategoryTotals_get expenses c) as (v & Hv & Heq).
  unfold categoryTotal. rewrite Hv. exact Heq.
Qed.

Lemma getTotalAmount_nonneg l :
  Forall (fun e => 0 <= amount e) l -> 0 <= getTotalAmount l.
Proof.
  induction 1 as [|e l He _ IH].
  - unfold getTotalAmount. simpl. lra.
  - rewrite getTotalAmount_cons. lra.
Qed.

Lemma categoryTotal_nonneg expenses c :
  Forall (fun e => 0 <= amount e) expenses -> 0 <= categoryTotal expenses c.
Proof.
  intros H. rewrite categoryTotal_sum. apply getTotalAmount_nonneg.
  unfold of_category. rewrite List.Forall_forall in *. intros e He.
  apply H. apply filter_In in He. tauto.
Qed.

(** The loop of [getTopCategory] over a list of keys [l], started with
    [(t, m)]: the maximum never decreases and bounds every total seen;
    either nothing exceeded [m], or the result is the first key that carries
    the final maximum. *)
Lemma top_fold_spec totals (f : Category -> Q)
    (Hf : forall c, get totals c = Some (f c)) l t m :
  let r := fold_left (top_step totals) l (t, m) in
  m <= snd r
  /\ (forall c, In c l -> f c <= snd r)
  /\ ((r = (t, m) /\ forall c, In c l -> f c <= m)
      \/ (exists l1 c l2,
            l = l1 ++ c :: l2 /\ r = (Some c, f c) /\ m < f c
            /\ forall c', In c' l1 -> f c' < f c)).
Proof.
  revert t m. induction l as [|a l IH]; intros t m; simpl.
  - split; [lra|]. split; [tauto|]. left. split; [reflexivity | tauto].
  - replace (top_step totals (t, m) a)
      with (if Qgtb (f a) m then (Some a, f a) else (t, m))
      by (unfold top_step; rewrite Hf; reflexivity).
    destruct (Qgtb (f a) m) eqn:Hgt.
    + apply Qgtb_true in Hgt.
      destruct (IH (Some a) (f a)) as (Hle & Hall & Hcase).
      split; [lra|]. split.
      * intros c [<-|Hc]; [exact Hle | by apply Hall].
      * right. destruct Hcase as [[Hr Hsmall] | (l1 & c & l2 & -> & Hr & Hlt & Hl1)].
        -- exists [], a, l. repeat split; [exact Hr | exact Hgt | intros ? []].
        -- exists (a :: l1), c, l2. repeat split; [exact Hr | lra |].
           intros c' [<-|Hc']; [exact Hlt | by apply Hl1].
    + apply Qgtb_false in Hgt.
      destruct (IH t m) as (Hle & Hall & Hcase).
      split; [exact Hle|]. split.
      * intros c [<-|Hc]; [lra | by apply Hall].
      * destruct Hcase as [[Hr Hsmall] | (l1 & c & l2 & -> & Hr & Hlt & Hl1)].
        -- left. split; [exact Hr|]. intros c [<-|Hc]; [exact Hgt | by apply Hsmall].
        -- right. exists (a :: l1), c, l2. repeat split; [exact Hr | exact Hlt |].
           intros c' [<-|Hc']; [lra | by apply Hl1].
Qed.

(** Whatever the amounts: [getTopCategory] is [null] when no category
    total is strictly positive; otherwise it returns a category carrying
    the largest total, with that total, which is positive, and every
    category that comes earlier in the enumeration has a strictly smaller
    total. *)
Lemma getTopCategory_cases (expenses : list Expense) :
  ((forall c, categoryTotal expenses c <= 0) -> getTopCategory expenses = None)
  /\ (~ (forall c, categoryTotal expenses c <= 0) ->
      exists c l1 l2,
        getTopCategory expenses = Some (c, categoryTotal expenses c)
        /\ 0 < categoryTotal expenses c
        /\ all_categories = l1 ++ c :: l2
        /\ (forall c', categoryTotal expenses c' <= categoryTotal expenses c)
        /\ (forall c', In c' l1 ->
              categoryTotal expenses c' < categoryTotal expenses c)).
Proof.
  pose proof (top_fold_spec (getCategoryTotals expenses)
                (categoryTotal expenses) (get_getCategoryTotals expenses)
                (keys (getCategoryTotals expenses)) None 0) as (_ & Hall & Hcase).
  rewrite getCategoryTotals_keys in *. split.
  - intros Hle. unfold getTopCategory. rewrite getCategoryTotals_keys.
    destruct Hcase as [[-> _] | (l1 & c & l2 & _ & _ & Hlt & _)].
    + reflexivity.
    + pose proof (Hle c). lra.
  - intros Hpos. unfold getTopCategory. rewrite getCategoryTotals_keys.
    destruct Hcase as [[_ Hsmall] | (l1 & c & l2 & Hl & Hr & Hlt & Hl1)].
    + exfalso. apply Hpos. intros c. apply Hsmall, In_all_categories.
    + rewrite Hr in *. simpl in Hall.
      exists c, l1, l2. repeat split; [exact Hlt | exact Hl | | exact Hl1].
      intros c'. apply Hall, In_all_categories.
Qed.

(** With amounts that are not negative, "no total is strictly positive"
    and "every total is zero" are the same. *)
Lemma categoryTotal_all_zero (expenses : list Expense) :
  Forall (fun e => 0 <= amount e) expenses ->
  (forall c, categoryTotal expenses c <= 0)
  <-> (forall c, categoryTotal expenses c == 0).
Proof.
  intros Hnonneg. split.
  - intros Hle c. pose proof (Hle c).
    pose proof (categoryTotal_nonneg expenses c Hnonneg). lra.
  - intros Hzero c. rewrite (Hzero c). lra.
Qed.

(** C5.  For expenses of the record model, whose amounts are positive (it
    is enough that none is negative), [getTopCategory] is [null] when every
    category total is zero, in particular on the empty list.  Otherwise it
    returns the category with the largest total together with that total,
    and every category that comes earlier in the enumeration has a strictly
    smaller total: of two categories tied at the maximum the one met first
    wins, a later one with an equal total does not replace it. *)
Theorem getTopCategory_spec (expenses : list Expense) :
  Forall (fun e => 0 <= amount e) expenses ->
  topCategory_claim expenses
  /\ getTopCategory [] = None
  /\ (~ (forall c, categoryTotal expenses c == 0) ->
      exists c l1 l2,
        getTopCategory expenses = Some (c, categoryTotal expenses c)
        /\ all_categories = l1 ++ c :: l2
        /\ (forall c', categoryTotal expenses c' <= categoryTotal expenses c)
        /\ (forall c', In c' l1 ->
              categoryTotal expenses c' < categoryTotal expenses c)).
Proof.
  intros Hnonneg.
  destruct (getTopCategory_cases expenses) as [Hnone Hsome].
  pose proof (categoryTotal_all_zero expenses Hnonneg) as Hzero.
  assert (Htop : ~ (forall c, categoryTotal expenses c == 0) ->
                 exists c l1 l2,
                   getTopCategory expenses = Some (c, categoryTotal expenses c)
                   /\ all_categories = l1 ++ c :: l2
                   /\ (forall c', categoryTotal expenses c'
                                  <= categoryTotal expenses c)
                   /\ (forall c', In c' l1 ->
                         categoryTotal expenses c' < categoryTotal expenses c)).
  { intros Hnz.
    destruct Hsome as (c & l1 & l2 & Hr & _ & Hl & Hmax & Hl1).
    - intros Hle. apply Hnz. by apply Hzero.
    - exists c, l1, l2. auto. }
  split; [|split; [reflexivity | exact Htop]].
  split.
  - intros Hz. apply Hnone. by apply Hzero.
  - intros Hnz. destruct (Htop Hnz) as (c & _ & _ & Hr & _ & Hmax & _).
    exists c. split; [exact Hr | exact Hmax].
Qed.

Lemma getTopCategory_spec_witness :
  topCategory_claim scenario
  /\ exists c l1 l2,
       getTopCategory scenario = Some (c, categoryTotal scenario c)
       /\ all_categories = l1 ++ c :: l2
       /\ (forall c', categoryTotal scenario c' <= categoryTotal scenario c)
       /\ (forall c', In c' l1 ->
             categoryTotal scenario c' < categoryTotal scenario c).
Proof.
  destruct (getTopCategory_spec scenario) as (Hclaim & _ & Htop).
  - repeat constructor; vm_compute; discriminate.
  - split; [exact Hclaim|]. apply Htop.
    intros Hz. specialize (Hz food). vm_compute in Hz. discriminate.
Defined.

(** Outside the record model: with a single expense of -5 on food the
    total of food is not zero, and [getTopCategory] is [null] all the
    same, since the loop starts from a maximum of 0. *)
Remark getTopCategory_negative_amount :
  getCategoryTotals refund
  = [ (food, 0 + - (5)); (travel, 0); (shopping, 0); (rent, 0);
      (entertainment, 0); (utilities, 0); (health, 0); (other, 0) ]
  /\ getTopCategory refund = None.
Proof. split; reflexivity. Qed.

(** The scenario of the specification: 100 and 200 on food, 300 on travel;
    the two totals tie at 300 and food, the earlier key, is returned. *)
Example getTopCategory_scenario :
  getCurrentMonthExpenses now_2024_03 scenario = scenario
  /\ getTotalAmount (getCurrentMonthExpenses now_2024_03 scenario) == 600
  /\ getCategoryTotals scenario
     = [ (food, 300); (travel, 300); (shopping, 0); (rent, 0);
         (entertainment, 0); (utilities, 0); (health, 0); (other, 0) ]
  /\ getTopCategory scenario = Some (food, 300).
Proof. repeat split. Qed.

(** ** Monthly totals *)

Lemma getDaysInMonth_bounds y m : (28 <= getDaysInMonth y m <= 31)%Z.
Proof.
  unfold getDaysInMonth.
  destruct (m =? 1)%Z; [destruct (isLeapYear y); lia|].
  destruct ((m =? 3) || (m =? 5) || (m =? 8) || (m =? 10))%Z; lia.
Qed.

Lemma parseISO_valid s d :
  parseISO s = Some d ->
  (0 <= getMonth d < 12)%Z
  /\ (1 <= getDate d <= getDaysInMonth (getFullYear d) (getMonth d))%Z
  /\ timeOfDay d = 0%Z.
Proof.
  unfold parseISO. intros H.
  repeat (destruct s as [|? s]; [discriminate|]).
  destruct s; [|discriminate].
  destruct (Ascii.eqb _ _ && Ascii.eqb _ _); [|discriminate].
  repeat match type of H with
         | context [digit ?c] => destruct (digit c); simpl in H; [|discriminate]
         end.
  match type of H with
  | (if ?b then _ else _) = _ => destruct b eqn:Hb; [|discriminate]
  end.
  injection H as <-. simpl.
  rewrite !andb_true_iff in Hb. lia.
Qed.

Lemma Date_leb_iff a b :
  Date_leb a b = true <->
  (getFullYear a < getFullYear b
   \/ (getFullYear a = getFullYear b
       /\ (getMonth a < getMonth b
           \/ (getMonth a = getMonth b
               /\ (getDate a < getDate b
                   \/ (getDate a = getDate b
                       /\ timeOfDay a <= timeOfDay b))))))%Z.
Proof.
  unfold Date_leb, Date_compare.
  destruct (Z.compare_spec (getFullYear a) (getFullYear b));
    [destruct (Z.compare_spec (getMonth a) (getMonth b));
       [destruct (Z.compare_spec (getDate a) (getDate b));
          [destruct (Z.compare_spec (timeOfDay a) (timeOfDay b))| |]| |]| |];
    split; intros; try reflexivity; try discriminate; lia.
Qed.

Lemma within_month d e :
  (0 <= getMonth d < 12)%Z ->
  within (startOfMonth d) (endOfMonth d) e = inMonth (monthIndex d) e.
Proof.
  intros Hm. unfold within, inMonth.
  destruct (parseISO (date e)) as [x|] eqn:Hx; [|reflexivity].
  apply parseISO_valid in Hx as (Hxm & Hxd & Hxt).
  apply eq_true_iff_eq.
  unfold Date_geb. rewrite andb_true_iff, !Date_leb_iff, Z.eqb_eq.
  unfold monthIndex.
  cbn [startOfMonth endOfMonth getFullYear getMonth getDate timeOfDay].
  rewrite Hxt. split.
  - intros [H1 H2]. lia.
  - intros H.
    assert (getFullYear x = getFullYear d /\ getMonth x = getMonth d)
      as [Hy Hmm] by lia.
    rewrite Hy, Hmm in *. lia.
Qed.

Lemma monthIndex_subMonths d i :
  monthIndex (subMonths d i) = (monthIndex d - i)%Z.
Proof.
  unfold monthIndex, subMonths. simpl.
  pose proof (Z.div_mod (getMonth d - i) 12). lia.
Qed.

Lemma getMonth_subMonths d i : (0 <= getMonth (subMonths d i) < 12)%Z.
Proof. unfold subMonths. simpl. apply Z.mod_pos_bound. lia. Qed.

Lemma format_subMonths d i :
  format_MMM_yyyy (subMonths d i) = monthLabel (monthIndex d - i).
Proof.
  unfold monthLabel, format_MMM_yyyy, subMonths, monthIndex. simpl.
  replace (getFullYear d * 12 + getMonth d - i)%Z
    with ((getMonth d - i) + getFullYear d * 12)%Z by lia.
  rewrite Z.div_add, Z.mod_add by lia.
  replace (getFullYear d + (getMonth d - i) / 12)%Z
    with ((getMonth d - i) / 12 + getFullYear d)%Z by lia.
  reflexivity.
Qed.

Lemma filter_ext_all {A} (f g : A -> bool) l :
  (forall x, f x = g x) -> List.filter f l = List.filter g l.
Proof.
  intros H. induction l as [|x l IH]; simpl; [reflexivity|].
  by rewrite H, IH.
Qed.

Lemma monthly_loop_acc now expenses k acc :
  monthly_loop now expenses k acc = acc ++ monthly_loop now expenses k [].
Proof.
  revert acc. induction k as [|i IH]; intros acc; simpl.
  - by rewrite app_nil_r.
  - rewrite IH. symmetry. rewrite IH. by rewrite app_assoc.
Qed.

Lemma monthly_loop_S now expenses i :
  monthly_loop now expenses (Datatypes.S i) []
  = entryFor now expenses (Z.of_nat i) :: monthly_loop now expenses i [].
Proof.
  simpl. rewrite monthly_loop_acc. simpl. f_equal.
  unfold entryFor. rewrite format_subMonths. f_equal. f_equal.
  apply filter_ext_all. intros e.
  rewrite within_month by apply getMonth_subMonths.
  by rewrite monthIndex_subMonths.
Qed.

Lemma monthly_loop_length now expenses k :
  length (monthly_loop now expenses k []) = k.
Proof.
  induction k as [|i IH]; [reflexivity|].
  rewrite monthly_loop_S. simpl. by rewrite IH.
Qed.

Lemma monthly_loop_lookup now expenses k j :
  (j < k)%nat ->
  monthly_loop now expenses k [] !! j
  = Some (entryFor now expenses (Z.of_nat (k - 1 - j))).
Proof.
  revert j. induction k as [|i IH]; intros j Hj; [lia|].
  rewrite monthly_loop_S. destruct j as [|j]; simpl.
  - do 3 f_equal. lia.
  - rewrite IH by lia. do 3 f_equal. lia.
Qed.

(** C4. For [monthsBack >= 1], [getMonthlyTotals] returns exactly
    [monthsBack] entries; entry [j] is the one of month number
    [monthIndex now - (monthsBack - 1 - j)], so the months are consecutive,
    oldest first, and the last one is the month of [now]; its total is the
    sum of the amounts of the expenses dated in that month, which is [0]
    when there is none, as for the empty list. *)
Theorem getMonthlyTotals_spec (now : Date) (expenses : list Expense)
    (monthsBack : Z) :
  (1 <= monthsBack)%Z ->
  Z.of_nat (length (getMonthlyTotals now expenses monthsBack)) = monthsBack
  /\ (forall j, (0 <= j < monthsBack)%Z ->
        let k := (monthIndex now - (monthsBack - 1 - j))%Z in
        getMonthlyTotals now expenses monthsBack !! Z.to_nat j
        = Some {| month := monthLabel k;
                  total := getTotalAmount (List.filter (inMonth k) expenses) |})
  /\ (forall k, List.filter (inMonth k) expenses = [] ->
        getTotalAmount (List.filter (inMonth k) expenses) = 0)
  /\ (forall j, (0 <= j < monthsBack)%Z ->
        getMonthlyTotals now [] monthsBack !! Z.to_nat j
        = Some {| month := monthLabel (monthIndex now - (monthsBack - 1 - j));
                  total := 0 |}).
Proof.
  intros Hn. unfold getMonthlyTotals.
  split; [rewrite monthly_loop_length; lia|].
  split; [|split].
  - intros j Hj. rewrite monthly_loop_lookup by lia.
    replace (Z.of_nat (Z.to_nat monthsBack - 1 - Z.to_nat j))
      with (monthsBack - 1 - j)%Z by lia.
    reflexivity.
  - intros k ->. reflexivity.
  - intros j Hj. rewrite monthly_loop_lookup by lia.
    replace (Z.of_nat (Z.to_nat monthsBack - 1 - Z.to_nat j))
      with (monthsBack - 1 - j)%Z by lia.
    reflexivity.
Qed.

Lemma getMonthlyTotals_spec_witness :
  Z.of_nat (length (getMonthlyTotals now_2024_03 scenario 12)) = 12%Z
  /\ getMonthlyTotals now_2024_03 scenario 12 !! 11%nat
     = Some {| month := "Mar 2024"; total := 0 + 100 + 200 + 300 |}
  /\ getMonthlyTotals now_2024_03 scenario 12 !! 0%nat
     = Some {| month := "Apr 2023"; total := 0 |}.
Proof.
  destruct (getMonthlyTotals_spec now_2024_03 scenario 12) as (Hlen & Hj & _).
  - lia.
  - split; [exact Hlen|]. split.
    + exact (Hj 11%Z ltac:(lia)).
    + exact (Hj 0%Z ltac:(lia)).
Defined.

(** Across the turn of the year, and from the last day of a long month:
    the months stay consecutive and the day is clamped. *)
Example getMonthlyTotals_year_boundary :
  map month (getMonthlyTotals (mkDate 2024 0 15 0) [] 3)
  = [ "Nov 2023"; "Dec 2023"; "Jan 2024" ]%string
  /\ subMonths now_2024_03 1 = mkDate 2024 1 29 43200000
  /\ getLastMonthExpenses (mkDate 2024 0 15 0)
       [ mkExpense "x" "2023-12-31" other "fee" 9 bank None "2023-12-31T23:00:00Z";
         mkExpense "y" "2024-01-01" other "fee" 9 bank None "2024-01-01T01:00:00Z" ]
     = [ mkExpense "x" "2023-12-31" other "fee" 9 bank None "2023-12-31T23:00:00Z" ].
Proof. repeat split; vm_compute; reflexivity. Qed.

(** ** Average monthly spend *)

Lemma map_total_filter (l : list MonthTotal) :
  map total (List.filter (fun m => Qgtb (total m) 0) l) = positives (map total l).
Proof.
  unfold positives. induction l as [|m l IH]; simpl; [reflexivity|].
  destruct (Qgtb (total m) 0); simpl; by rewrite IH.
Qed.

(** C6. [getAverageMonthlySpend] is the arithmetic mean of the strictly
    positive totals of [getMonthlyTotals(expenses, 12)], and [0] when there
    is none; with 600 and 400 as the only totals that are not zero the
    result is 500 and not 1000/12. *)
Theorem getAverageMonthlySpend_spec (now : Date) (expenses : list Expense) :
  let totals := map total (getMonthlyTotals now expenses 12) in
  (positives totals = [] -> getAverageMonthlySpend now expenses == 0)
  /\ (positives totals <> [] ->
      getAverageMonthlySpend now expenses == mean (positives totals))
  /\ positives (map total (getMonthlyTotals now_2024_03 two_months 12)) = [600; 400]
  /\ getAverageMonthlySpend now_2024_03 two_months == 500
  /\ ~ getAverageMonthlySpend now_2024_03 two_months == 1000 / 12.
Proof.
  intros totals. unfold getAverageMonthlySpend.
  split; [|split; [|split; [|split]]].
  - unfold totals. rewrite <- map_total_filter. intros Hnil.
    apply map_eq_nil in Hnil. rewrite Hnil. reflexivity.
  - unfold totals. rewrite <- map_total_filter. intros Hne.
    destruct (List.filter _ _) as [|m l] eqn:Hf; [contradiction|].
    change (length (m :: l) =? 0)%nat with false. cbv iota.
    unfold mean. rewrite length_map.
    rewrite (fold_left_plus_Qsum total (m :: l)). reflexivity.
  - vm_compute. reflexivity.
  - vm_compute. reflexivity.
  - vm_compute. discriminate.
Qed.

Lemma getAverageMonthlySpend_spec_witness :
  getAverageMonthlySpend now_2024_03 [] == 0
  /\ getAverageMonthlySpend now_2024_03 two_months
     == mean (positives (map total (getMonthlyTotals now_2024_03 two_months 12))).
Proof.
  split.
  - destruct (getAverageMonthlySpend_spec now_2024_03 []) as (H & _).
    apply H. reflexivity.
  - destruct (getAverageMonthlySpend_spec now_2024_03 two_months) as (_ & H & _).
    apply H. vm_compute. discriminate.
Defined.

(** ** Migration *)

Ltac unfold_M :=
  unfold try_catch, bind, eval, when_, request, throw_if, ret, throw,
    localStorage_removeItem, localStorage_setItem in *.

Section MigrationProperties.
Context {R : Type} `{!Supabase R} `{!Json}.

(** The routine, case by case. *)
Lemma migrate_cases (userId : string) (ls : gmap string string) (s : R) :
  migrateLocalStorageToSupabase userId {| localStorage := ls; supabase := s |}
  = match storage_getExpenses ls with
    | Thrown e => (Returned (MigrationFailure e), {| localStorage := ls; supabase := s |})
    | Returned localExpenses =>
        match storage_getBudgets ls with
        | Thrown e =>
            (Returned (MigrationFailure e), {| localStorage := ls; supabase := s |})
        | Returned localBudgets =>
            match expenses_phase userId localExpenses s with
            | (Some e, s1) =>
                (Returned (MigrationFailure e), {| localStorage := ls; supabase := s1 |})
            | (None, s1) =>
                if (0 <? length localBudgets)%nat then
                  match monthly_budgets_insert
                          (budgetsToInsert userId localBudgets) s1 with
                  | (Some e, s2) =>
                      (Returned (MigrationFailure e),
                       {| localStorage := ls; supabase := s2 |})
                  | (None, s2) =>
                      (Returned (MigrationSuccess (length localExpenses)
                                                  (length localBudgets)),
                       {| localStorage := migrated_storage ls; supabase := s2 |})
                  end
                else
                  (Returned (MigrationSuccess (length localExpenses)
                                              (length localBudgets)),
                   {| localStorage := migrated_storage ls; supabase := s1 |})
            end
        end
    end.
Proof.
  unfold migrateLocalStorageToSupabase, expenses_phase, migrated_storage.
  unfold_M. simpl.
  destruct (storage_getExpenses ls) as [localExpenses|e]; [|reflexivity].
  destruct (storage_getBudgets ls) as [localBudgets|e]; [|reflexivity].
  destruct (0 <? length localExpenses)%nat; simpl.
  - destruct (expenses_insert _ s) as [[e|] s1]; simpl; [reflexivity|].
    destruct (0 <? length localBudgets)%nat; simpl; [|reflexivity].
    destruct (monthly_budgets_insert _ s1) as [[e|] s2]; reflexivity.
  - destruct (0 <? length localBudgets)%nat; simpl; [|reflexivity].
    destruct (monthly_budgets_insert _ s) as [[e|] s2]; reflexivity.
Qed.

(** C1. When the insert of the expenses fails, or the insert of the
    budgets fails after the expenses went through, the routine resolves
    with [{ success: false, error }] carrying the error of that insert,
    and [localStorage] is what it was: the two cache entries are still
    there and ["migrated"] has not been written. *)
Theorem migrate_insert_failure (userId : string) (ls : gmap string string)
    (s : R) (localExpenses : list Expense) (localBudgets : list MonthlyBudget) :
  storage_getExpenses ls = Returned localExpenses ->
  storage_getBudgets ls = Returned localBudgets ->
  (forall e s1,
      localExpenses <> [] ->
      expenses_insert (expensesToInsert userId localExpenses) s = (Some e, s1) ->
      migrateLocalStorageToSupabase userId {| localStorage := ls; supabase := s |}
      = (Returned (MigrationFailure e), {| localStorage := ls; supabase := s1 |}))
  /\ (forall e s1 s2,
        expenses_phase userId localExpenses s = (None, s1) ->
        localBudgets <> [] ->
        monthly_budgets_insert (budgetsToInsert userId localBudgets) s1
        = (Some e, s2) ->
        migrateLocalStorageToSupabase userId {| localStorage := ls; supabase := s |}
        = (Returned (MigrationFailure e), {| localStorage := ls; supabase := s2 |})).
Proof.
  intros HE HB. split.
  - intros e s1 Hne Hins. rewrite migrate_cases, HE, HB.
    unfold expenses_phase. destruct localExpenses; [contradiction|].
    simpl. simpl in Hins. rewrite Hins. reflexivity.
  - intros e s1 s2 Hph Hne Hins. rewrite migrate_cases, HE, HB, Hph.
    destruct localBudgets; [contradiction|].
    simpl. simpl in Hins. rewrite Hins. reflexivity.
Qed.

(** C10. The routine never rejects: whatever the cache holds and whatever
    the store answers, it resolves, with [{ success: true, ... }] and the
    two counts or with [{ success: false, error }]; the failure of an
    insert is among the resolved cases.  With a signed-in user the promise
    of [migrateMutation] therefore resolves as well, so what tells a
    failure from a success is the [success] field of the value. *)
Theorem migrate_always_resolves (userId : string) (w : World R) :
  (exists r w',
      migrateLocalStorageToSupabase userId w = (Returned r, w')
      /\ ((exists localExpenses localBudgets,
             storage_getExpenses (localStorage w) = Returned localExpenses
             /\ storage_getBudgets (localStorage w) = Returned localBudgets
             /\ r = MigrationSuccess (length localExpenses) (length localBudgets))
          \/ (exists error,
                r = MigrationFailure error
                /\ localStorage w' = localStorage w)))
  /\ (truthy userId = true ->
      exists r w', migrateMutation_mutationFn (Some userId) w = (Returned r, w')).
Proof.
  assert (Hrun : exists r w',
      migrateLocalStorageToSupabase userId w = (Returned r, w')
      /\ ((exists localExpenses localBudgets,
             storage_getExpenses (localStorage w) = Returned localExpenses
             /\ storage_getBudgets (localStorage w) = Returned localBudgets
             /\ r = MigrationSuccess (length localExpenses) (length localBudgets))
          \/ (exists error,
                r = MigrationFailure error
                /\ localStorage w' = localStorage w))).
  { destruct w as [ls s]. rewrite migrate_cases. simpl.
    destruct (storage_getExpenses ls) as [localExpenses|e];
      [|eexists _, _; split; [reflexivity | right; eauto]].
    destruct (storage_getBudgets ls) as [localBudgets|e];
      [|eexists _, _; split; [reflexivity | right; eauto]].
    destruct (expenses_phase userId localExpenses s) as [[e|] s1];
      [eexists _, _; split; [reflexivity | right; eauto]|].
    destruct (0 <? length localBudgets)%nat.
    - destruct (monthly_budgets_insert _ s1) as [[e|] s2];
        eexists _, _; (split; [reflexivity|]); [right | left]; eauto.
    - eexists _, _. split; [reflexivity|]. left. eauto. }
  split; [exact Hrun|].
  intros Hid. unfold migrateMutation_mutationFn. rewrite Hid.
  destruct Hrun as (r & w' & Hr & _). eauto.
Qed.

End MigrationProperties.

(** The scenario of the specification: two expenses and one budget in the
    cache, the expenses go through, the budget is refused.  The cache is
    intact, ["migrated"] is not set, and the caller gets the error of the
    budget insert.  Under a session the policy refuses, it is the insert of
    the expenses that fails. *)
Lemma migrate_insert_failure_witness :
  migrateLocalStorageToSupabase "u1"
    {| localStorage := device_cache; supabase := db_u1 |}
  = (Returned (MigrationFailure
                 (unique_violation "monthly_budgets_user_id_month_key")),
     {| localStorage := device_cache; supabase := db_u1_with_expenses |})
  /\ device_cache !! "migrated" = None
  /\ migrateLocalStorageToSupabase "u1"
       {| localStorage := device_cache; supabase := db_u2 |}
     = (Returned (MigrationFailure (rls_violation "expenses")),
        {| localStorage := device_cache; supabase := db_u2 |}).
Proof.
  assert (HE : storage_getExpenses device_cache = Returned cached_expenses)
    by (vm_compute; reflexivity).
  assert (HB : storage_getBudgets device_cache = Returned cached_budgets)
    by (vm_compute; reflexivity).
  split; [|split].
  - destruct (migrate_insert_failure "u1" device_cache db_u1
                cached_expenses cached_budgets HE HB) as [_ H].
    apply (H _ db_u1_with_expenses);
      [vm_compute; reflexivity | discriminate | vm_compute; reflexivity].
  - vm_compute. reflexivity.
  - destruct (migrate_insert_failure "u1" device_cache db_u2
                cached_expenses cached_budgets HE HB) as [H _].
    apply H; [discriminate | vm_compute; reflexivity].
Defined.

Lemma migrate_always_resolves_witness :
  exists r w',
    migrateMutation_mutationFn (Some "u1"%string)
      {| localStorage := device_cache; supabase := db_u1 |}
    = (Returned r, w').
Proof.
  destruct (migrate_always_resolves "u1"
              {| localStorage := device_cache; supabase := db_u1 |}) as [_ H].
  apply H. reflexivity.
Defined.

(** ** Declining the migration *)

Section DeclineProperties.
Context {R : Type} `{!Supabase R} `{!Json}.

Lemma storage_getExpenses_migrated ls :
  storage_getExpenses (migrated_storage ls) = Returned [].
Proof.
  unfold storage_getExpenses, migrated_storage.
  rewrite lookup_insert_ne by (unfold EXPENSES_KEY; discriminate).
  rewrite lookup_delete_ne by (unfold EXPENSES_KEY, BUDGETS_KEY; discriminate).
  by rewrite lookup_delete_eq.
Qed.

Lemma storage_getBudgets_migrated ls :
  storage_getBudgets (migrated_storage ls) = Returned [].
Proof.
  unfold storage_getBudgets, migrated_storage.
  rewrite lookup_insert_ne by (unfold BUDGETS_KEY; discriminate).
  by rewrite lookup_delete_eq.
Qed.

Lemma migrate_success_storage userId w n m w' :
  migrateLocalStorageToSupabase userId w = (Returned (MigrationSuccess n m), w') ->
  localStorage w' = migrated_storage (localStorage w).
Proof.
  destruct w as [ls s]. rewrite migrate_cases. simpl.
  destruct (storage_getExpenses ls) as [localExpenses|e]; [|discriminate].
  destruct (storage_getBudgets ls) as [localBudgets|e]; [|discriminate].
  destruct (expenses_phase userId localExpenses s) as [[e|] s1]; [discriminate|].
  destruct (0 <? length localBudgets)%nat.
  - destruct (monthly_budgets_insert _ s1) as [[e|] s2]; [discriminate|].
    by intros [= _ _ <-].
  - by intros [= _ _ <-].
Qed.

(** C7, as amended.  "Start Fresh" closes the dialog and touches nothing
    else: no data is transferred, the cache stays, and no flag is
    written, so the check answers as before and, when it found cached
    data, opens the dialog again at the next run of the effect.  The flag
    is written by an import that went through, and from then on the check
    answers no. *)
Theorem StartFresh_spec (d : Screen R) :
  let d' := StartFresh_onClick d in
  showMigrationDialog d' = false
  /\ world d' = world d
  /\ hasLocalStorageData (localStorage (world d'))
     = hasLocalStorageData (localStorage (world d))
  /\ (forall userId,
        hasLocalStorageData (localStorage (world d)) = Returned true ->
        Dashboard_useEffect (Some userId) d'
        = Returned {| showMigrationDialog := true; world := world d |})
  /\ (forall userId n m w',
        migrateLocalStorageToSupabase userId (world d)
        = (Returned (MigrationSuccess n m), w') ->
        localStorage w' !! "migrated" = Some "true"%string
        /\ hasLocalStorageData (localStorage w') = Returned false).
Proof.
  simpl. split; [reflexivity|]. split; [reflexivity|].
  split; [reflexivity|]. split.
  - intros userId Hdata. unfold Dashboard_useEffect. simpl. by rewrite Hdata.
  - intros userId n m w' Hdone.
    apply migrate_success_storage in Hdone. rewrite Hdone. split.
    + unfold migrated_storage. by rewrite lookup_insert_eq.
    + unfold hasLocalStorageData.
      rewrite storage_getExpenses_migrated, storage_getBudgets_migrated.
      unfold migrated_storage. by rewrite lookup_insert_eq.
Qed.

End DeclineProperties.

(** C7, counterexample.  On the device with the cache, "Start Fresh" leaves
    ["migrated"] unset and the next run of the effect opens the dialog
    again. *)
Lemma decline_is_terminal_counterexample :
  ~ decline_is_terminal dashboard_u1
  /\ localStorage (world (StartFresh_onClick dashboard_u1)) !! "migrated" = None
  /\ Dashboard_useEffect (Some "u1"%string) (StartFresh_onClick dashboard_u1)
     = Returned dashboard_u1.
Proof.
  assert (H : localStorage (world (StartFresh_onClick dashboard_u1)) !! "migrated"
              = None) by (vm_compute; reflexivity).
  split; [|split].
  - intros (_ & Hflag & _). rewrite H in Hflag. discriminate.
  - exact H.
  - vm_compute. reflexivity.
Defined.

Lemma StartFresh_spec_witness :
  Dashboard_useEffect (Some "u1"%string) (StartFresh_onClick dashboard_u1)
  = Returned {| showMigrationDialog := true; world := world dashboard_u1 |}
  /\ hasLocalStorageData
       (migrated_storage device_cache) = Returned false.
Proof.
  destruct (StartFresh_spec dashboard_u1) as (_ & _ & _ & H1 & _).
  destruct (StartFresh_spec dashboard_fresh) as (_ & _ & _ & _ & H2).
  split.
  - apply H1. vm_compute. reflexivity.
  - apply (H2 "u1"%string 2%nat 1%nat
             {| localStorage := migrated_storage device_cache;
                supabase := snd (Db_monthly_budgets_insert
                                   (budgetsToInsert "u1" cached_budgets)
                                   (snd (Db_expenses_insert
                                           (expensesToInsert "u1" cached_expenses)
                                           db_fresh))) |}).
    vm_compute. reflexivity.
Defined.

(** ** Creating an expense *)

(** C8, counterexample.  An amount of -5 with a blank description goes
    through the adapter and ends up as a row of the store. *)
Lemma addExpense_validates_counterexample :
  ~ addExpense_validates "u1" bad_fields
      {| localStorage := ∅; supabase := db_fresh |}
  /\ exists db',
       supabaseStorage_addExpense "u1" bad_fields
         {| localStorage := ∅; supabase := db_fresh |}
       = (Returned tt, {| localStorage := ∅; supabase := db' |})
       /\ expenses db'
          = [ mkExpenseRow "uuid-0" "u1" "2024-03-20" "food" "   " (- (5)) "cash"
                           None "2024-03-31T12:00:00Z" ].
Proof.
  split.
  - intros Hclaim. destruct Hclaim as [error Herr]; [reflexivity|].
    vm_compute in Herr. discriminate.
  - eexists. split; vm_compute; reflexivity.
Defined.

(** C8, as amended.  [addExpense] checks nothing: it hands one row with the
    fields as given to the store and throws exactly when the store answers
    with an error, so on the reference store every row the policy and the
    primary key admit is stored, whatever its amount and description.  The
    checks are in the submit handler of the form, which calls the adapter
    only with a positive amount and a trimmed description that is not
    empty. *)
Theorem addExpense_spec :
  (forall (R : Type) (client : Supabase R)
          (userId : string) (expense : NewExpense) (w : World R),
      let reply := expenses_insert [addExpense_row userId expense] (supabase w) in
      supabaseStorage_addExpense userId expense w
      = (match fst reply with Some error => Thrown error | None => Returned tt end,
         {| localStorage := localStorage w; supabase := snd reply |}))
  /\ (forall (userId : string) (expense : NewExpense)
             (ls : gmap string string) (db : Db),
        auth_uid db = Some userId ->
        distinct row_id (expenses db ++ [stored_row db userId expense]) = true ->
        exists db',
          supabaseStorage_addExpense userId expense
            {| localStorage := ls; supabase := db |}
          = (Returned tt, {| localStorage := ls; supabase := db' |})
          /\ expenses db' = expenses db ++ [stored_row db userId expense])
  /\ (forall (builtins : Builtins) (f : Form) (expense : NewExpense),
        handleSubmit None f = addMutation_mutate expense ->
        0 < new_amount expense
        /\ new_description expense = trim (form_description f)
        /\ new_description expense <> ""%string
        /\ parseFloat (form_amount f) = Some (new_amount expense)).
Proof.
  split; [|split].
  - intros R client userId expense w. simpl.
    unfold supabaseStorage_addExpense. unfold_M.
    destruct (expenses_insert _ (supabase w)) as [[error|] s']; reflexivity.
  - intros userId expense ls db Huid Hpk.
    unfold supabaseStorage_addExpense. unfold_M.
    cbn [supabase localStorage expenses_insert Db_Supabase].
    unfold Db_expenses_insert, addExpense_row.
    cbn [expense_rows ins_id ins_user_id ins_date ins_category ins_description
         ins_amount ins_payment_method ins_tag ins_created_at default from_option
         forallb row_user_id].
    fold (stored_row db userId expense).
    rewrite Huid, bool_decide_eq_true_2 by reflexivity.
    rewrite Hpk. cbn. eexists. split; reflexivity.
  - intros builtins f expense. unfold handleSubmit.
    destruct (parseFloat (form_amount f)) as [numAmount|]; [|discriminate].
    destruct (Qle_bool numAmount 0) eqn:Hle; [discriminate|].
    destruct (truthy (trim (form_description f))) eqn:Htr; [|discriminate].
    cbn. intros [= <-]. cbn. repeat split.
    + apply Qgtb_true. unfold Qgtb. by rewrite Hle.
    + intros Hempty. rewrite Hempty in Htr. discriminate.
Qed.

Lemma addExpense_spec_witness :
  (exists db',
      supabaseStorage_addExpense "u1" bad_fields
        {| localStorage := device_cache; supabase := db_fresh |}
      = (Returned tt, {| localStorage := device_cache; supabase := db' |})
      /\ expenses db' = expenses db_fresh ++ [stored_row db_fresh "u1" bad_fields])
  /\ handleSubmit (builtins := table_parseFloat) None lunch_form
     = addMutation_mutate
         {| new_date := "2024-03-20"; new_category := food;
            new_description := "lunch"; new_amount := 25 # 2;
            new_paymentMethod := upi; new_tag := None |}
  /\ 0 < 25 # 2.
Proof.
  destruct addExpense_spec as (_ & Hdb & Hform).
  split; [|split].
  - apply Hdb; vm_compute; reflexivity.
  - vm_compute. reflexivity.
  - apply (Hform table_parseFloat lunch_form
             {| new_date := "2024-03-20"; new_category := food;
                new_description := "lunch"; new_amount := 25 # 2;
                new_paymentMethod := upi; new_tag := None |}).
    vm_compute. reflexivity.
Defined.

(** ** Updating an expense *)

Lemma if_truthy_nonempty v old :
  default old (if_truthy v) = nonempty v old.
Proof.
  destruct v as [s|]; simpl; [|reflexivity].
  unfold truthy. destruct (String.eqb s ""); reflexivity.
Qed.

Lemma if_truthy_category c :
  if_truthy (category_name <$> c) = category_name <$> c.
Proof. destruct c as [[]|]; reflexivity. Qed.

Lemma if_truthy_paymentMethod m :
  if_truthy (paymentMethod_name <$> m) = paymentMethod_name <$> m.
Proof. destruct m as [[]|]; reflexivity. Qed.

Lemma apply_update_written p r :
  apply_update (updateExpense_updates p) r = written_row p r.
Proof.
  unfold apply_update, updateExpense_updates, written_row.
  cbn [upd_date upd_category upd_description upd_amount upd_payment_method
       upd_tag].
  rewrite if_truthy_category, if_truthy_paymentMethod, !if_truthy_nonempty.
  reflexivity.
Qed.

(** Whatever the record: [updateExpense] sends the store the columns
    [date], [category], [description] and [payment_method] for the fields
    that are supplied and not the empty string, and [amount] and [tag] for
    the fields that are not [undefined]; [id] and [createdAt] are never
    sent.  On the reference store the rows with that [id] which the caller
    owns take exactly those values, and no other row or table changes. *)
Lemma updateExpense_written (id_ : string) (p : PartialExpense)
    (ls : gmap string string) (db : Db) :
  exists db',
    supabaseStorage_updateExpense id_ p {| localStorage := ls; supabase := db |}
    = (Returned tt, {| localStorage := ls; supabase := db' |})
    /\ expenses db' = update_rows (written_row p) id_ db
    /\ monthly_budgets db' = monthly_budgets db
    /\ auth_uid db' = auth_uid db.
Proof.
  unfold supabaseStorage_updateExpense. unfold_M.
  cbn [supabase localStorage expenses_update_eq_id Db_Supabase].
  unfold Db_expenses_update_eq_id. eexists. split; [reflexivity|].
  cbn [expenses monthly_budgets auth_uid]. split; [|split; reflexivity].
  unfold update_rows. apply map_ext. intros r.
  by rewrite apply_update_written.
Qed.

(** On the fields an update may carry, what is written is what is
    supplied. *)
Lemma written_row_supplied (p : PartialExpense) (r : ExpenseRow) :
  p_id p = None -> p_createdAt p = None ->
  p_date p <> Some ""%string -> p_description p <> Some ""%string ->
  written_row p r = supplied_row p r.
Proof.
  intros Hid Hcreated Hdate Hdesc.
  unfold written_row, supplied_row. rewrite Hid, Hcreated. simpl. f_equal.
  - destruct (p_date p) as [s|]; simpl; [|reflexivity].
    destruct (String.eqb_spec s ""); [subst; contradiction | reflexivity].
  - destruct (p_description p) as [s|]; simpl; [|reflexivity].
    destruct (String.eqb_spec s ""); [subst; contradiction | reflexivity].
Qed.

(** C9.  For every expense id and every partial record of the fields an
    update may carry (any field except [id] and [createdAt], the date and
    the description not empty), [updateExpense] resolves and, on the
    reference store, the rows with that [id] which the caller owns take the
    supplied value in every supplied field and keep every field that is not
    supplied; the rows with another [id], the budgets and the session stay
    as they are. *)
Theorem updateExpense_spec (id_ : string) (p : PartialExpense)
    (ls : gmap string string) (db : Db) :
  p_id p = None -> p_createdAt p = None ->
  p_date p <> Some ""%string -> p_description p <> Some ""%string ->
  updateExpense_exact id_ p ls db
  /\ exists db',
       supabaseStorage_updateExpense id_ p
         {| localStorage := ls; supabase := db |}
       = (Returned tt, {| localStorage := ls; supabase := db' |})
       /\ (forall r, row_id r <> id_ -> In r (expenses db) ->
             In r (expenses db'))
       /\ monthly_budgets db' = monthly_budgets db
       /\ auth_uid db' = auth_uid db.
Proof.
  intros Hid Hcreated Hdate Hdesc.
  destruct (updateExpense_written id_ p ls db)
    as (db' & Hrun & Hrows & Hbudgets & Hauth).
  split.
  - exists db'. split; [exact Hrun|]. rewrite Hrows.
    unfold update_rows. apply map_ext. intros r.
    destruct (_ && _); [|reflexivity].
    by apply written_row_supplied.
  - exists db'. split; [exact Hrun|]. split; [|split; assumption].
    intros r Hne Hin. rewrite Hrows. unfold update_rows.
    apply in_map_iff. exists r. split; [|exact Hin].
    rewrite bool_decide_eq_false_2 by exact Hne. reflexivity.
Qed.

Lemma updateExpense_spec_witness :
  updateExpense_exact "e1" some_fields device_cache db_u1_with_expenses
  /\ update_rows (supplied_row some_fields) "e1" db_u1_with_expenses
     = [ mkExpenseRow "e1" "u1" "2024-03-02" "rent" "lunch" 0 "cash" (Some "")
                      "2024-03-02T10:00:00Z";
         mkExpenseRow "e2" "u1" "2024-03-09" "travel" "train" 80 "card"
                      (Some "work") "2024-03-09T20:00:00Z" ].
Proof.
  destruct (updateExpense_spec "e1" some_fields device_cache
              db_u1_with_expenses) as (Hexact & _);
    [reflexivity | reflexivity | discriminate | discriminate |].
  split; [exact Hexact|]. vm_compute. reflexivity.
Defined.

(** Outside the fields an update may carry: a description supplied as the
    empty string is not written, and neither is a supplied [createdAt]; the
    stored row keeps what it had. *)
Remark updateExpense_not_written :
  supabaseStorage_updateExpense "e1" empty_description
    {| localStorage := ∅; supabase := db_u1_with_expenses |}
  = (Returned tt, {| localStorage := ∅; supabase := db_u1_with_expenses |})
  /\ supabaseStorage_updateExpense "e1" new_createdAt
       {| localStorage := ∅; supabase := db_u1_with_expenses |}
     = (Returned tt, {| localStorage := ∅; supabase := db_u1_with_expenses |}).
Proof. split; vm_compute; reflexivity. Qed.

(** * Further properties *)

(** ** Period slices *)

Lemma getCurrentMonthExpenses_inMonth now expenses :
  (0 <= getMonth now < 12)%Z ->
  getCurrentMonthExpenses now expenses
  = List.filter (inMonth (monthIndex now)) expenses.
Proof.
  intros Hm. unfold getCurrentMonthExpenses.
  apply filter_ext_all. intros e. by apply within_month.
Qed.

Lemma getLastMonthExpenses_inMonth now expenses :
  getLastMonthExpenses now expenses
  = List.filter (inMonth (monthIndex now - 1)) expenses.
Proof.
  unfold getLastMonthExpenses. apply filter_ext_all. intros e.
  rewrite within_month by apply getMonth_subMonths.
  by rewrite monthIndex_subMonths.
Qed.

Lemma inMonth_true k e :
  inMonth k e = true <->
  exists d, parseISO (date e) = Some d /\ monthIndex d = k.
Proof.
  unfold inMonth. destruct (parseISO (date e)) as [d|].
  - rewrite Z.eqb_eq. split; [eauto|]. by intros (d' & [= <-] & H).
  - split; [discriminate|]. by intros (d' & [=] & _).
Qed.

(** X1. With [now] in month [m] of year [y], [getCurrentMonthExpenses]
    keeps exactly the expenses whose date parses to a day of that month, and
    [getLastMonthExpenses] exactly those of the month before, which for
    January is December of year [y - 1]; both keep the order of the input
    and no expense is in both. *)
Theorem period_slices (now : Date) (expenses : list Expense) :
  (0 <= getMonth now < 12)%Z ->
  (forall e,
      In e (getCurrentMonthExpenses now expenses) <->
      In e expenses
      /\ exists d, parseISO (date e) = Some d
                   /\ getFullYear d = getFullYear now
                   /\ getMonth d = getMonth now)
  /\ (forall e,
        In e (getLastMonthExpenses now expenses) <->
        In e expenses
        /\ exists d, parseISO (date e) = Some d
                     /\ (getFullYear d, getMonth d) = previousMonth now)
  /\ getCurrentMonthExpenses now expenses
     = List.filter (inMonth (monthIndex now)) expenses
  /\ getLastMonthExpenses now expenses
     = List.filter (inMonth (monthIndex now - 1)) expenses
  /\ (forall e, In e (getCurrentMonthExpenses now expenses) ->
                ~ In e (getLastMonthExpenses now expenses)).
Proof.
  intros Hm.
  rewrite getCurrentMonthExpenses_inMonth by exact Hm.
  rewrite getLastMonthExpenses_inMonth.
  split; [|split; [|split; [reflexivity|split; [reflexivity|]]]].
  - intros e. rewrite filter_In, inMonth_true. split.
    + intros (Hin & d & Hd & Hk). split; [exact Hin|]. exists d.
      split; [exact Hd|].
      destruct (parseISO_valid _ _ Hd) as (Hdm & _). unfold monthIndex in Hk. lia.
    + intros (Hin & d & Hd & Hy & Hmm). split; [exact Hin|]. exists d.
      split; [exact Hd|]. unfold monthIndex. lia.
  - intros e. rewrite filter_In, inMonth_true. unfold previousMonth. split.
    + intros (Hin & d & Hd & Hk). split; [exact Hin|]. exists d.
      split; [exact Hd|].
      destruct (parseISO_valid _ _ Hd) as (Hdm & _). unfold monthIndex in Hk.
      destruct (Z.eqb_spec (getMonth now) 0); f_equal; lia.
    + intros (Hin & d & Hd & Hprev). split; [exact Hin|]. exists d.
      split; [exact Hd|]. unfold monthIndex.
      destruct (Z.eqb_spec (getMonth now) 0); injection Hprev as Hy Hmm; lia.
  - intros e. rewrite !filter_In, !inMonth_true.
    intros (_ & d & Hd & Hk) (_ & d' & Hd' & Hk').
    rewrite Hd in Hd'. injection Hd' as <-. lia.
Qed.

Lemma period_slices_witness :
  getCurrentMonthExpenses now_2024_01 turn_of_year
  = [ mkExpense "y" "2024-01-01" food "brunch" 30 cash None "2024-01-01T11:00:00Z" ]
  /\ getLastMonthExpenses now_2024_01 turn_of_year
     = [ mkExpense "x" "2023-12-31" other "fee" 9 bank None "2023-12-31T23:00:00Z" ]
  /\ previousMonth now_2024_01 = (2023%Z, 11%Z)
  /\ (forall e, In e (getCurrentMonthExpenses now_2024_01 turn_of_year) ->
                ~ In e (getLastMonthExpenses now_2024_01 turn_of_year)).
Proof.
  assert (Hm : (0 <= getMonth now_2024_01 < 12)%Z) by (simpl; lia).
  destruct (period_slices now_2024_01 turn_of_year Hm) as (_ & _ & _ & _ & H).
  repeat split; exact H.
Defined.

(** ** Monthly totals and the period slices *)

(** X2. The last entry of [getMonthlyTotals] carries the total of
    [getCurrentMonthExpenses] and the one before it the total of
    [getLastMonthExpenses]: the trend of the analytics page ends with the
    two figures the dashboard compares. *)
Theorem monthly_totals_agree (now : Date) (expenses : list Expense)
    (monthsBack : Z) :
  (0 <= getMonth now < 12)%Z ->
  (2 <= monthsBack)%Z ->
  total <$> (getMonthlyTotals now expenses monthsBack !! Z.to_nat (monthsBack - 1))
  = Some (getTotalAmount (getCurrentMonthExpenses now expenses))
  /\ total <$> (getMonthlyTotals now expenses monthsBack !! Z.to_nat (monthsBack - 2))
     = Some (getTotalAmount (getLastMonthExpenses now expenses)).
Proof.
  intros Hm Hn. unfold getMonthlyTotals.
  rewrite !monthly_loop_lookup by lia.
  rewrite getCurrentMonthExpenses_inMonth by exact Hm.
  rewrite getLastMonthExpenses_inMonth.
  replace (Z.of_nat (Z.to_nat monthsBack - 1 - Z.to_nat (monthsBack - 1)))
    with 0%Z by lia.
  replace (Z.of_nat (Z.to_nat monthsBack - 1 - Z.to_nat (monthsBack - 2)))
    with 1%Z by lia.
  unfold entryFor. simpl. rewrite Z.sub_0_r. split; reflexivity.
Qed.

Lemma monthly_totals_agree_witness :
  total <$> (getMonthlyTotals now_2024_01 turn_of_year 12 !! 11%nat)
  = Some (getTotalAmount (getCurrentMonthExpenses now_2024_01 turn_of_year))
  /\ total <$> (getMonthlyTotals now_2024_01 turn_of_year 12 !! 10%nat)
     = Some (getTotalAmount (getLastMonthExpenses now_2024_01 turn_of_year)).
Proof.
  apply (monthly_totals_agree now_2024_01 turn_of_year 12); simpl; lia.
Defined.

(** ** The sign of the percentage change *)

Lemma getPercentageChange_pos current previous :
  0 < previous ->
  getPercentageChange current previous * previous == (current - previous) * 100.
Proof.
  intros Hp. unfold getPercentageChange.
  destruct (Qeq_bool previous 0) eqn:E.
  - apply Qeq_bool_iff in E. lra.
  - field. lra.
Qed.

(** X5. For totals that are not negative, the percentage change is
    negative exactly when the current total is below the previous one, zero
    exactly when the two are equal and positive exactly when the current
    total is above, and it is never below -100: the dashboard says "less"
    only for a month that spent less. *)
Theorem getPercentageChange_sign (current previous : Q) :
  0 <= current -> 0 <= previous ->
  (getPercentageChange current previous < 0 <-> current < previous)
  /\ (getPercentageChange current previous == 0 <-> current == previous)
  /\ (0 < getPercentageChange current previous <-> previous < current)
  /\ - (100) <= getPercentageChange current previous.
Proof.
  intros Hc Hp.
  destruct (Qlt_le_dec 0 previous) as [Hpos|Hzero].
  - pose proof (getPercentageChange_pos current previous Hpos) as H.
    set (x := getPercentageChange current previous) in *.
    repeat split; intros; nra.
  - assert (Hp0 : previous == 0) by lra.
    unfold getPercentageChange.
    apply Qeq_bool_iff in Hp0 as Hb. rewrite Hb.
    destruct (Qgtb current 0) eqn:Hg.
    + apply Qgtb_true in Hg. repeat split; intros; lra.
    + apply Qgtb_false in Hg. repeat split; intros; lra.
Qed.

Lemma getPercentageChange_sign_witness :
  (getPercentageChange 50 100 < 0 <-> 50 < 100)
  /\ - (100) <= getPercentageChange 0 100.
Proof.
  destruct (getPercentageChange_sign 50 100) as (H & _); [lra | lra |].
  destruct (getPercentageChange_sign 0 100) as (_ & _ & _ & H'); [lra | lra |].
  split; [exact H | exact H'].
Defined.

(** ** Bounds of the average *)

Lemma Qsum_pos (t : Q) (l : list Q) :
  0 < t -> Forall (fun x => 0 < x) l -> 0 < Qsum (t :: l).
Proof.
  intros Ht Hl. cbn [Qsum fold_right].
  assert (0 <= fold_right Qplus 0 l) as Hs.
  { induction Hl as [|x l Hx _ IH]; simpl; lra. }
  lra.
Qed.

Lemma length_pos_Q {A} (l : list A) :
  l <> [] -> 0 < inject_Z (Z.of_nat (length l)).
Proof.
  intros Hne. destruct l; [contradiction|].
  change 0 with (inject_Z 0). rewrite <- Zlt_Qlt. simpl. lia.
Qed.

Lemma getAverageMonthlySpend_mean now expenses :
  let ps := positives (map total (getMonthlyTotals now expenses 12)) in
  getAverageMonthlySpend now expenses
  == match ps with [] => 0 | _ => mean ps end.
Proof.
  intros ps. unfold ps, getAverageMonthlySpend.
  rewrite <- map_total_filter.
  destruct (List.filter _ _) as [|m l] eqn:Hf; [reflexivity|].
  change (length (m :: l) =? 0)%nat with false. cbv iota.
  unfold mean. rewrite length_map.
  rewrite (fold_left_plus_Qsum total (m :: l)). reflexivity.
Qed.

Lemma positives_Forall (l : list Q) : Forall (fun t => 0 < t) (positives l).
Proof.
  unfold positives. apply List.Forall_forall. intros t Ht.
  apply filter_In in Ht as [_ Ht]. by apply Qgtb_true.
Qed.

(** X6. [getAverageMonthlySpend] is never negative, whatever the signs of
    the amounts, and it is zero exactly when no month of the window has a
    positive total: months whose total is zero or negative are left out of
    the average and never pull it down to zero or below. *)
Theorem getAverageMonthlySpend_sign (now : Date) (expenses : list Expense) :
  let totals := map total (getMonthlyTotals now expenses 12) in
  0 <= getAverageMonthlySpend now expenses
  /\ (getAverageMonthlySpend now expenses == 0 <-> positives totals = [])
  /\ (positives totals <> [] -> 0 < getAverageMonthlySpend now expenses).
Proof.
  intros totals.
  pose proof (getAverageMonthlySpend_mean now expenses) as Havg.
  fold totals in Havg. cbv zeta in Havg.
  pose proof (positives_Forall totals) as Hpos.
  destruct (positives totals) as [|t ps] eqn:Hps.
  - rewrite Havg. repeat split; intros; try lra; try reflexivity; try congruence.
  - assert (Hlow : 0 < mean (t :: ps)).
    { apply Qlt_shift_div_l; [by apply length_pos_Q|].
      rewrite Qmult_0_l. inversion Hpos as [|? ? Ht Hrest]; subst.
      by apply Qsum_pos. }
    rewrite Havg. split; [lra|]. split.
    + split; [intros H0; lra | discriminate].
    + intros _. lra.
Qed.

Lemma getAverageMonthlySpend_sign_witness :
  0 < getAverageMonthlySpend now_2024_03 two_months.
Proof.
  destruct (getAverageMonthlySpend_sign now_2024_03 two_months)
    as (_ & _ & Hpos).
  apply Hpos. vm_compute. discriminate.
Defined.

(** ** The category table *)

Lemma category_name_inj c c' : category_name c = category_name c' -> c = c'.
Proof. destruct c, c'; (reflexivity || discriminate). Qed.

(** X7. [getCategoryInfo] finds, for every member of [Category], the entry
    of that member; for any other text it falls back to the last entry,
    the one of ["other"]; it never yields [undefined].  The table lists the
    members once each, in the order of the enumeration. *)
Theorem getCategoryInfo_spec :
  (forall c : Category,
      exists info,
        getCategoryInfo (category_name c) = Some info
        /\ value info = category_name c)
  /\ (forall s : string,
        (forall c, category_name c <> s) ->
        getCategoryInfo s
        = Some {| value := "other"; label := "Other";
                  icon := "MoreHorizontal"; emoji := "📌" |})
  /\ (forall s : string, is_Some (getCategoryInfo s))
  /\ map value categories = map category_name all_categories
  /\ NoDup (map label categories).
Proof.
  assert (Hother : forall s : string,
             (forall c, category_name c <> s) ->
             getCategoryInfo s
             = Some {| value := "other"; label := "Other";
                       icon := "MoreHorizontal"; emoji := "📌" |}).
  { intros s Hs. unfold getCategoryInfo, categories.
    cbn [List.find value].
    repeat match goal with
           | |- context [String.eqb ?a s] =>
               destruct (String.eqb_spec a s) as [Heq|_];
               [exfalso;
                first [ exact (Hs food Heq) | exact (Hs travel Heq)
                      | exact (Hs shopping Heq) | exact (Hs rent Heq)
                      | exact (Hs entertainment Heq) | exact (Hs utilities Heq)
                      | exact (Hs health Heq) | exact (Hs other Heq) ]|]
           end.
    reflexivity. }
  split; [|split; [exact Hother|split; [|split]]].
  - intros c. destruct c; eexists; split; reflexivity.
  - intros s. unfold getCategoryInfo.
    destruct (List.find _ categories); [eauto|]. simpl. eauto.
  - reflexivity.
  - apply (bool_decide_unpack _). vm_compute. exact I.
Qed.

Lemma getCategoryInfo_spec_witness :
  getCategoryInfo "groceries"
  = Some {| value := "other"; label := "Other";
            icon := "MoreHorizontal"; emoji := "📌" |}.
Proof.
  destruct getCategoryInfo_spec as (_ & H & _). apply H.
  intros c; destruct c; discriminate.
Defined.

(** ** The pie chart of the dashboard *)

Lemma Totals_as_map (o : Totals) :
  NoDup (keys o) ->
  o = map (fun k => (k, default 0 (get o k))) (keys o).
Proof.
  induction o as [|[k v] o IH]; intros Hnd; [reflexivity|].
  simpl in Hnd. apply NoDup_cons in Hnd as [Hk Hnd]. simpl.
  rewrite decide_True by reflexivity. simpl. f_equal.
  rewrite (IH Hnd) at 1. apply map_ext_in. intros k' Hk'.
  destruct (decide (k = k')) as [->|Hne]; [|reflexivity].
  exfalso. apply Hk. by apply list_elem_of_In.
Qed.

Lemma NoDup_all_categories : NoDup all_categories.
Proof. apply (bool_decide_unpack _). vm_compute. exact I. Qed.

Lemma getCategoryTotals_as_map expenses :
  getCategoryTotals expenses
  = map (fun c => (c, categoryTotal expenses c)) all_categories.
Proof.
  rewrite (Totals_as_map (getCategoryTotals expenses)) at 1.
  - by rewrite getCategoryTotals_keys.
  - rewrite getCategoryTotals_keys. apply NoDup_all_categories.
Qed.

Lemma getTopCategory_None_iff expenses :
  getTopCategory expenses = None <-> forall c, categoryTotal expenses c <= 0.
Proof.
  pose proof (top_fold_spec (getCategoryTotals expenses)
                (categoryTotal expenses) (get_getCategoryTotals expenses)
                (keys (getCategoryTotals expenses)) None 0) as (_ & _ & Hcase).
  unfold getTopCategory. rewrite getCategoryTotals_keys in *.
  destruct Hcase as [[-> Hsmall] | (l1 & c & l2 & _ & -> & Hlt & _)].
  - split; [|reflexivity]. intros _ c. apply Hsmall, In_all_categories.
  - split; [discriminate|]. intros Hle. pose proof (Hle c). lra.
Qed.

Lemma filter_none_categories (p : Category -> bool) (l : list Category) :
  (forall c, p c = false) -> List.filter p l = [].
Proof.
  intros Hp. induction l as [|c l IH]; simpl; [reflexivity|]. by rewrite Hp.
Qed.

(** X8. The pie chart of the dashboard has one slice for every category
    with a positive total, in the order of the enumeration, carrying that
    total and the emoji of the category and never the fallback colour; and
    it is empty exactly when [getTopCategory] is [null]. *)
Theorem Dashboard_pieData_spec (expenses : list Expense) :
  let pie := Dashboard_pieData (getCategoryTotals expenses) in
  pie
  = map (fun c =>
           {| pie_name := category_name c;
              pie_value := categoryTotal expenses c;
              pie_color := default "#8884d8"%string
                             (emoji <$> getCategoryInfo (category_name c)) |})
        (List.filter (fun c => Qgtb (categoryTotal expenses c) 0) all_categories)
  /\ (forall s, In s pie -> 0 < pie_value s /\ pie_color s <> "#8884d8"%string)
  /\ (pie = [] <-> getTopCategory expenses = None).
Proof.
  intros pie.
  assert (Heq : pie
    = map (fun c =>
             {| pie_name := category_name c;
                pie_value := categoryTotal expenses c;
                pie_color := default "#8884d8"%string
                               (emoji <$> getCategoryInfo (category_name c)) |})
          (List.filter (fun c => Qgtb (categoryTotal expenses c) 0)
                       all_categories)).
  { unfold pie. rewrite getCategoryTotals_as_map. unfold Dashboard_pieData.
    generalize all_categories as l.
    induction l as [|c l IH]; simpl; [reflexivity|].
    destruct (Qgtb (categoryTotal expenses c) 0); simpl; [|exact IH].
    f_equal; [|exact IH]. by destruct (getCategoryInfo (category_name c)). }
  split; [exact Heq|]. split.
  - intros s. rewrite Heq, in_map_iff.
    intros (c & <- & Hc). apply filter_In in Hc as [_ Hc]. simpl. split.
    + by apply Qgtb_true.
    + destruct c; vm_compute; discriminate.
  - rewrite getTopCategory_None_iff, Heq. split.
    + intros Hnil c. apply map_eq_nil in Hnil.
      apply Qgtb_false.
      destruct (Qgtb (categoryTotal expenses c) 0) eqn:Hg; [|reflexivity].
      assert (In c (List.filter (fun c => Qgtb (categoryTotal expenses c) 0)
                                all_categories)) as Hin
        by (apply filter_In; split; [apply In_all_categories | exact Hg]).
      rewrite Hnil in Hin. destruct Hin.
    + intros Hle. rewrite filter_none_categories; [reflexivity|].
      intros c. by apply Qgtb_false.
Qed.

Lemma Dashboard_pieData_spec_witness :
  Dashboard_pieData (getCategoryTotals scenario) <> []
  /\ map pie_name (Dashboard_pieData (getCategoryTotals scenario))
     = [ "food"; "travel" ]%string.
Proof.
  destruct (Dashboard_pieData_spec scenario) as (_ & _ & Hempty).
  split; [|reflexivity].
  intros Hnil. apply Hempty in Hnil. vm_compute in Hnil. discriminate.
Defined.

(** ** The budget bar of the dashboard *)

Lemma Dashboard_budgetPercentage_pos b currentTotal :
  0 < budget_amount b ->
  Dashboard_budgetPercentage (Some b) currentTotal * budget_amount b
  == currentTotal * 100.
Proof.
  intros Hb. unfold Dashboard_budgetPercentage, Dashboard_budgetAmount.
  destruct (Qeq_bool (budget_amount b) 0) eqn:E.
  - apply Qeq_bool_iff in E. lra.
  - field. lra.
Qed.

(** X9. With a budget of a positive amount, the bar of the dashboard is
    red exactly when the month's total exceeds the budget, and amber or
    green otherwise; its width is the percentage capped at 100, which for a
    total that is not negative lies between 0 and 100, and the bar is full
    exactly when the total has reached the budget.  Without a budget, or
    with a budget of amount zero, the percentage is 0. *)
Theorem Dashboard_budget_bar (b : MonthlyBudget) (currentTotal : Q) :
  0 < budget_amount b ->
  let pct := Dashboard_budgetPercentage (Some b) currentTotal in
  (Dashboard_barClass pct = "bg-destructive"%string
   <-> budget_amount b < currentTotal)
  /\ (currentTotal <= budget_amount b ->
      Dashboard_barClass pct = "bg-warning"%string
      \/ Dashboard_barClass pct = "bg-success"%string)
  /\ Dashboard_barWidth pct <= 100
  /\ (0 <= currentTotal -> 0 <= Dashboard_barWidth pct)
  /\ (Dashboard_barWidth pct == 100 <-> budget_amount b <= currentTotal)
  /\ Dashboard_budgetPercentage None currentTotal = 0
  /\ (forall month_, Dashboard_budgetPercentage
                       (Some (mkBudget month_ 0)) currentTotal = 0).
Proof.
  intros Hb pct.
  pose proof (Dashboard_budgetPercentage_pos b currentTotal Hb) as Hpct.
  fold pct in Hpct.
  unfold Dashboard_barClass, Dashboard_barWidth.
  destruct (Qgtb pct 100) eqn:H100; [apply Qgtb_true in H100
                                      | apply Qgtb_false in H100];
    (destruct (Qgtb pct 80) eqn:H80; [apply Qgtb_true in H80
                                      | apply Qgtb_false in H80]);
    (destruct (Qle_bool pct 100) eqn:Hle; [apply Qle_bool_iff in Hle
       | assert (100 < pct)
           by (apply Qnot_le_lt; intros Hc; apply Qle_bool_iff in Hc; congruence)]);
    repeat split; intros; try discriminate; try reflexivity;
      try (exfalso; nra); try nra; auto.
Qed.

Lemma Dashboard_budget_bar_witness :
  (Dashboard_barClass (Dashboard_budgetPercentage (Some budget_1000) 1200)
   = "bg-destructive"%string <-> 1000 < 1200)
  /\ 0 <= Dashboard_barWidth (Dashboard_budgetPercentage (Some budget_1000) 900).
Proof.
  destruct (Dashboard_budget_bar budget_1000 1200) as (H & _);
    [reflexivity|].
  destruct (Dashboard_budget_bar budget_1000 900) as (_ & _ & _ & H' & _);
    [reflexivity|].
  split; [exact H | apply H'; discriminate].
Defined.

(** ** The optimistic delete of the dashboard *)

(** X10. [onMutate] of the delete mutation removes from the cached list
    every expense with the given [id] and nothing else, keeping the order;
    a list without that [id] is left as it is; and [onError], given the
    context of [onMutate], puts back exactly the data that was cached
    before, whatever the cache holds by then. *)
Theorem deleteMutation_optimistic (id_ : string) (cache : QueryData) :
  let '(cache1, context) := deleteMutation_onMutate id_ cache in
  deleteMutation_onError context cache1 = cache
  /\ (forall l, cache = Some l ->
        (forall cache2, deleteMutation_onError context cache2 = Some l)
        /\ exists l1,
             cache1 = Some l1
             /\ (forall e, In e l1 <-> In e l /\ id e <> id_)
             /\ sublist l1 l
             /\ ((forall e, In e l -> id e <> id_) -> l1 = l))
  /\ (cache = None -> cache1 = None).
Proof.
  unfold deleteMutation_onMutate. destruct cache as [l|]; simpl.
  - split; [reflexivity|]. split; [|discriminate].
    intros l' [= <-]. split; [reflexivity|].
    eexists. split; [reflexivity|]. split; [|split].
    + intros e. rewrite filter_In, negb_true_iff.
      destruct (String.eqb_spec (id e) id_); intuition congruence.
    + induction l as [|e l IH]; simpl; [constructor|].
      destruct (negb _); by constructor.
    + intros Hno. induction l as [|e l IH]; simpl; [reflexivity|].
      destruct (String.eqb_spec (id e) id_) as [Heq|_].
      * exfalso. apply (Hno e); [by left | exact Heq].
      * simpl. f_equal. apply IH. intros e' He'. apply Hno. by right.
  - split; [reflexivity|]. split; [discriminate | reflexivity].
Qed.

Lemma deleteMutation_optimistic_witness :
  fst (deleteMutation_onMutate "e2" (Some scenario))
  = Some [ mkExpense "e1" "2024-03-02" food "lunch" 100 cash None
                     "2024-03-02T10:00:00Z";
           mkExpense "e3" "2024-03-15" travel "train" 300 upi None
                     "2024-03-15T08:00:00Z" ]
  /\ deleteMutation_onError
       (snd (deleteMutation_onMutate "e2" (Some scenario))) None
     = Some scenario.
Proof.
  pose proof (deleteMutation_optimistic "e2" (Some scenario)) as H.
  cbv beta iota zeta delta [deleteMutation_onMutate] in H.
  destruct H as (_ & H & _).
  destruct (H scenario eq_refl) as (Hback & _).
  split; [reflexivity | apply Hback].
Defined.

(** ** The local cache and the check for pending data *)

Section CacheProperties.
Context {R : Type} `{!Supabase R} `{!Json}.

(** X11. [hasLocalStorageData] throws whenever [JSON.parse] throws on one
    of the two cache texts, also when ["migrated"] is set: the flag is
    looked at only after both caches have been read.  When both caches are
    read as arrays, the answer is yes exactly when ["migrated"] is missing
    or the empty string and the arrays are not both empty.  A yes is given
    only with the flag unset and with a cache entry that is present and not
    the empty text; a device whose two entries are missing or empty has no
    pending data, whatever the flag. *)
Theorem hasLocalStorageData_spec (ls : gmap string string) :
  (forall e, storage_getExpenses ls = Thrown e ->
             hasLocalStorageData ls = Thrown e)
  /\ (forall expenses e,
        storage_getExpenses ls = Returned expenses ->
        storage_getBudgets ls = Thrown e ->
        hasLocalStorageData ls = Thrown e)
  /\ (forall expenses budgets,
        storage_getExpenses ls = Returned expenses ->
        storage_getBudgets ls = Returned budgets ->
        exists answer,
          hasLocalStorageData ls = Returned answer
          /\ (answer = true <->
              (ls !! "migrated" = None \/ ls !! "migrated" = Some ""%string)
              /\ (expenses <> [] \/ budgets <> [])))
  /\ (hasLocalStorageData ls = Returned true ->
      (ls !! "migrated" = None \/ ls !! "migrated" = Some ""%string)
      /\ ((exists text, ls !! EXPENSES_KEY = Some text /\ text <> ""%string)
          \/ (exists text, ls !! BUDGETS_KEY = Some text /\ text <> ""%string)))
  /\ ((ls !! EXPENSES_KEY = None \/ ls !! EXPENSES_KEY = Some ""%string) ->
      (ls !! BUDGETS_KEY = None \/ ls !! BUDGETS_KEY = Some ""%string) ->
      hasLocalStorageData ls = Returned false).
Proof.
  assert (HE : (ls !! EXPENSES_KEY = None \/ ls !! EXPENSES_KEY = Some ""%string) ->
               storage_getExpenses ls = Returned []).
  { unfold storage_getExpenses. by intros [-> | ->]. }
  assert (HB : (ls !! BUDGETS_KEY = None \/ ls !! BUDGETS_KEY = Some ""%string) ->
               storage_getBudgets ls = Returned []).
  { unfold storage_getBudgets. by intros [-> | ->]. }
  assert (Hflag : not_ (ls !! "migrated") = true <->
                  ls !! "migrated" = None \/ ls !! "migrated" = Some ""%string).
  { unfold not_. destruct (ls !! "migrated") as [v|]; [|by split; [left|]].
    unfold truthy. rewrite negb_involutive, String.eqb_eq.
    split; [intros ->; by right | by intros [[=] | [= ->]]]. }
  assert (Hempty : forall text_ : option string,
             text_ = None \/ text_ = Some ""%string
             \/ exists text, text_ = Some text /\ text <> ""%string).
  { intros [text|]; [|by left]. right.
    destruct (String.eqb_spec text ""); [left; by subst | right; eauto]. }
  split; [|split; [|split; [|split]]].
  - intros e He. unfold hasLocalStorageData. by rewrite He.
  - intros expenses e He Hb. unfold hasLocalStorageData. by rewrite He, Hb.
  - intros expenses budgets He Hb. unfold hasLocalStorageData.
    rewrite He, Hb. eexists. split; [reflexivity|].
    rewrite andb_true_iff, orb_true_iff, Hflag.
    assert (forall A (l : list A), (0 <? length l)%nat = true <-> l <> [])
      as Hlen by (intros A [|? ?]; simpl; split; (discriminate || done)).
    by rewrite !Hlen.
  - intros Hyes. unfold hasLocalStorageData in Hyes.
    destruct (Hempty (ls !! EXPENSES_KEY)) as [H1 | [H1 | H1]];
      [| |destruct (storage_getExpenses ls), (storage_getBudgets ls);
           try discriminate; injection Hyes as Hyes;
           apply andb_true_iff in Hyes as [Hf _]; apply Hflag in Hf; auto].
    all: rewrite (HE ltac:(auto)) in Hyes.
    all: destruct (Hempty (ls !! BUDGETS_KEY)) as [H2 | [H2 | H2]];
      [| |destruct (storage_getBudgets ls);
           try discriminate; injection Hyes as Hyes;
           apply andb_true_iff in Hyes as [Hf _]; apply Hflag in Hf; auto].
    all: rewrite (HB ltac:(auto)) in Hyes; simpl in Hyes;
      rewrite andb_false_r in Hyes; discriminate.
  - intros H1 H2. unfold hasLocalStorageData.
    rewrite (HE H1), (HB H2). simpl. by rewrite andb_false_r.
Qed.

(** X12. With nothing in the cache the migration sends nothing to the
    store, still removes the two entries and writes ["migrated"], and
    resolves with a success of 0 expenses and 0 budgets: a device without
    cached data is marked as migrated by the first run. *)
Theorem migrate_empty_cache (userId : string) (ls : gmap string string) (s : R) :
  storage_getExpenses ls = Returned [] ->
  storage_getBudgets ls = Returned [] ->
  migrateLocalStorageToSupabase userId {| localStorage := ls; supabase := s |}
  = (Returned (MigrationSuccess 0 0),
     {| localStorage := migrated_storage ls; supabase := s |})
  /\ migrated_storage ls !! "migrated" = Some "true"%string
  /\ hasLocalStorageData (migrated_storage ls) = Returned false.
Proof.
  intros HE HB. rewrite migrate_cases, HE, HB. simpl.
  split; [reflexivity|]. split.
  - unfold migrated_storage. by rewrite lookup_insert_eq.
  - unfold hasLocalStorageData.
    rewrite storage_getExpenses_migrated, storage_getBudgets_migrated.
    unfold migrated_storage. by rewrite lookup_insert_eq.
Qed.

(** X13. When one of the two cache texts does not parse, the migration
    resolves with a failure that carries the exception of [JSON.parse] and
    changes neither [localStorage] nor the store: both texts are read
    before anything is sent, so budgets that do not parse keep the expenses
    from being inserted.  The check of the dashboard, which has no [try],
    throws on the same device. *)
Theorem migrate_malformed_cache (userId : string) (ls : gmap string string)
    (s : R) (e : JsError) :
  storage_getExpenses ls = Thrown e
  \/ ((exists expenses, storage_getExpenses ls = Returned expenses)
      /\ storage_getBudgets ls = Thrown e) ->
  migrateLocalStorageToSupabase userId {| localStorage := ls; supabase := s |}
  = (Returned (MigrationFailure e), {| localStorage := ls; supabase := s |})
  /\ (forall shown,
        Dashboard_useEffect (Some userId)
          {| showMigrationDialog := shown;
             world := {| localStorage := ls; supabase := s |} |}
        = Thrown e).
Proof.
  intros Hbad. split.
  - rewrite migrate_cases.
    destruct Hbad as [-> | [[expenses ->] ->]]; reflexivity.
  - intros shown. unfold Dashboard_useEffect, hasLocalStorageData. simpl.
    destruct Hbad as [-> | [[expenses ->] ->]]; reflexivity.
Qed.

End CacheProperties.

Lemma hasLocalStorageData_spec_witness :
  hasLocalStorageData device_cache = Returned true
  /\ hasLocalStorageData (<["migrated" := "true"]> device_cache)
     = Returned false
  /\ hasLocalStorageData (<[EXPENSES_KEY := ""%string]> ∅) = Returned false.
Proof.
  destruct (hasLocalStorageData_spec device_cache) as (_ & _ & H1 & _).
  destruct (hasLocalStorageData_spec (<["migrated" := "true"]> device_cache))
    as (_ & _ & H2 & _).
  destruct (hasLocalStorageData_spec (<[EXPENSES_KEY := ""%string]> ∅))
    as (_ & _ & _ & _ & H3).
  split; [|split].
  - destruct (H1 cached_expenses cached_budgets) as (answer & -> & Hyes);
      [vm_compute; reflexivity | vm_compute; reflexivity |].
    f_equal. apply Hyes. split; [left; vm_compute; reflexivity|].
    left. discriminate.
  - destruct (H2 cached_expenses cached_budgets) as (answer & -> & Hyes);
      [vm_compute; reflexivity | vm_compute; reflexivity |].
    f_equal. destruct answer; [|reflexivity].
    destruct (proj1 Hyes eq_refl) as [[H | H] _];
      vm_compute in H; discriminate.
  - apply H3; [right | left]; vm_compute; reflexivity.
Defined.

Lemma migrate_empty_cache_witness :
  migrateLocalStorageToSupabase "u1"
    {| localStorage := ∅; supabase := db_u1 |}
  = (Returned (MigrationSuccess 0 0),
     {| localStorage := migrated_storage ∅; supabase := db_u1 |}).
Proof.
  destruct (migrate_empty_cache "u1" ∅ db_u1) as (H & _);
    [vm_compute; reflexivity | vm_compute; reflexivity | exact H].
Defined.

Lemma migrate_malformed_cache_witness :
  migrateLocalStorageToSupabase "u1"
    {| localStorage := broken_cache; supabase := db_fresh |}
  = (Returned (MigrationFailure (SyntaxError "Unexpected token")),
     {| localStorage := broken_cache; supabase := db_fresh |}).
Proof.
  destruct (migrate_malformed_cache "u1" broken_cache db_fresh
              (SyntaxError "Unexpected token")) as (H & _); [|exact H].
  right. split; [exists cached_expenses|]; vm_compute; reflexivity.
Defined.

(** ** The migration on the reference store *)

Lemma distinct_NoDup {A K : Type} `{!EqDecision K} (key : A -> K) (l : list A) :
  distinct key l = true <-> NoDup (map key l).
Proof.
  induction l as [|x l IH]; simpl.
  - split; [constructor | reflexivity].
  - rewrite andb_true_iff, negb_true_iff, IH, NoDup_cons. 
    assert (existsb (fun y => bool_decide (key y = key x)) l = false
            <-> key x ∉ map key l) as ->; [|reflexivity].
    rewrite <- not_true_iff_false, existsb_exists. split.
    + intros Hno Hin. apply Hno. apply list_elem_of_In, in_map_iff in Hin.
      destruct Hin as (y & Hy & Hin). exists y. split; [exact Hin|].
      by apply bool_decide_eq_true.
    + intros Hno (y & Hin & Hy). apply bool_decide_eq_true in Hy.
      apply Hno. rewrite <- Hy. apply list_elem_of_In, in_map. exact Hin.
Qed.

Lemma distinct_app_dup {A K : Type} `{!EqDecision K} (key : A -> K)
    (l l' : list A) k :
  In k (map key l) -> In k (map key l') -> distinct key (l ++ l') = false.
Proof.
  intros Hl Hl'. apply not_true_iff_false. rewrite distinct_NoDup, map_app.
  intros Hnd. apply NoDup_app in Hnd as (_ & Hdisj & _).
  apply (Hdisj k); by apply list_elem_of_In.
Qed.

Lemma expense_rows_migrated clk n userId localExpenses :
  expense_rows clk n (expensesToInsert userId localExpenses)
  = (map (migrated_row userId) localExpenses, n).
Proof.
  induction localExpenses as [|e l IH]; [reflexivity|].
  unfold expensesToInsert in *. cbn [map expense_rows ins_id].
  rewrite IH. reflexivity.
Qed.

Lemma budget_rows_fields clk n l :
  map (fun r => (brow_user_id r, brow_month r, brow_amount r))
      (fst (budget_rows clk n l))
  = map (fun i => (bins_user_id i, bins_month i, bins_amount i)) l.
Proof.
  revert n. induction l as [|i l IH]; intros n; [reflexivity|].
  cbn [budget_rows]. specialize (IH (Datatypes.S n)).
  destruct (budget_rows clk (Datatypes.S n) l) as [rows n2].
  cbn [fst map] in *. by rewrite IH.
Qed.

Lemma Db_expenses_insert_cases l db :
  (exists e, Db_expenses_insert l db = (Some e, db))
  \/ Db_expenses_insert l db
     = (None,
        {| auth_uid := auth_uid db;
           expenses := expenses db ++ fst (expense_rows (clock db) (uuid_supply db) l);
           monthly_budgets := monthly_budgets db;
           uuid_supply := snd (expense_rows (clock db) (uuid_supply db) l);
           clock := clock db |}).
Proof.
  unfold Db_expenses_insert.
  destruct (expense_rows (clock db) (uuid_supply db) l) as [rows n].
  destruct (negb (forallb _ rows)); [left; eauto|].
  destruct (negb (distinct _ _)); [left; eauto|]. by right.
Qed.

Lemma Db_monthly_budgets_insert_cases l db :
  (exists e, Db_monthly_budgets_insert l db = (Some e, db))
  \/ Db_monthly_budgets_insert l db
     = (None,
        {| auth_uid := auth_uid db;
           expenses := expenses db;
           monthly_budgets :=
             monthly_budgets db ++ fst (budget_rows (clock db) (uuid_supply db) l);
           uuid_supply := snd (budget_rows (clock db) (uuid_supply db) l);
           clock := clock db |}).
Proof.
  unfold Db_monthly_budgets_insert.
  destruct (budget_rows (clock db) (uuid_supply db) l) as [rows n].
  destruct (negb (forallb _ rows)); [left; eauto|].
  destruct (negb (distinct brow_id _)); [left; eauto|].
  destruct (negb (distinct _ _)); [left; eauto|]. by right.
Qed.

(** X14. When the migration succeeds on the reference store, the store has
    gained, after the rows it had, one row for every cached expense, in the
    order of the cache, with the original [id] and [createdAt] and all the
    fields of the expense under the given owner, and one row for every
    cached budget with its month and amount; the counts of the result are
    the lengths of the two cached lists and the cache is cleared. *)
Theorem migrate_success_store (json : Json) (userId : string)
    (ls : gmap string string) (db : Db) (n m : nat) (w' : World Db) :
  migrateLocalStorageToSupabase userId {| localStorage := ls; supabase := db |}
  = (Returned (MigrationSuccess n m), w') ->
  exists localExpenses localBudgets,
    storage_getExpenses ls = Returned localExpenses
    /\ storage_getBudgets ls = Returned localBudgets
    /\ n = length localExpenses /\ m = length localBudgets
    /\ localStorage w' = migrated_storage ls
    /\ expenses (supabase w')
       = expenses db ++ map (migrated_row userId) localExpenses
    /\ (exists rows,
          monthly_budgets (supabase w') = monthly_budgets db ++ rows
          /\ map (fun r => (brow_user_id r, brow_month r, brow_amount r)) rows
             = map (fun b => (userId, budget_month b, budget_amount b))
                   localBudgets).
Proof.
  rewrite migrate_cases.
  destruct (storage_getExpenses ls) as [localExpenses|e]; [|discriminate].
  destruct (storage_getBudgets ls) as [localBudgets|e]; [|discriminate].
  intros Hrun. exists localExpenses, localBudgets.
  split; [reflexivity|]. split; [reflexivity|].
  assert (Hphase : exists db1,
             expenses_phase userId localExpenses db = (None, db1)
             /\ expenses db1 = expenses db ++ map (migrated_row userId) localExpenses
             /\ monthly_budgets db1 = monthly_budgets db).
  { unfold expenses_phase in *. destruct localExpenses as [|e0 l0].
    - simpl. exists db. by rewrite app_nil_r.
    - cbn [length Nat.ltb Nat.leb] in *.
      cbn [expenses_insert Db_Supabase] in *.
      destruct (Db_expenses_insert_cases (expensesToInsert userId (e0 :: l0)) db)
        as [[e He] | He]; rewrite He in *; [discriminate|].
      eexists. split; [reflexivity|].
      cbn [expenses monthly_budgets]. by rewrite expense_rows_migrated. }
  destruct Hphase as (db1 & Hph & Hexp & Hbud). rewrite Hph in Hrun.
  destruct localBudgets as [|b0 l0].
  - simpl in Hrun. injection Hrun as <- <- <-. simpl.
    repeat split; try reflexivity; [exact Hexp|].
    exists []. by rewrite app_nil_r, Hbud.
  - cbn [length Nat.ltb Nat.leb] in Hrun.
    cbn [monthly_budgets_insert Db_Supabase] in Hrun.
    destruct (Db_monthly_budgets_insert_cases
                (budgetsToInsert userId (b0 :: l0)) db1) as [[e He] | He];
      rewrite He in Hrun; [discriminate|].
    injection Hrun as <- <- <-. cbn [localStorage supabase expenses monthly_budgets].
    repeat split; try reflexivity; [exact Hexp|].
    exists (fst (budget_rows (clock db1) (uuid_supply db1)
                   (budgetsToInsert userId (b0 :: l0)))).
    rewrite Hbud. split; [reflexivity|].
    rewrite budget_rows_fields. unfold budgetsToInsert.
    rewrite map_map. reflexivity.
Qed.

Lemma migrate_success_store_witness :
  exists w',
    migrateLocalStorageToSupabase "u1"
      {| localStorage := device_cache; supabase := db_fresh |}
    = (Returned (MigrationSuccess 2 1), w')
    /\ localStorage w' = migrated_storage device_cache
    /\ expenses (supabase w')
       = expenses db_fresh ++ map (migrated_row "u1") cached_expenses.
Proof.
  assert (Hrun :
    migrateLocalStorageToSupabase "u1"
      {| localStorage := device_cache; supabase := db_fresh |}
    = (Returned (MigrationSuccess 2 1),
       snd (migrateLocalStorageToSupabase "u1"
              {| localStorage := device_cache; supabase := db_fresh |})))
    by (vm_compute; reflexivity).
  destruct (migrate_success_store cache_Json "u1" device_cache db_fresh 2 1
              _ Hrun)
    as (le & lb & HE & _ & _ & _ & Hls & Hexp & _).
  assert (le = cached_expenses) as ->
    by (assert (storage_getExpenses device_cache = Returned cached_expenses)
          by (vm_compute; reflexivity); congruence).
  eexists. split; [exact Hrun|]. split; [exact Hls | exact Hexp].
Defined.

(** X15. When the session is the one of [userId] and the [id] of some
    cached expense is already the [id] of a row of the store, the migration
    fails with the duplicate-key error of the primary key of [expenses]:
    nothing is inserted, the budgets are not sent and the cache stays.  So
    after a run in which the expenses went in and the budgets were refused,
    every further run fails in this way: it cannot insert the expenses
    twice, and it cannot complete either. *)
Theorem migrate_duplicate_id (json : Json) (userId : string)
    (ls : gmap string string) (db : Db)
    (localExpenses : list Expense) (localBudgets : list MonthlyBudget) :
  storage_getExpenses ls = Returned localExpenses ->
  storage_getBudgets ls = Returned localBudgets ->
  auth_uid db = Some userId ->
  (exists e, In e localExpenses /\ In (id e) (map row_id (expenses db))) ->
  migrateLocalStorageToSupabase userId {| localStorage := ls; supabase := db |}
  = (Returned (MigrationFailure (unique_violation "expenses_pkey")),
     {| localStorage := ls; supabase := db |}).
Proof.
  intros HE HB Huid (e & Hin & Hdup).
  rewrite migrate_cases, HE, HB. unfold expenses_phase.
  destruct localExpenses as [|e0 l0]; [destruct Hin|].
  cbn [length Nat.ltb Nat.leb expenses_insert Db_Supabase].
  unfold Db_expenses_insert. rewrite expense_rows_migrated.
  assert (Hrls : forallb (fun r => bool_decide (auth_uid db = Some (row_user_id r)))
                         (map (migrated_row userId) (e0 :: l0)) = true).
  { apply forallb_forall. intros r Hr. apply in_map_iff in Hr as (x & <- & _).
    simpl. by apply bool_decide_eq_true. }
  rewrite Hrls. cbn [negb].
  rewrite (distinct_app_dup row_id (expenses db)
             (map (migrated_row userId) (e0 :: l0)) (id e)); [reflexivity| exact Hdup |].
  rewrite map_map. apply in_map_iff. exists e. split; [reflexivity | exact Hin].
Qed.

Lemma migrate_duplicate_id_witness :
  migrateLocalStorageToSupabase "u1"
    {| localStorage := device_cache; supabase := db_u1_with_expenses |}
  = (Returned (MigrationFailure (unique_violation "expenses_pkey")),
     {| localStorage := device_cache; supabase := db_u1_with_expenses |}).
Proof.
  apply (migrate_duplicate_id cache_Json "u1" device_cache db_u1_with_expenses
           cached_expenses cached_budgets).
  - vm_compute. reflexivity.
  - vm_compute. reflexivity.
  - reflexivity.
  - exists (mkExpense "e1" "2024-03-02" food "lunch" 120 cash None
                      "2024-03-02T10:00:00Z").
    split; [left; reflexivity | left; reflexivity].
Defined.

(** ** Reading the expenses back *)

Lemma insert_by_date_desc_Permutation r l :
  Permutation (insert_by_date_desc r l) (r :: l).
Proof.
  induction l as [|x l IH]; simpl; [reflexivity|].
  destruct (String.ltb (row_date r) (row_date x)); [|reflexivity].
  rewrite IH. apply perm_swap.
Qed.

Lemma order_by_date_desc_Permutation l :
  Permutation (order_by_date_desc l) l.
Proof.
  induction l as [|r l IH]; simpl; [reflexivity|].
  rewrite insert_by_date_desc_Permutation. by constructor.
Qed.

Lemma ltb_true_false (a b : string) :
  String.ltb a b = true -> String.ltb b a = false.
Proof.
  unfold String.ltb. rewrite (String.compare_antisym b a).
  destruct (String.compare a b); simpl; congruence.
Qed.

Lemma insert_by_date_desc_Sorted r l :
  Sorted date_desc l -> Sorted date_desc (insert_by_date_desc r l).
Proof.
  induction 1 as [|x l Hl IH Hhd]; simpl.
  - repeat constructor.
  - destruct (String.ltb (row_date r) (row_date x)) eqn:Hlt.
    + constructor; [exact IH|].
      destruct l as [|y l]; simpl.
      * constructor. by apply ltb_true_false.
      * destruct (String.ltb (row_date r) (row_date y)) eqn:Hlt'.
        -- constructor. by inversion Hhd.
        -- constructor. by apply ltb_true_false.
    + constructor; [by constructor|]. constructor. exact Hlt.
Qed.

Lemma order_by_date_desc_Sorted l : Sorted date_desc (order_by_date_desc l).
Proof.
  induction l as [|r l IH]; simpl; [constructor|].
  by apply insert_by_date_desc_Sorted.
Qed.

Lemma getExpenses_Db userId ls db :
  supabaseStorage_getExpenses userId {| localStorage := ls; supabase := db |}
  = (Returned
       (map getExpenses_item
          (order_by_date_desc
             (List.filter (fun r => visible db (row_user_id r)
                                    && String.eqb (row_user_id r) userId)
                          (expenses db)))),
     {| localStorage := ls; supabase := db |}).
Proof. reflexivity. Qed.

Lemma In_getExpenses_rows userId db r :
  In r (order_by_date_desc
          (List.filter (fun r => visible db (row_user_id r)
                                 && String.eqb (row_user_id r) userId)
                       (expenses db)))
  <-> In r (expenses db) /\ row_user_id r = userId /\ auth_uid db = Some userId.
Proof.
  assert (In r (order_by_date_desc
                  (List.filter (fun r => visible db (row_user_id r)
                                         && String.eqb (row_user_id r) userId)
                               (expenses db)))
          <-> In r (List.filter (fun r => visible db (row_user_id r)
                                          && String.eqb (row_user_id r) userId)
                                (expenses db))) as ->.
  { split; apply Permutation_in;
      [|symmetry]; apply order_by_date_desc_Permutation. }
  rewrite filter_In, andb_true_iff. unfold visible.
  rewrite bool_decide_eq_true, String.eqb_eq. split.
  - intros (Hin & Huid & Heq). subst userId. auto.
  - intros (Hin & Heq & Huid). subst userId. auto.
Qed.

(** X16. On the reference store [getExpenses] never throws and changes
    nothing; it returns one object for every row that belongs both to the
    requested user and to the signed-in user, with the columns carried over
    field by field, newest date first, and nothing for a user who is not
    the one signed in: no expense of another owner is ever returned. *)
Theorem getExpenses_spec (userId : string) (ls : gmap string string) (db : Db) :
  exists rows,
    supabaseStorage_getExpenses userId {| localStorage := ls; supabase := db |}
    = (Returned (map getExpenses_item rows),
       {| localStorage := ls; supabase := db |})
    /\ (forall r, In r rows <->
          In r (expenses db) /\ row_user_id r = userId
          /\ auth_uid db = Some userId)
    /\ Permutation rows
         (List.filter (fun r => visible db (row_user_id r)
                                && String.eqb (row_user_id r) userId)
                      (expenses db))
    /\ Sorted date_desc rows
    /\ (auth_uid db <> Some userId -> rows = []).
Proof.
  eexists. split; [apply getExpenses_Db|].
  split; [apply In_getExpenses_rows|].
  split; [apply order_by_date_desc_Permutation|].
  split; [apply order_by_date_desc_Sorted|].
  intros Hother.
  destruct (order_by_date_desc _) as [|r l] eqn:Hrows; [reflexivity|].
  exfalso. apply Hother.
  assert (In r (r :: l)) as Hin by (by left).
  rewrite <- Hrows in Hin. by apply In_getExpenses_rows in Hin as (_ & _ & ?).
Qed.

Lemma getExpenses_spec_witness :
  supabaseStorage_getExpenses "u1" {| localStorage := ∅; supabase := db_shared |}
  = (Returned
       [ mkFetchedExpense "c" "2024-03-05" "travel" "bus" 3 "upi" (Some "work")
                          "2024-03-05T07:00:00Z";
         mkFetchedExpense "a" "2024-02-10" "food" "pizza" 20 "cash" None
                          "2024-02-10T19:00:00Z";
         mkFetchedExpense "d" "2024-01-20" "health" "dentist" 75 "card" None
                          "2024-01-20T15:00:00Z" ],
     {| localStorage := ∅; supabase := db_shared |})
  /\ supabaseStorage_getExpenses "u2"
       {| localStorage := ∅; supabase := db_shared |}
     = (Returned [], {| localStorage := ∅; supabase := db_shared |}).
Proof.
  destruct (getExpenses_spec "u2" ∅ db_shared) as (rows & Hrun & _ & _ & _ & Hnone).
  rewrite (Hnone ltac:(discriminate)) in Hrun.
  split; [vm_compute; reflexivity | exact Hrun].
Defined.

(** X17. An expense that [addExpense] stored is given back by
    [getExpenses] of the same user with the same date, category,
    description, amount, payment method and tag, under the [id] and the
    [createdAt] the store assigned; what [getExpenses] returned before is
    still returned, and the result is longer by one. *)
Theorem addExpense_getExpenses (userId : string) (expense : NewExpense)
    (ls : gmap string string) (db : Db) (w' : World Db) :
  auth_uid db = Some userId ->
  supabaseStorage_addExpense userId expense
    {| localStorage := ls; supabase := db |} = (Returned tt, w') ->
  exists before after,
    supabaseStorage_getExpenses userId {| localStorage := ls; supabase := db |}
    = (Returned before, {| localStorage := ls; supabase := db |})
    /\ supabaseStorage_getExpenses userId w' = (Returned after, w')
    /\ In (fetched_of (gen_uuid (uuid_supply db)) (clock db) expense) after
    /\ (forall o, In o before -> In o after)
    /\ length after = Datatypes.S (length before).
Proof.
  intros Huid Hadd.
  assert (Hw : w' = {| localStorage := ls;
                       supabase :=
                         {| auth_uid := auth_uid db;
                            expenses := expenses db ++ [stored_row db userId expense];
                            monthly_budgets := monthly_budgets db;
                            uuid_supply := Datatypes.S (uuid_supply db);
                            clock := clock db |} |}).
  { unfold supabaseStorage_addExpense in Hadd. unfold_M.
    cbn [supabase localStorage expenses_insert Db_Supabase] in Hadd.
    destruct (Db_expenses_insert_cases [addExpense_row userId expense] db)
      as [[e He] | He]; rewrite He in Hadd; [discriminate|].
    by injection Hadd as <-. }
  subst w'. eexists _, _.
  split; [apply getExpenses_Db|]. split; [apply getExpenses_Db|].
  cbn [expenses auth_uid].
  assert (Hperm : Permutation
            (order_by_date_desc
               (List.filter (fun r => visible
                    {| auth_uid := auth_uid db;
                       expenses := expenses db ++ [stored_row db userId expense];
                       monthly_budgets := monthly_budgets db;
                       uuid_supply := Datatypes.S (uuid_supply db);
                       clock := clock db |} (row_user_id r)
                  && String.eqb (row_user_id r) userId)
                  (expenses db ++ [stored_row db userId expense])))
            (stored_row db userId expense
             :: order_by_date_desc
                  (List.filter (fun r => visible db (row_user_id r)
                                         && String.eqb (row_user_id r) userId)
                               (expenses db)))).
  { rewrite !order_by_date_desc_Permutation, List.filter_app.
    unfold visible. cbn [auth_uid]. rewrite Huid.
    cbn [List.filter row_user_id stored_row].
    rewrite bool_decide_eq_true_2, String.eqb_refl by reflexivity.
    cbn [andb]. rewrite Permutation_app_comm. reflexivity. }
  split; [|split].
  - apply in_map_iff. exists (stored_row db userId expense).
    split; [reflexivity|].
    apply (Permutation_in _ (Permutation_sym Hperm)). by left.
  - intros o Ho. apply in_map_iff in Ho as (r & <- & Hr).
    apply in_map. apply (Permutation_in _ (Permutation_sym Hperm)). by right.
  - rewrite !length_map. by rewrite (Permutation_length Hperm).
Qed.

Lemma addExpense_getExpenses_witness :
  exists after,
    supabaseStorage_getExpenses "u1"
      (snd (supabaseStorage_addExpense "u1" coffee
              {| localStorage := ∅; supabase := db_shared |}))
    = (Returned after,
       snd (supabaseStorage_addExpense "u1" coffee
              {| localStorage := ∅; supabase := db_shared |}))
    /\ In (mkFetchedExpense "uuid-0" "2024-03-20" "food" "coffee" (7 # 2) "upi"
                            (Some "work") "2024-03-31T12:00:00Z") after
    /\ length after = 4%nat.
Proof.
  destruct (addExpense_getExpenses "u1" coffee ∅ db_shared
              (snd (supabaseStorage_addExpense "u1" coffee
                      {| localStorage := ∅; supabase := db_shared |})))
    as (before & after & Hb & Ha & Hin & _ & Hlen).
  - reflexivity.
  - vm_compute. reflexivity.
  - exists after. split; [exact Ha|]. split; [exact Hin|].
    rewrite Hlen. f_equal.
    assert (before = map getExpenses_item
                       (order_by_date_desc
                          (List.filter (fun r => visible db_shared (row_user_id r)
                                                 && String.eqb (row_user_id r) "u1")
                                       (expenses db_shared)))) as ->
      by (rewrite getExpenses_Db in Hb; congruence).
    vm_compute. reflexivity.
Defined.

(** ** Deleting an expense *)

Lemma deleteExpense_Db id_ ls db :
  supabaseStorage_deleteExpense id_ {| localStorage := ls; supabase := db |}
  = (Returned tt,
     {| localStorage := ls; supabase := snd (Db_expenses_delete id_ db) |}).
Proof. reflexivity. Qed.

Lemma filter_filter_same {A} (p : A -> bool) (l : list A) :
  List.filter p (List.filter p l) = List.filter p l.
Proof.
  induction l as [|x l IH]; simpl; [reflexivity|].
  destruct (p x) eqn:Hp; simpl; [rewrite Hp; by f_equal | exact IH].
Qed.

(** X18. On the reference store [deleteExpense] never throws; it removes
    the rows with the given [id] that the signed-in user owns and leaves
    every other row and the budgets as they are; deleting again changes
    nothing; and [getExpenses] afterwards returns what it returned before
    without the objects of that [id]. *)
Theorem deleteExpense_spec (id_ : string) (ls : gmap string string) (db : Db) :
  exists db',
    supabaseStorage_deleteExpense id_ {| localStorage := ls; supabase := db |}
    = (Returned tt, {| localStorage := ls; supabase := db' |})
    /\ (forall r, In r (expenses db') <->
          In r (expenses db)
          /\ ~ (row_id r = id_ /\ auth_uid db = Some (row_user_id r)))
    /\ monthly_budgets db' = monthly_budgets db
    /\ supabaseStorage_deleteExpense id_ {| localStorage := ls; supabase := db' |}
       = (Returned tt, {| localStorage := ls; supabase := db' |})
    /\ (forall userId before after,
          supabaseStorage_getExpenses userId
            {| localStorage := ls; supabase := db |}
          = (Returned before, {| localStorage := ls; supabase := db |}) ->
          supabaseStorage_getExpenses userId
            {| localStorage := ls; supabase := db' |}
          = (Returned after, {| localStorage := ls; supabase := db' |}) ->
          forall o, In o after <-> In o before /\ fetched_id o <> id_).
Proof.
  exists (snd (Db_expenses_delete id_ db)).
  split; [apply deleteExpense_Db|].
  assert (Hrows : forall r,
             In r (expenses (snd (Db_expenses_delete id_ db))) <->
             In r (expenses db)
             /\ ~ (row_id r = id_ /\ auth_uid db = Some (row_user_id r))).
  { intros r. cbn [Db_expenses_delete snd expenses].
    rewrite filter_In, negb_true_iff, andb_false_iff.
    unfold visible. rewrite bool_decide_eq_false.
    destruct (String.eqb_spec (row_id r) id_); intuition congruence. }
  split; [exact Hrows|]. split; [reflexivity|]. split.
  - rewrite deleteExpense_Db. do 2 f_equal.
    unfold Db_expenses_delete. cbn [snd expenses auth_uid monthly_budgets
                                    uuid_supply clock visible].
    f_equal. unfold visible. cbn [auth_uid]. apply filter_filter_same.
  - intros userId before after Hb Ha o.
    rewrite getExpenses_Db in Hb, Ha.
    injection Hb as <-. injection Ha as <-.
    rewrite !in_map_iff. split.
    + intros (r & <- & Hr). apply In_getExpenses_rows in Hr as (Hin & Hu & Ha).
      apply Hrows in Hin as (Hin & Hkeep). split.
      * exists r. split; [reflexivity|]. by apply In_getExpenses_rows.
      * simpl. intros Hid. apply Hkeep. split; [exact Hid|].
        cbn [Db_expenses_delete snd auth_uid] in Ha. congruence.
    + intros ((r & <- & Hr) & Hid).
      apply In_getExpenses_rows in Hr as (Hin & Hu & Ha).
      exists r. split; [reflexivity|]. apply In_getExpenses_rows.
      split; [|split; [exact Hu | exact Ha]].
      apply Hrows. split; [exact Hin|]. intros [Hid' _]. by apply Hid.
Qed.

(** ** Budgets *)

Lemma same_budget_true userId month_ r :
  same_budget userId month_ r = true
  <-> brow_user_id r = userId /\ brow_month r = month_.
Proof.
  unfold same_budget. by rewrite andb_true_iff, !String.eqb_eq.
Qed.

Lemma filter_key_le_1 {A K : Type} `{!EqDecision K} (key : A -> K)
    (p : A -> bool) (k : K) (l : list A) :
  (forall x, p x = true -> key x = k) ->
  NoDup (map key l) ->
  (length (List.filter p l) <= 1)%nat.
Proof.
  intros Hp. induction l as [|x l IH]; simpl; [lia|].
  intros Hnd. apply NoDup_cons in Hnd as [Hx Hnd].
  destruct (p x) eqn:Hpx; [|by apply IH]. simpl.
  destruct (List.filter p l) as [|y l'] eqn:Hf; [simpl; lia|].
  exfalso. apply Hx.
  assert (In y (List.filter p l)) as Hy by (rewrite Hf; by left).
  apply filter_In in Hy as [Hy Hpy].
  rewrite (Hp x Hpx), <- (Hp y Hpy). apply list_elem_of_In, in_map. exact Hy.
Qed.

Lemma budgets_at_most_one userId month_ (p : BudgetRow -> bool) l :
  (forall r, p r = true -> same_budget userId month_ r = true) ->
  distinct (fun r => (brow_user_id r, brow_month r)) l = true ->
  List.filter p l = []
  \/ exists r, List.filter p l = [r].
Proof.
  intros Hp Hd. apply distinct_NoDup in Hd.
  pose proof (filter_key_le_1 (fun r => (brow_user_id r, brow_month r)) p
                (userId, month_) l) as Hle.
  destruct (List.filter p l) as [|r [|r' l']]; [by left | right; eauto|].
  exfalso. simpl in Hle.
  assert (S (S (length l')) <= 1)%nat as Hbad; [|lia].
  apply Hle; [|exact Hd].
  intros x Hx. apply Hp, same_budget_true in Hx as [-> ->]. reflexivity.
Qed.

Lemma getBudgetForMonth_Db userId month_ ls db :
  supabaseStorage_getBudgetForMonth userId month_
    {| localStorage := ls; supabase := db |}
  = match List.filter (fun r => visible db (brow_user_id r)
                                && same_budget userId month_ r)
                      (monthly_budgets db) with
    | [] => (Returned None, {| localStorage := ls; supabase := db |})
    | [r] => (Returned (Some (getBudgets_item r)),
              {| localStorage := ls; supabase := db |})
    | _ => (Thrown (PostgrestError "PGRST116"
                      "JSON object requested, multiple (or no) rows returned"),
            {| localStorage := ls; supabase := db |})
    end.
Proof.
  unfold supabaseStorage_getBudgetForMonth, query. unfold_M.
  cbn [supabase monthly_budgets_select_maybeSingle Db_SupabaseQueries].
  unfold Db_monthly_budgets_select_maybeSingle.
  destruct (List.filter _ (monthly_budgets db)) as [|r [|r' l]]; reflexivity.
Qed.

(** X19. On a store that has at most one budget for a user and a month, as
    the constraint of the table demands, [getBudgetForMonth] never throws
    and changes nothing; it returns [null] exactly when the signed-in user
    has no budget for that month, and otherwise the month and the amount of
    that budget, whatever the amount: a budget of amount 0 is returned as a
    budget, not as [null]. *)
Theorem getBudgetForMonth_spec (userId month_ : string)
    (ls : gmap string string) (db : Db) :
  distinct (fun r => (brow_user_id r, brow_month r)) (monthly_budgets db) = true ->
  exists result,
    supabaseStorage_getBudgetForMonth userId month_
      {| localStorage := ls; supabase := db |}
    = (Returned result, {| localStorage := ls; supabase := db |})
    /\ (result = None <->
        ~ exists r, In r (monthly_budgets db)
                    /\ brow_user_id r = userId /\ brow_month r = month_
                    /\ auth_uid db = Some userId)
    /\ (forall r, In r (monthly_budgets db) ->
          brow_user_id r = userId -> brow_month r = month_ ->
          auth_uid db = Some userId ->
          result = Some {| budget_month := month_; budget_amount := brow_amount r |}).
Proof.
  intros Hd. rewrite getBudgetForMonth_Db.
  set (p := fun r => visible db (brow_user_id r) && same_budget userId month_ r).
  assert (Hp : forall r, p r = true <->
                         brow_user_id r = userId /\ brow_month r = month_
                         /\ auth_uid db = Some userId).
  { intros r. unfold p, visible.
    rewrite andb_true_iff, bool_decide_eq_true, same_budget_true.
    split; [intros (Ha & Hu & Hm) | intros (Hu & Hm & Ha)]; subst; auto. }
  destruct (budgets_at_most_one userId month_ p (monthly_budgets db))
    as [Hnil | [r Hone]]; [intros r Hr; unfold p in Hr;
                           by apply andb_true_iff in Hr as [_ ?] | exact Hd | |].
  - rewrite Hnil. eexists. split; [reflexivity|]. split.
    + split; [|reflexivity]. intros _ (r & Hin & Hr).
      assert (In r (List.filter p (monthly_budgets db))) as Hf
        by (apply filter_In; split; [exact Hin | by apply Hp]).
      rewrite Hnil in Hf. destruct Hf.
    + intros r Hin Hu Hm Ha. exfalso.
      assert (In r (List.filter p (monthly_budgets db))) as Hf
        by (apply filter_In; split; [exact Hin | by apply Hp]).
      rewrite Hnil in Hf. destruct Hf.
  - rewrite Hone. eexists. split; [reflexivity|].
    assert (In r (List.filter p (monthly_budgets db))) as Hr
      by (rewrite Hone; by left).
    apply filter_In in Hr as [Hrin Hrp]. apply Hp in Hrp as (Hu & Hm & Ha).
    split.
    + split; [discriminate|]. intros Hno. exfalso. apply Hno. eauto 6.
    + intros r' Hin' Hu' Hm' _. unfold getBudgets_item. rewrite Hm. do 3 f_equal.
      assert (In r' (List.filter p (monthly_budgets db))) as Hf
        by (apply filter_In; split; [exact Hin' | by apply Hp]).
      rewrite Hone in Hf. destruct Hf as [-> | []]. reflexivity.
Qed.

Lemma getBudgetForMonth_spec_witness :
  supabaseStorage_getBudgetForMonth "u1" "2024-03"
    {| localStorage := ∅; supabase := db_shared |}
  = (Returned (Some (mkBudget "2024-03" 4000)),
     {| localStorage := ∅; supabase := db_shared |})
  /\ supabaseStorage_getBudgetForMonth "u1" "2024-04"
       {| localStorage := ∅; supabase := db_shared |}
     = (Returned None, {| localStorage := ∅; supabase := db_shared |}).
Proof.
  destruct (getBudgetForMonth_spec "u1" "2024-03" ∅ db_shared)
    as (result & Hrun & _ & Hsome); [vm_compute; reflexivity|].
  rewrite (Hsome (mkBudgetRow "b-0" "u1" "2024-03" 4000 "2024-03-01T00:00:00Z"))
    in Hrun; [|by left | reflexivity | reflexivity | reflexivity].
  split; [exact Hrun | vm_compute; reflexivity].
Defined.

Lemma deleteExpense_spec_witness :
  supabaseStorage_getExpenses "u1"
    (snd (supabaseStorage_deleteExpense "c"
            {| localStorage := ∅; supabase := db_shared |}))
  = (Returned
       [ mkFetchedExpense "a" "2024-02-10" "food" "pizza" 20 "cash" None
                          "2024-02-10T19:00:00Z";
         mkFetchedExpense "d" "2024-01-20" "health" "dentist" 75 "card" None
                          "2024-01-20T15:00:00Z" ],
     snd (supabaseStorage_deleteExpense "c"
            {| localStorage := ∅; supabase := db_shared |}))
  /\ forall o,
       In o [ mkFetchedExpense "a" "2024-02-10" "food" "pizza" 20 "cash" None
                               "2024-02-10T19:00:00Z";
              mkFetchedExpense "d" "2024-01-20" "health" "dentist" 75 "card" None
                               "2024-01-20T15:00:00Z" ]
       <-> In o (map getExpenses_item
                   (order_by_date_desc
                      (List.filter
                         (fun r => visible db_shared (row_user_id r)
                                   && String.eqb (row_user_id r) "u1")
                         (expenses db_shared))))
           /\ fetched_id o <> "c"%string.
Proof.
  destruct (deleteExpense_spec "c" ∅ db_shared) as (db' & Hrun & _ & _ & _ & Hget).
  rewrite deleteExpense_Db in Hrun. injection Hrun as <-.
  split; [vm_compute; reflexivity|].
  apply (Hget "u1"%string); [apply getExpenses_Db | vm_compute; reflexivity].
Defined.

(** ** Saving a budget *)

Lemma saveBudget_Db userId budget ls db :
  supabaseStorage_saveBudget userId budget
    {| localStorage := ls; supabase := db |}
  = (match fst (Db_monthly_budgets_upsert (saveBudget_row userId budget) db) with
     | Some e => Thrown e
     | None => Returned tt
     end,
     {| localStorage := ls;
        supabase := snd (Db_monthly_budgets_upsert
                           (saveBudget_row userId budget) db) |}).
Proof.
  unfold supabaseStorage_saveBudget. unfold_M.
  cbn [supabase localStorage monthly_budgets_upsert Db_SupabaseQueries].
  fold (saveBudget_row userId budget).
  destruct (Db_monthly_budgets_upsert _ db) as [[e|] db']; reflexivity.
Qed.

Lemma Db_monthly_budgets_insert_distinct l db db' :
  Db_monthly_budgets_insert l db = (None, db') ->
  distinct (fun r => (brow_user_id r, brow_month r)) (monthly_budgets db') = true
  /\ auth_uid db' = auth_uid db
  /\ expenses db' = expenses db
  /\ monthly_budgets db'
     = monthly_budgets db ++ fst (budget_rows (clock db) (uuid_supply db) l).
Proof.
  unfold Db_monthly_budgets_insert.
  destruct (budget_rows (clock db) (uuid_supply db) l) as [rows n].
  destruct (negb (forallb _ rows)); [discriminate|].
  destruct (negb (distinct brow_id _)); [discriminate|].
  destruct (distinct (fun r => (brow_user_id r, brow_month r)) _) eqn:Hd;
    [|discriminate].
  intros [= <-]. simpl. auto.
Qed.

Lemma set_amount_key i r :
  brow_user_id (set_amount i r) = brow_user_id r
  /\ brow_month (set_amount i r) = brow_month r.
Proof. unfold set_amount. by destruct (same_budget _ _ r). Qed.

Lemma filter_map_commute {A} (p : A -> bool) (f : A -> A) (l : list A) :
  (forall x, p (f x) = p x) ->
  List.filter p (map f l) = map f (List.filter p l).
Proof.
  intros Hp. induction l as [|x l IH]; simpl; [reflexivity|].
  rewrite Hp. destruct (p x); simpl; by rewrite IH.
Qed.

Lemma filter_all_false {A} (p : A -> bool) (l : list A) :
  (forall x, In x l -> p x = false) -> List.filter p l = [].
Proof.
  induction l as [|x l IH]; intros Hp; simpl; [reflexivity|].
  rewrite (Hp x) by (by left). apply IH. intros y Hy. apply Hp. by right.
Qed.

Lemma own_budget_true db userId month_ r :
  own_budget db userId month_ r = true
  <-> brow_user_id r = userId /\ brow_month r = month_
      /\ auth_uid db = Some userId.
Proof.
  unfold own_budget, visible.
  rewrite andb_true_iff, bool_decide_eq_true, same_budget_true.
  split; [intros (Ha & Hu & Hm) | intros (Hu & Hm & Ha)]; subst; auto.
Qed.

Lemma own_budget_set_amount db userId month_ i r :
  own_budget db userId month_ (set_amount i r) = own_budget db userId month_ r.
Proof.
  unfold own_budget, same_budget.
  destruct (set_amount_key i r) as [-> ->]. reflexivity.
Qed.

Lemma getBudgetForMonth_own userId month_ ls db :
  supabaseStorage_getBudgetForMonth userId month_
    {| localStorage := ls; supabase := db |}
  = match List.filter (own_budget db userId month_) (monthly_budgets db) with
    | [] => (Returned None, {| localStorage := ls; supabase := db |})
    | [r] => (Returned (Some (getBudgets_item r)),
              {| localStorage := ls; supabase := db |})
    | _ => (Thrown (PostgrestError "PGRST116"
                      "JSON object requested, multiple (or no) rows returned"),
            {| localStorage := ls; supabase := db |})
    end.
Proof. apply getBudgetForMonth_Db. Qed.

(** What a [saveBudget] that resolved leaves in the store. *)
Lemma saveBudget_effect userId budget ls db w' :
  distinct (fun r => (brow_user_id r, brow_month r)) (monthly_budgets db) = true ->
  supabaseStorage_saveBudget userId budget
    {| localStorage := ls; supabase := db |} = (Returned tt, w') ->
  localStorage w' = ls
  /\ auth_uid (supabase w') = Some userId
  /\ auth_uid db = Some userId
  /\ expenses (supabase w') = expenses db
  /\ distinct (fun r => (brow_user_id r, brow_month r))
              (monthly_budgets (supabase w')) = true
  /\ (exists r,
        List.filter (own_budget (supabase w') userId (budget_month budget))
                    (monthly_budgets (supabase w')) = [r]
        /\ brow_month r = budget_month budget
        /\ brow_amount r = budget_amount budget)
  /\ (forall month_, month_ <> budget_month budget ->
        List.filter (own_budget (supabase w') userId month_)
                    (monthly_budgets (supabase w'))
        = List.filter (own_budget db userId month_) (monthly_budgets db)).
Proof.
  intros Hd. rewrite saveBudget_Db.
  destruct (Db_monthly_budgets_upsert (saveBudget_row userId budget) db)
    as [[e|] db'] eqn:Hup; [discriminate|].
  intros [= <-]. cbn [localStorage supabase fst snd].
  unfold Db_monthly_budgets_upsert in Hup.
  cbn [saveBudget_row bins_user_id bins_month bins_amount] in Hup.
  destruct (visible db userId) eqn:Hvis; [|discriminate]. cbn [negb] in Hup.
  assert (Huid : auth_uid db = Some userId)
    by (by apply bool_decide_eq_true in Hvis).
  destruct (existsb (same_budget userId (budget_month budget)) (monthly_budgets db))
    eqn:Hex.
  - injection Hup as <-. cbn [auth_uid expenses monthly_budgets].
    fold (saveBudget_row userId budget).
    change (map _ (monthly_budgets db))
      with (map (set_amount (saveBudget_row userId budget)) (monthly_budgets db)).
    assert (Hown : forall month_ r,
               own_budget {| auth_uid := auth_uid db; expenses := expenses db;
                             monthly_budgets :=
                               map (set_amount (saveBudget_row userId budget))
                                   (monthly_budgets db);
                             uuid_supply := uuid_supply db; clock := clock db |}
                          userId month_ r
               = own_budget db userId month_ r) by reflexivity.
    split; [reflexivity|]. split; [exact Huid|]. split; [exact Huid|].
    split; [reflexivity|]. split; [|split].
    + apply distinct_NoDup. rewrite map_map.
      erewrite map_ext; [by apply distinct_NoDup|].
      intros r. simpl. by destruct (set_amount_key (saveBudget_row userId budget) r)
        as [-> ->].
    + apply existsb_exists in Hex as (r0 & Hin0 & Hsame0).
      assert (own_budget db userId (budget_month budget) r0 = true) as Hown0.
      { apply own_budget_true. apply same_budget_true in Hsame0 as [? ?]. auto. }
      destruct (budgets_at_most_one userId (budget_month budget)
                  (own_budget db userId (budget_month budget)) (monthly_budgets db))
        as [Hnil | [r Hone]];
        [intros r Hr; unfold own_budget in Hr;
         by apply andb_true_iff in Hr as [_ ?] | exact Hd | |].
      * exfalso.
        assert (In r0 (List.filter (own_budget db userId (budget_month budget))
                                   (monthly_budgets db))) as Hf
          by (apply filter_In; split; assumption).
        rewrite Hnil in Hf. destruct Hf.
      * exists (set_amount (saveBudget_row userId budget) r).
        erewrite filter_ext_all by (intros r'; apply Hown).
        rewrite filter_map_commute by (intros r'; apply own_budget_set_amount).
        change (List.filter _ (monthly_budgets db))
          with (List.filter (own_budget db userId (budget_month budget))
                            (monthly_budgets db)).
        rewrite Hone. split; [reflexivity|].
        assert (In r (List.filter (own_budget db userId (budget_month budget))
                                  (monthly_budgets db))) as Hr
          by (rewrite Hone; by left).
        apply filter_In in Hr as [_ Hr].
        unfold own_budget in Hr. apply andb_true_iff in Hr as [_ Hr].
        unfold set_amount. cbn [saveBudget_row bins_user_id bins_month bins_amount].
        rewrite Hr. simpl. apply same_budget_true in Hr as [_ Hm]. auto.
    + intros month_ Hne.
      rewrite (filter_ext_all _ (own_budget db userId month_))
        by (intros r; apply Hown).
      rewrite filter_map_commute by (intros r; apply own_budget_set_amount).
      transitivity (map (fun r => r) (List.filter (own_budget db userId month_)
                                                  (monthly_budgets db)));
        [|apply List.map_id].
      apply map_ext_in. intros r Hr. apply filter_In in Hr as [_ Hr].
      apply own_budget_true in Hr as (Hu & Hm & _).
      unfold set_amount. cbn [saveBudget_row bins_user_id bins_month].
      destruct (same_budget userId (budget_month budget) r) eqn:Hs; [|reflexivity].
      apply same_budget_true in Hs as [_ Hm']. congruence.
  - apply Db_monthly_budgets_insert_distinct in Hup as (Hd' & Ha' & He' & Hrows).
    cbn [budget_rows fst saveBudget_row bins_user_id bins_month bins_amount]
      in Hrows.
    assert (Hown : forall month_ r,
               own_budget db' userId month_ r = own_budget db userId month_ r).
    { intros month_ r. unfold own_budget, visible. by rewrite Ha'. }
    assert (Hnone : forall r, In r (monthly_budgets db) ->
                              same_budget userId (budget_month budget) r = false).
    { intros r Hr. apply not_true_iff_false. intros Hs.
      apply not_true_iff_false in Hex. apply Hex.
      apply existsb_exists. eauto. }
    split; [reflexivity|]. split; [congruence|]. split; [exact Huid|].
    split; [exact He'|]. split; [exact Hd'|]. split.
    + rewrite Hrows, List.filter_app.
      rewrite !(filter_ext_all _ (own_budget db userId (budget_month budget)))
        by (intros r; apply Hown).
      rewrite (filter_all_false (own_budget db userId (budget_month budget))
                 (monthly_budgets db)).
      * cbn [List.filter app]. rewrite Hown.
        assert (own_budget db userId (budget_month budget)
                  {| brow_id := gen_uuid (uuid_supply db);
                     brow_user_id := userId;
                     brow_month := budget_month budget;
                     brow_amount := budget_amount budget;
                     brow_created_at := clock db |} = true) as ->.
        { apply own_budget_true. auto. }
        eexists. split; [reflexivity|]. auto.
      * intros r Hr. unfold own_budget. rewrite (Hnone r Hr). apply andb_false_r.
    + intros month_ Hne. rewrite Hrows, List.filter_app.
      rewrite !(filter_ext_all _ (own_budget db userId month_))
        by (intros r; apply Hown).
      cbn [List.filter]. rewrite Hown.
      assert (own_budget db userId month_
                {| brow_id := gen_uuid (uuid_supply db);
                   brow_user_id := userId;
                   brow_month := budget_month budget;
                   brow_amount := budget_amount budget;
                   brow_created_at := clock db |} = false) as ->.
      { apply not_true_iff_false. intros Hs.
        apply own_budget_true in Hs as (_ & Hm & _). simpl in Hm. congruence. }
      by rewrite app_nil_r.
Qed.

Lemma saveBudget_overwrite userId budget ls db :
  auth_uid db = Some userId ->
  existsb (same_budget userId (budget_month budget)) (monthly_budgets db) = true ->
  exists w',
    supabaseStorage_saveBudget userId budget
      {| localStorage := ls; supabase := db |} = (Returned tt, w')
    /\ length (monthly_budgets (supabase w')) = length (monthly_budgets db).
Proof.
  intros Huid Hex. rewrite saveBudget_Db. unfold Db_monthly_budgets_upsert.
  cbn [saveBudget_row bins_user_id bins_month bins_amount].
  assert (visible db userId = true) as ->
    by (by apply bool_decide_eq_true).
  rewrite Hex. cbn [negb fst snd]. eexists. split; [reflexivity|].
  cbn [supabase monthly_budgets]. apply length_map.
Qed.

Lemma own_budget_existsb db userId month_ r :
  List.filter (own_budget db userId month_) (monthly_budgets db) = [r] ->
  existsb (same_budget userId month_) (monthly_budgets db) = true.
Proof.
  intros Hf.
  assert (In r (List.filter (own_budget db userId month_) (monthly_budgets db)))
    as Hr by (rewrite Hf; by left).
  apply filter_In in Hr as [Hin Hr]. apply existsb_exists. exists r.
  split; [exact Hin|]. unfold own_budget in Hr.
  by apply andb_true_iff in Hr as [_ ?].
Qed.

(** X20 ([supabaseStorage.saveBudget] followed by
    [supabaseStorage.getBudgetForMonth], [src/lib/storage.ts]; the reference
    store keeps [UNIQUE(user_id, month)]).  When [saveBudget] resolves,
    reading the same month back yields exactly the budget that was saved; the
    uniqueness of (user, month) still holds; what is read for every other
    month is what was read before; and saving the same month again always
    resolves, adds no row, and replaces the amount that is read back. *)
Theorem saveBudget_getBudgetForMonth userId budget ls db w' :
  distinct (fun r => (brow_user_id r, brow_month r)) (monthly_budgets db) = true ->
  supabaseStorage_saveBudget userId budget
    {| localStorage := ls; supabase := db |} = (Returned tt, w') ->
  supabaseStorage_getBudgetForMonth userId (budget_month budget) w'
  = (Returned (Some budget), w')
  /\ distinct (fun r => (brow_user_id r, brow_month r))
              (monthly_budgets (supabase w')) = true
  /\ expenses (supabase w') = expenses db
  /\ (forall month_, month_ <> budget_month budget ->
        fst (supabaseStorage_getBudgetForMonth userId month_ w')
        = fst (supabaseStorage_getBudgetForMonth userId month_
                 {| localStorage := ls; supabase := db |}))
  /\ (forall amount', exists w'',
        supabaseStorage_saveBudget userId
          (mkBudget (budget_month budget) amount') w' = (Returned tt, w'')
        /\ length (monthly_budgets (supabase w''))
           = length (monthly_budgets (supabase w'))
        /\ supabaseStorage_getBudgetForMonth userId (budget_month budget) w''
           = (Returned (Some (mkBudget (budget_month budget) amount')), w'')).
Proof.
  intros Hd Hrun.
  destruct (saveBudget_effect _ _ _ _ _ Hd Hrun)
    as (Hls & Huid' & Huid & Hexp & Hd' & (r & Hone & Hm & Ha) & Hother).
  destruct w' as [ls' db']. cbn [localStorage supabase] in *. subst ls'.
  split; [|split; [exact Hd'|split; [exact Hexp|split]]].
  - rewrite getBudgetForMonth_own, Hone. unfold getBudgets_item.
    rewrite Hm, Ha. by destruct budget.
  - intros month_ Hne. rewrite !getBudgetForMonth_own, (Hother month_ Hne).
    destruct (List.filter _ (monthly_budgets db)) as [|? [|? ?]]; reflexivity.
  - intros amount'.
    destruct (saveBudget_overwrite userId (mkBudget (budget_month budget) amount')
                ls db' Huid' (own_budget_existsb _ _ _ _ Hone))
      as (w'' & Hrun2 & Hlen).
    exists w''. split; [exact Hrun2|]. split; [exact Hlen|].
    destruct (saveBudget_effect _ _ _ _ _ Hd' Hrun2)
      as (Hls2 & _ & _ & _ & _ & (r2 & Hone2 & Hm2 & Ha2) & _).
    destruct w'' as [ls'' db'']. cbn [localStorage supabase] in *. subst ls''.
    cbn [budget_month budget_amount] in *.
    rewrite getBudgetForMonth_own, Hone2. unfold getBudgets_item.
    by rewrite Hm2, Ha2.
Qed.

Lemma saveBudget_getBudgetForMonth_witness :
  exists w',
    supabaseStorage_saveBudget "u1" budget_1000
      {| localStorage := ∅; supabase := db_shared |} = (Returned tt, w')
    /\ supabaseStorage_getBudgetForMonth "u1" "2024-03" w'
       = (Returned (Some budget_1000), w')
    /\ length (monthly_budgets (supabase w')) = 2%nat.
Proof.
  eexists. split; [vm_compute; reflexivity|].
  split; [|vm_compute; reflexivity].
  apply (saveBudget_getBudgetForMonth "u1" budget_1000 ∅ db_shared);
    vm_compute; reflexivity.
Defined.

(** ** Editing an expense through the form *)

(** X21 ([handleSubmit] of [src/pages/AddExpense.tsx] with an expense being
    edited, followed by [supabaseStorage.updateExpense]).  A submission that
    reaches the store carries the id of the edited expense, an amount that
    parsed and is strictly positive and a description that is not blank.  On
    the reference store the caller's row with that id takes the category,
    the trimmed description, the amount and the payment method of the form;
    the date is written unless the field is empty; and a tag field that is
    blank leaves the stored tag as it was, so a tag cannot be removed by
    editing.  The id, the owner and the creation time stay, as do all other
    rows and the budgets. *)
Theorem edit_submit_spec {builtins : Builtins} (editing : Expense) (f : Form)
    (id_ : string) (data : PartialExpense) (ls : gmap string string) (db : Db) :
  handleSubmit (Some editing) f = updateMutation_mutate id_ data ->
  id_ = id editing
  /\ exists n,
       parseFloat (form_amount f) = Some n
       /\ 0 < n
       /\ trim (form_description f) <> ""%string
       /\ exists db',
            supabaseStorage_updateExpense id_ data
              {| localStorage := ls; supabase := db |}
            = (Returned tt, {| localStorage := ls; supabase := db' |})
            /\ auth_uid db' = auth_uid db
            /\ monthly_budgets db' = monthly_budgets db
            /\ expenses db'
               = map (fun r =>
                        if bool_decide (row_id r = id editing)
                           && bool_decide (auth_uid db = Some (row_user_id r))
                        then edited_row f n r else r)
                     (expenses db).
Proof.
  unfold handleSubmit.
  destruct (parseFloat (form_amount f)) as [n|] eqn:Hparse; [|discriminate].
  destruct (Qle_bool n 0) eqn:Hle; [discriminate|].
  destruct (truthy (trim (form_description f))) eqn:Hdesc; [|discriminate].
  cbn [negb]. intros [= <- <-]. split; [reflexivity|].
  exists n. split; [reflexivity|]. split.
  { apply Qnot_le_lt. intros Hn. apply Qle_bool_iff in Hn. congruence. }
  split.
  { intros Hempty. rewrite Hempty in Hdesc. discriminate. }
  unfold supabaseStorage_updateExpense. unfold_M.
  cbn [supabase localStorage expenses_update_eq_id Db_Supabase].
  unfold Db_expenses_update_eq_id. eexists. split; [reflexivity|].
  cbn [expenses monthly_budgets auth_uid]. split; [reflexivity|].
  split; [reflexivity|].
  apply map_ext. intros r. destruct (_ && _); [|reflexivity].
  unfold apply_update, updateExpense_updates, edited_row.
  cbn [upd_date upd_category upd_description upd_amount upd_payment_method
       upd_tag p_date p_category p_description p_amount p_paymentMethod p_tag].
  rewrite if_truthy_category, if_truthy_paymentMethod.
  cbn [if_truthy fmap option_fmap option_map default]. rewrite Hdesc.
  destruct (truthy (form_date f)), (truthy (trim (form_tag f))); reflexivity.
Qed.

Lemma edit_submit_spec_witness :
  exists db',
    supabaseStorage_updateExpense "c"
      {| p_id := None; p_date := Some "2024-03-20"%string;
         p_category := Some food; p_description := Some "lunch"%string;
         p_amount := Some (25 # 2); p_paymentMethod := Some upi;
         p_tag := None; p_createdAt := None |}
      {| localStorage := ∅; supabase := db_shared |}
    = (Returned tt, {| localStorage := ∅; supabase := db' |})
    /\ expenses db'
       = [ mkExpenseRow "a" "u1" "2024-02-10" "food" "pizza" 20 "cash" None
                        "2024-02-10T19:00:00Z";
           mkExpenseRow "b" "u2" "2024-03-01" "rent" "flat" 900 "bank" None
                        "2024-03-01T08:00:00Z";
           mkExpenseRow "c" "u1" "2024-03-20" "food" "lunch" (25 # 2) "upi"
                        (Some "work") "2024-03-05T07:00:00Z";
           mkExpenseRow "d" "u1" "2024-01-20" "health" "dentist" 75 "card" None
                        "2024-01-20T15:00:00Z" ].
Proof.
  destruct (edit_submit_spec (builtins := table_parseFloat) editing_c lunch_form
              "c"
              {| p_id := None; p_date := Some "2024-03-20"%string;
                 p_category := Some food; p_description := Some "lunch"%string;
                 p_amount := Some (25 # 2); p_paymentMethod := Some upi;
                 p_tag := None; p_createdAt := None |}
              ∅ db_shared)
    as (_ & n & Hn & _ & _ & db' & Hrun & _ & _ & Hrows);
    [vm_compute; reflexivity|].
  injection Hn as <-.
  exists db'. split; [exact Hrun|]. rewrite Hrows. vm_compute. reflexivity.
Defined.

(** ** The list of budgets *)

Lemma find_head_filter {A} (p : A -> bool) (l : list A) :
  List.find p l = head (List.filter p l).
Proof.
  induction l as [|x l IH]; simpl; [reflexivity|].
  destruct (p x); [reflexivity | exact IH].
Qed.

Lemma filter_map_comp {A B} (p : B -> bool) (f : A -> B) (l : list A) :
  List.filter p (map f l) = map f (List.filter (fun x => p (f x)) l).
Proof.
  induction l as [|x l IH]; simpl; [reflexivity|].
  destruct (p (f x)); simpl; by rewrite IH.
Qed.

Lemma filter_filter_and {A} (p q : A -> bool) (l : list A) :
  List.filter p (List.filter q l) = List.filter (fun x => q x && p x) l.
Proof.
  induction l as [|x l IH]; simpl; [reflexivity|].
  destruct (q x); simpl; [destruct (p x)|]; by rewrite IH.
Qed.

Lemma getBudgets_Db userId ls db :
  supabaseStorage_getBudgets userId {| localStorage := ls; supabase := db |}
  = (Returned
       (map getBudgets_item
            (List.filter (fun r => visible db (brow_user_id r)
                                   && String.eqb (brow_user_id r) userId)
                         (monthly_budgets db))),
     {| localStorage := ls; supabase := db |}).
Proof. reflexivity. Qed.

Lemma months_NoDup db userId l :
  NoDup (map (fun r => (brow_user_id r, brow_month r)) l) ->
  NoDup (map brow_month
             (List.filter (fun r => visible db (brow_user_id r)
                                    && String.eqb (brow_user_id r) userId) l)).
Proof.
  induction l as [|x l IH]; simpl; intros Hd; [constructor|].
  apply NoDup_cons in Hd as [Hx Hd]. rewrite list_elem_of_In in Hx.
  destruct (visible db (brow_user_id x) && String.eqb (brow_user_id x) userId)
    eqn:Hp; [|by apply IH].
  simpl. apply NoDup_cons. rewrite list_elem_of_In. split; [|by apply IH].
  intros Hin. apply Hx. apply in_map_iff in Hin as (r & Hm & Hr).
  apply filter_In in Hr as [Hr Hpr].
  apply in_map_iff. exists r. split; [|exact Hr].
  apply andb_true_iff in Hp as [_ Hu]. apply andb_true_iff in Hpr as [_ Hur].
  apply String.eqb_eq in Hu, Hur. congruence.
Qed.

(** X22 ([supabaseStorage.getBudgets] and
    [supabaseStorage.getBudgetForMonth], [src/lib/storage.ts]; the reference
    store keeps [UNIQUE(user_id, month)]).  [getBudgets] never throws and
    leaves the store as it is; the list holds at most one budget per month
    and is empty when [userId] is not the signed-in user; and for every
    month [getBudgetForMonth] resolves with the budget of that month in the
    list, or with [null] when the list has none. *)
Theorem getBudgets_spec userId ls db :
  distinct (fun r => (brow_user_id r, brow_month r)) (monthly_budgets db) = true ->
  exists budgets,
    supabaseStorage_getBudgets userId {| localStorage := ls; supabase := db |}
    = (Returned budgets, {| localStorage := ls; supabase := db |})
    /\ NoDup (map budget_month budgets)
    /\ (auth_uid db <> Some userId -> budgets = [])
    /\ forall month_,
         supabaseStorage_getBudgetForMonth userId month_
           {| localStorage := ls; supabase := db |}
         = (Returned (List.find (fun b => String.eqb (budget_month b) month_)
                                budgets),
            {| localStorage := ls; supabase := db |}).
Proof.
  intros Hd. eexists. split; [apply getBudgets_Db|]. split; [|split].
  - rewrite map_map. cbn [getBudgets_item budget_month].
    apply months_NoDup. by apply distinct_NoDup.
  - intros Hne. rewrite filter_all_false; [reflexivity|].
    intros r _. apply not_true_iff_false. intros Hp.
    apply andb_true_iff in Hp as [Hv Hu]. apply String.eqb_eq in Hu.
    apply bool_decide_eq_true in Hv. congruence.
  - intros month_. rewrite getBudgetForMonth_own, find_head_filter.
    rewrite filter_map_comp, filter_filter_and.
    cbn [getBudgets_item budget_month].
    match goal with
    | |- context [List.filter ?p (monthly_budgets db)] =>
        rewrite (filter_ext_all p (own_budget db userId month_))
          by (intros r; unfold own_budget, same_budget; by rewrite andb_assoc)
    end.
    destruct (budgets_at_most_one userId month_ (own_budget db userId month_)
                (monthly_budgets db)) as [-> | [r ->]]; [|exact Hd| |];
      [|reflexivity|reflexivity].
    intros r Hr. unfold own_budget in Hr. by apply andb_true_iff in Hr as [_ ?].
Qed.

Lemma getBudgets_spec_witness :
  supabaseStorage_getBudgets "u1"
    {| localStorage := ∅; supabase := db_shared |}
  = (Returned [mkBudget "2024-03" 4000],
     {| localStorage := ∅; supabase := db_shared |})
  /\ supabaseStorage_getBudgetForMonth "u1" "2024-03"
       {| localStorage := ∅; supabase := db_shared |}
     = (Returned (Some (mkBudget "2024-03" 4000)),
        {| localStorage := ∅; supabase := db_shared |})
  /\ supabaseStorage_getBudgetForMonth "u1" "2024-04"
       {| localStorage := ∅; supabase := db_shared |}
     = (Returned None, {| localStorage := ∅; supabase := db_shared |}).
Proof.
  destruct (getBudgets_spec "u1" ∅ db_shared) as (bs & Hrun & _ & _ & Hget);
    [vm_compute; reflexivity|].
  rewrite getBudgets_Db in Hrun. injection Hrun as <-.
  split; [vm_compute; reflexivity|]. split.
  - rewrite (Hget "2024-03"%string). vm_compute. reflexivity.
  - rewrite (Hget "2024-04"%string). vm_compute. reflexivity.
Defined.

(** ** Setting the monthly budget *)

(** X23 ([handleSaveBudget] and [saveBudgetMutation] of
    [src/pages/Analytics.tsx], the budget query of
    [src/pages/Dashboard.tsx]).  [handleSaveBudget] stops with the toast
    "Please enter a valid budget amount" exactly when the text does not
    parse or parses to an amount that is not positive; otherwise it submits
    the parsed amount.  When the save then resolves on the reference store,
    the budget query of the dashboard, run at any time of the same calendar
    month, resolves with that amount under the key of the month, and the
    percentage the dashboard derives from it is the month's total over that
    amount. *)
Theorem handleSaveBudget_spec {builtins : Builtins} (budgetAmount userId : string)
    (saved read : Date) (ls : gmap string string) (db : Db) :
  distinct (fun r => (brow_user_id r, brow_month r)) (monthly_budgets db) = true ->
  truthy userId = true ->
  getFullYear read = getFullYear saved ->
  getMonth read = getMonth saved ->
  (handleSaveBudget budgetAmount
   = Analytics_toast_error "Please enter a valid budget amount"
   /\ forall a, parseFloat budgetAmount = Some a -> a <= 0)
  \/ exists a,
       handleSaveBudget budgetAmount = saveBudgetMutation_mutate a
       /\ parseFloat budgetAmount = Some a
       /\ 0 < a
       /\ forall w',
            saveBudgetMutation_mutationFn userId saved a
              {| localStorage := ls; supabase := db |} = (Returned tt, w') ->
            Dashboard_budget_queryFn (Some userId) read w'
            = (Returned (Some (mkBudget (format_yyyy_MM saved) a)), w')
            /\ forall currentTotal,
                 Dashboard_budgetPercentage
                   (Some (mkBudget (format_yyyy_MM saved) a)) currentTotal * a
                 == currentTotal * 100.
Proof.
  intros Hd Huser Hy Hm. unfold handleSaveBudget.
  destruct (parseFloat budgetAmount) as [a|] eqn:Hparse;
    [|left; split; [reflexivity | discriminate]].
  destruct (Qle_bool a 0) eqn:Hle.
  - left. split; [reflexivity|]. intros a' [= <-]. by apply Qle_bool_iff.
  - right. exists a. split; [reflexivity|]. split; [reflexivity|].
    assert (0 < a) as Hpos.
    { apply Qnot_le_lt. intros Hn. apply Qle_bool_iff in Hn. congruence. }
    split; [exact Hpos|]. intros w' Hrun.
    unfold saveBudgetMutation_mutationFn in Hrun. cbv zeta in Hrun.
    destruct (saveBudget_effect _ _ _ _ _ Hd Hrun)
      as (Hls & _ & _ & _ & _ & (r & Hone & Hmr & Har) & _).
    cbn [budget_month budget_amount] in *.
    split.
    + unfold Dashboard_budget_queryFn. rewrite Huser.
      assert (format_yyyy_MM read = format_yyyy_MM saved) as ->
        by (unfold format_yyyy_MM; by rewrite Hy, Hm).
      destruct w' as [ls' db']. cbn [localStorage supabase] in *.
      rewrite getBudgetForMonth_own, Hone. unfold getBudgets_item.
      by rewrite Hmr, Har.
    + intros currentTotal.
      apply (Dashboard_budgetPercentage_pos
               (mkBudget (format_yyyy_MM saved) a) currentTotal Hpos).
Qed.

Lemma handleSaveBudget_spec_witness :
  handleSaveBudget (builtins := table_parseFloat) "12.50"
  = saveBudgetMutation_mutate (25 # 2)
  /\ exists w',
       saveBudgetMutation_mutationFn "u1" end_of_march (25 # 2)
         {| localStorage := ∅; supabase := db_shared |} = (Returned tt, w')
       /\ Dashboard_budget_queryFn (Some "u1"%string) start_of_march w'
          = (Returned (Some (mkBudget "2024-03" (25 # 2))), w').
Proof.
  destruct (handleSaveBudget_spec (builtins := table_parseFloat) "12.50" "u1"
              end_of_march start_of_march ∅ db_shared)
    as [[Herr _] | (a & Hsub & Hparse & _ & Hread)];
    [vm_compute; reflexivity | reflexivity | reflexivity | reflexivity
    | discriminate Herr |].
  injection Hparse as <-. split; [exact Hsub|].
  eexists. split; [vm_compute; reflexivity|].
  apply (Hread _). vm_compute. reflexivity.
Defined.
